(** * Back-office views of the store application

    A shallow embedding of [apps/accounts/views.py]: the employee,
    supplier, category, product and sale screens, the guards in front of
    them, and the sale aggregation.  The persisted store is an explicit
    value threaded through every view; the notices of the message
    framework travel with it. *)

From Stdlib Require Import ZArith List String Ascii Bool Lia.
From Stdlib Require Import Decimal DecimalString DecimalPos DecimalN Permutation Sorted.
Import ListNotations.

Set Implicit Arguments.
Open Scope string_scope.
Open Scope Z_scope.

(** ** Text helpers *)

(** [str(n)] of a non-negative integer. *)
Definition str_N (n : N) : string := NilEmpty.string_of_uint (N.to_uint n).

Definition str_nat (n : nat) : string := str_N (N.of_nat n).

(** One decimal digit as a character. *)
Definition digit (d : Z) : ascii := ascii_of_nat (48 + Z.to_nat d).

Definition is_digit (c : ascii) : bool :=
  let n := nat_of_ascii c in (48 <=? n)%nat && (n <=? 57)%nat.

Fixpoint all_digits (s : string) : bool :=
  match s with
  | EmptyString => true
  | String c s' => is_digit c && all_digits s'
  end.

(** The format [f'{x:.2f}'] of an amount held with two decimal places;
    [cents] is the amount in hundredths. *)
Definition fmt_2f (cents : Z) : string :=
  let a := Z.abs cents in
  (if cents <? 0 then "-" else EmptyString)
    ++ str_N (Z.to_N (a / 100))
    ++ String "."%char (String (digit ((a / 10) mod 10)) (String (digit (a mod 10)) EmptyString)).

(** Two-digit, zero-padded field of [strftime] ([%d], [%m], [%H], [%M]). *)
Definition pad2 (n : Z) : string :=
  String (digit ((n / 10) mod 10)) (String (digit (n mod 10)) EmptyString).

(** Four-digit year field [%Y]. *)
Definition pad4 (n : Z) : string :=
  String (digit ((n / 1000) mod 10)) (String (digit ((n / 100) mod 10)) (pad2 n)).

Definition lower_char (c : ascii) : ascii :=
  let n := nat_of_ascii c in
  if (65 <=? n)%nat && (n <=? 90)%nat then ascii_of_nat (n + 32) else c.

Fixpoint lower (s : string) : string :=
  match s with
  | EmptyString => EmptyString
  | String c s' => String (lower_char c) (lower s')
  end.

(** [needle in hay]. *)
Fixpoint contains (needle hay : string) {struct hay} : bool :=
  match hay with
  | EmptyString => prefix needle EmptyString
  | String _ hay' => prefix needle hay || contains needle hay'
  end.

(** The [__icontains] lookup: case-insensitive substring. *)
Definition icontains (field term : string) : bool :=
  contains (lower term) (lower field).

(** Truthiness of a Python string. *)
Definition truthy (s : string) : bool :=
  match s with EmptyString => false | _ => true end.

(** ** Data model *)

Record DateTime := mkDateTime
  { dt_year : Z; dt_month : Z; dt_day : Z; dt_hour : Z; dt_minute : Z }.

(** A calendar date, as a [DateField] cleans it. *)
Record Date := mkDate { d_year : Z; d_month : Z; d_day : Z }.

Definition date_of (t : DateTime) : Date :=
  mkDate (dt_year t) (dt_month t) (dt_day t).

Definition date_leb (a b : Date) : bool :=
  (d_year a <? d_year b)
  || ((d_year a =? d_year b)
      && ((d_month a <? d_month b)
          || ((d_month a =? d_month b) && (d_day a <=? d_day b)))).

(** [strftime('%d/%m/%Y %H:%M')]. *)
Definition strftime (t : DateTime) : string :=
  pad2 (dt_day t) ++ "/" ++ pad2 (dt_month t) ++ "/" ++ pad4 (dt_year t)
    ++ " " ++ pad2 (dt_hour t) ++ ":" ++ pad2 (dt_minute t).

(** Modelled from the spec: the [User] model of [apps/accounts/models.py]
    is not part of the sources; section 3 gives identity, contact
    information, a role (admin or cashier) and the active flag.  Instants
    ([date_joined], [created_at], [date]) are kept as integers. *)
Record User := mkUser
  { user_pk : Z;
    first_name : string;
    last_name : string;
    email : string;
    role : string;
    is_active : bool;
    date_joined : Z }.

(** Modelled from the spec: [Supplier] of [apps/core/models.py]. *)
Record Supplier := mkSupplier
  { supplier_pk : Z;
    supplier_name : string;
    supplier_status : string;
    supplier_created_at : Z }.

(** Modelled from the spec: [Category] of [apps/core/models.py]. *)
Record Category := mkCategory
  { category_pk : Z;
    category_name : string }.

(** Modelled from the spec: [Product] of [apps/core/models.py]. *)
Record Product := mkProduct
  { product_pk : Z;
    product_name : string;
    product_category : Z;
    product_status : string;
    product_created_at : Z }.

(** Modelled from the spec: [Sale] of [apps/core/models.py].  Amounts are
    in hundredths.  Section 3 lists no discount on a sale; the attribute
    is optional here so that [getattr(sale, 'discount', 0)] has both of
    its outcomes. *)
Record Sale := mkSale
  { sale_pk : Z;
    invoice_number : string;
    sale_date : Z;
    cashier : Z;
    sale_status : string;
    total_amount : Z;
    discount : option Z }.

(** Modelled from the spec: [SaleItem] of [apps/core/models.py]; it
    belongs to one sale and references one product. *)
Record SaleItem := mkSaleItem
  { item_pk : Z;
    item_sale : Z;
    item_product : Z;
    quantity : Z;
    unit_price : Z }.

(** Modelled from the spec: the derived [line_total] of a sale item is
    [quantity * unit_price]. *)
Definition line_total (item : SaleItem) : Z := quantity item * unit_price item.

Record ActivityLog := mkActivityLog
  { log_user : Z;
    verb : string;
    level : string;
    icon : string }.

(** The persisted store: one table per model, in insertion order. *)
Record DB := mkDB
  { users : list User;
    suppliers : list Supplier;
    categories : list Category;
    products : list Product;
    sales : list Sale;
    sale_items : list SaleItem;
    activity_log : list ActivityLog }.

(** ** The object-relational layer *)

(** What the views use of a model class: its primary key and its table. *)
Class Model (A : Type) :=
  { pk : A -> Z;
    with_pk : Z -> A -> A;
    objects : DB -> list A;
    with_objects : list A -> DB -> DB }.

#[export] Instance User_Model : Model User :=
  {| pk := user_pk;
     with_pk := fun k u =>
       mkUser k (first_name u) (last_name u) (email u) (role u) (is_active u) (date_joined u);
     objects := users;
     with_objects := fun l d =>
       mkDB l (suppliers d) (categories d) (products d) (sales d) (sale_items d) (activity_log d) |}.

#[export] Instance Supplier_Model : Model Supplier :=
  {| pk := supplier_pk;
     with_pk := fun k s => mkSupplier k (supplier_name s) (supplier_status s) (supplier_created_at s);
     objects := suppliers;
     with_objects := fun l d =>
       mkDB (users d) l (categories d) (products d) (sales d) (sale_items d) (activity_log d) |}.

#[export] Instance Category_Model : Model Category :=
  {| pk := category_pk;
     with_pk := fun k c => mkCategory k (category_name c);
     objects := categories;
     with_objects := fun l d =>
       mkDB (users d) (suppliers d) l (products d) (sales d) (sale_items d) (activity_log d) |}.

#[export] Instance Product_Model : Model Product :=
  {| pk := product_pk;
     with_pk := fun k p =>
       mkProduct k (product_name p) (product_category p) (product_status p) (product_created_at p);
     objects := products;
     with_objects := fun l d =>
       mkDB (users d) (suppliers d) (categories d) l (sales d) (sale_items d) (activity_log d) |}.

#[export] Instance Sale_Model : Model Sale :=
  {| pk := sale_pk;
     with_pk := fun k s =>
       mkSale k (invoice_number s) (sale_date s) (cashier s) (sale_status s) (total_amount s) (discount s);
     objects := sales;
     with_objects := fun l d =>
       mkDB (users d) (suppliers d) (categories d) (products d) l (sale_items d) (activity_log d) |}.

#[export] Instance SaleItem_Model : Model SaleItem :=
  {| pk := item_pk;
     with_pk := fun k i => mkSaleItem k (item_sale i) (item_product i) (quantity i) (unit_price i);
     objects := sale_items;
     with_objects := fun l d =>
       mkDB (users d) (suppliers d) (categories d) (products d) (sales d) l (activity_log d) |}.

Section Orm.
Context {A : Type} `{Model A}.

(** [qs.filter(pk=k).first()]; [None] where [get] raises [DoesNotExist]. *)
Definition get_pk (qs : list A) (k : Z) : option A :=
  find (fun r => pk r =? k) qs.

Definition exclude_pk (qs : list A) (k : Z) : list A :=
  filter (fun r => negb (pk r =? k)) qs.

(** The key an auto field hands to the next inserted row. *)
Definition next_pk (rows : list A) : Z :=
  1 + fold_right (fun r m => Z.max (pk r) m) 0 rows.

(** [Model.save()] of an instance that has a key: update the row, insert
    it when no row has the key. *)
Definition save_row (r : A) (rows : list A) : list A :=
  if existsb (fun x => pk x =? pk r) rows
  then map (fun x => if pk x =? pk r then r else x) rows
  else rows ++ [r].

Definition save (r : A) (d : DB) : DB := with_objects (save_row r (objects d)) d.

(** [Model.save()] of a new instance: the row gets the next key. *)
Definition create (r : A) (d : DB) : A * DB :=
  let r' := with_pk (next_pk (objects d)) r in
  (r', with_objects (objects d ++ [r']) d).

(** Rows left after [DELETE ... WHERE p]. *)
Definition delete_where (p : A -> bool) (d : DB) : DB :=
  with_objects (filter (fun r => negb (p r)) (objects d)) d.

(** Insertion of [x] in a list ordered by [leb]. *)
Fixpoint insert_by (leb : A -> A -> bool) (x : A) (l : list A) : list A :=
  match l with
  | [] => [x]
  | y :: l' => if leb x y then x :: l else y :: insert_by leb x l'
  end.

(** [order_by]: ties keep the table order. *)
Definition order_by (leb : A -> A -> bool) (l : list A) : list A :=
  fold_right (insert_by leb) [] l.
End Orm.

(** ** Requests, responses and notices *)

Inductive Principal :=
| AnonymousUser
| LoggedIn (u : User).

Definition is_authenticated (p : Principal) : bool :=
  match p with AnonymousUser => false | LoggedIn _ => true end.

(** Modelled from the spec: [User.is_admin()] of the absent model tells
    whether the role is the admin one. *)
Definition is_admin (p : Principal) : bool :=
  match p with AnonymousUser => false | LoggedIn u => String.eqb (role u) "admin" end.

Inductive Method := GET | POST.

Definition ErrorDict := list (string * string).

(** A form as a template sees it: unbound, or bound with its errors. *)
Inductive Form :=
| Unbound
| Bound (errors : ErrorDict).

(** [form.is_valid()]: bound and without errors. *)
Definition is_valid (f : Form) : bool :=
  match f with
  | Unbound => false
  | Bound [] => true
  | Bound (_ :: _) => false
  end.

Inductive MessageLevel := msg_info | msg_success | msg_error.

Definition Message := (MessageLevel * string)%type.

(** The context a template is rendered with. *)
Inductive Context :=
| ctx_form (form : Form)
| ctx_form_formset (form : Form) (formset : list Form)
| ctx_employee (employee : User).

Inductive Response :=
| HttpResponseRedirect (to : string)
| RedirectToLogin
| PermissionDenied
| Http404
| TemplateResponse (template : string) (context : Context).

(** What a view works on: the store and the notices queued for the user. *)
Record World := mkWorld { db : DB; messages : list Message }.

(** A step of a view either returns or raises [Http404]; what it wrote
    before raising stays written. *)
Inductive Outcome (R : Type) :=
| Return (r : R)
| Raise404.

Arguments Raise404 {R}.

Definition View (R : Type) := World -> Outcome R * World.

Definition ret {R} (r : R) : View R := fun w => (Return r, w).

Definition raise404 {R} : View R := fun w => (Raise404, w).

Definition bind {R S} (m : View R) (k : R -> View S) : View S :=
  fun w =>
    match m w with
    | (Return r, w') => k r w'
    | (Raise404, w') => (Raise404, w')
    end.

Declare Scope view_scope.
Delimit Scope view_scope with view.
Notation "x <- m ;; k" := (bind m (fun x => k))
  (at level 100, m at next level, right associativity) : view_scope.
Notation "m ;;; k" := (bind m (fun _ => k))
  (at level 100, right associativity) : view_scope.
Open Scope view_scope.

(** The response the framework sends for a view: an uncaught [Http404]
    becomes the not-found page. *)
Definition respond (v : View Response) (w : World) : Response * World :=
  match v w with
  | (Return r, w') => (r, w')
  | (Raise404, w') => (Http404, w')
  end.

Definition get_db : View DB := fun w => (Return (db w), w).

Definition modify_db (f : DB -> DB) : View unit :=
  fun w => (Return tt, mkWorld (f (db w)) (messages w)).

Definition add_message (lvl : MessageLevel) (text : string) : View unit :=
  fun w => (Return tt, mkWorld (db w) (messages w ++ [(lvl, text)])).

Definition messages_success := add_message msg_success.
Definition messages_error := add_message msg_error.
Definition messages_info := add_message msg_info.

Definition append_log (entry : ActivityLog) (d : DB) : DB :=
  mkDB (users d) (suppliers d) (categories d) (products d) (sales d) (sale_items d)
       (activity_log d ++ [entry]).

(** [ActivityLog.objects.create(user=..., verb=..., level=..., icon=...)]. *)
Definition ActivityLog_create (u : User) (v l i : string) : View unit :=
  modify_db (append_log (mkActivityLog (pk u) v l i)).

Definition redirect (to : string) : View Response := ret (HttpResponseRedirect to).

Definition render (template : string) (context : Context) : View Response :=
  ret (TemplateResponse template context).

(** ** Querysets *)

(** A queryset is a condition on the rows of a table and an ordering; it
    reads the store when it is evaluated, not when it is built. *)
Record QuerySet (A : Type) := mkQuerySet
  { where_ : DB -> A -> bool;
    ordering : option (A -> A -> bool) }.

Section QuerySets.
Context {A : Type} `{Model A}.

(** [Model.objects.all()]. *)
Definition objects_all : QuerySet A :=
  mkQuerySet (fun _ _ => true) None.

(** [qs.filter(...)]. *)
Definition qs_filter (p : DB -> A -> bool) (qs : QuerySet A) : QuerySet A :=
  mkQuerySet (fun d r => where_ qs d r && p d r) (ordering qs).

(** [qs.exclude(...)]. *)
Definition qs_exclude (p : DB -> A -> bool) (qs : QuerySet A) : QuerySet A :=
  mkQuerySet (fun d r => where_ qs d r && negb (p d r)) (ordering qs).

(** [qs.order_by(...)]. *)
Definition qs_order_by (leb : A -> A -> bool) (qs : QuerySet A) : QuerySet A :=
  mkQuerySet (where_ qs) (Some leb).

(** [a | b]: the conditions are joined with OR, the ordering is [a]'s. *)
Definition qs_or (a b : QuerySet A) : QuerySet A :=
  mkQuerySet (fun d r => where_ a d r || where_ b d r) (ordering a).

(** The rows a queryset yields when it is iterated. *)
Definition fetch (qs : QuerySet A) (d : DB) : list A :=
  let rows := filter (where_ qs d) (objects d) in
  match ordering qs with
  | None => rows
  | Some leb => order_by leb rows
  end.

(** [qs.count()]. *)
Definition qs_count (qs : QuerySet A) (d : DB) : nat := List.length (fetch qs d).

(** [qs.get(pk=k)]; [None] where it raises [DoesNotExist]. *)
Definition qs_get (qs : QuerySet A) (k : Z) (d : DB) : option A :=
  get_pk (fetch qs d) k.

(** [Model.delete()] of the row with key [k], without dependants. *)
Definition delete_pk (k : Z) (d : DB) : DB :=
  delete_where (fun r => pk r =? k) d.
End QuerySets.

(** Python's [sum]: from [0], left to right. *)
Definition sum (l : list Z) : Z := fold_left Z.add l 0.

(** [sale.items]: the items whose sale is [s]. *)
Definition items (s : Sale) : QuerySet SaleItem :=
  qs_filter (fun _ i => item_sale i =? pk s) objects_all.

(** [product.items]: the sale items that reference the product. *)
Definition product_items (p : Product) : QuerySet SaleItem :=
  qs_filter (fun _ i => item_product i =? pk p) objects_all.

(** Modelled from the spec: a [SaleItem] is deleted when its [Sale] is
    deleted, so deleting sales takes their items along. *)
Definition delete_sales (qs : QuerySet Sale) (d : DB) : DB :=
  let gone := fetch qs d in
  delete_where (where_ qs d)
    (delete_where (fun i : SaleItem => existsb (fun s => item_sale i =? pk s) gone) d).

(** ** What the views take from outside this file *)

Record EmployeeSearch := mkEmployeeSearch
  { es_search : string; es_role : string; es_status : string }.

Record SaleSearch := mkSaleSearch
  { ss_product_name : string;
    ss_invoice_number : string;
    ss_cashier : option Z;
    ss_status : string;
    ss_date_from : option Date;
    ss_date_to : option Date }.

(** The header of a sale as [SaleForm] cleans it. *)
Record SaleFormData := mkSaleFormData
  { f_invoice_number : string;
    f_date : Z;
    f_cashier : Z;
    f_status : string }.

(** One line of [SaleItemFormSet]: the key of the item it edits (none for
    a new line), the submitted fields and the deletion mark. *)
Record SaleItemFormData := mkSaleItemFormData
  { f_id : option Z;
    f_product : Z;
    f_quantity : Z;
    f_unit_price : Z;
    f_DELETE : bool }.

(** The form classes of [forms.py], the settings and the display name of
    the user model are not part of the sources: the views take them as
    given.  A form class is its error dictionary on submitted data; a
    search form is its validity. *)
Record Externals := mkExternals
  { EmployeeSearchForm : EmployeeSearch -> bool;
    SaleSearchForm : SaleSearch -> bool;
    RegisterForm : DB -> User -> ErrorDict;
    EmployeeCreateForm : DB -> User -> ErrorDict;
    EmployeeUpdateForm : DB -> User -> User -> ErrorDict;
    SupplierCreateForm : DB -> option Supplier -> Supplier -> ErrorDict;
    CategoryCreateForm : DB -> option Category -> Category -> ErrorDict;
    ProductCreateForm : DB -> option Product -> Product -> ErrorDict;
    SaleForm : DB -> option Sale -> SaleFormData -> ErrorDict;
    SaleItemForm : DB -> option Sale -> SaleItemFormData -> ErrorDict;
    localtime : Z -> DateTime;
    get_full_name : User -> string }.

(** ** Access guards *)

Inductive Mixin := LoginRequiredMixin | AdminRequiredMixin.

Definition Mixin_eqb (a b : Mixin) : bool :=
  match a, b with
  | LoginRequiredMixin, LoginRequiredMixin => true
  | AdminRequiredMixin, AdminRequiredMixin => true
  | _, _ => false
  end.

(** The guarded class-based views of the module. *)
Inductive ViewClass :=
| EmployeeListView | EmployeeCreateView | EmployeeUpdateView | EmployeeDetailView | EmployeeDeleteView
| SupplierListView | SupplierCreateView | SupplierUpdateView | SupplierDetailView | SupplierDeleteView
| CategoryListView | CategoryCreateView | CategoryUpdateView | CategoryDetailView | CategoryDeleteView
| ProductListView | ProductCreateView | ProductUpdateView | ProductDetailView | ProductDeleteView
| SaleListView | SaleBulkDeleteView | SaleDetailView | SaleDeleteView.

(** The mixins each class lists before its generic base. *)
Definition bases (v : ViewClass) : list Mixin :=
  match v with
  | SaleListView | SaleBulkDeleteView | SaleDetailView | SaleDeleteView =>
      [LoginRequiredMixin]
  | _ => [LoginRequiredMixin; AdminRequiredMixin]
  end.

Definition has_mixin (m : Mixin) (v : ViewClass) : bool :=
  existsb (Mixin_eqb m) (bases v).

Definition AdminRequiredMixin_test_func (user : Principal) : bool :=
  is_authenticated user && is_admin user.

Definition AdminRequiredMixin_handle_no_permission : View Response :=
  messages_error "Accès refusé : administrateurs uniquement." ;;;
  redirect "accounts:login".

(** [AccessMixin.handle_no_permission] with [raise_exception] left off. *)
Definition AccessMixin_handle_no_permission (user : Principal) : View Response :=
  if is_authenticated user then ret PermissionDenied else ret RedirectToLogin.

(** [self.handle_no_permission()]: the admin mixin's method comes first
    in the resolution order of the classes that list it. *)
Definition handle_no_permission (v : ViewClass) (user : Principal) : View Response :=
  if has_mixin AdminRequiredMixin v
  then AdminRequiredMixin_handle_no_permission
  else AccessMixin_handle_no_permission user.

(** [dispatch]: the login check, then the user test, then the handler of
    the generic view. *)
Definition dispatch (v : ViewClass) (user : Principal) (handler : View Response)
  : View Response :=
  if has_mixin LoginRequiredMixin v && negb (is_authenticated user)
  then handle_no_permission v user
  else if has_mixin AdminRequiredMixin v && negb (AdminRequiredMixin_test_func user)
  then handle_no_permission v user
  else handler.

(** ** Generic view machinery *)

Section Generic.
Context {A : Type} `{Model A}.

(** [SingleObjectMixin.get_object] and [get_object_or_404]. *)
Definition get_object (qs : QuerySet A) (k : Z) : View A :=
  fun w =>
    match qs_get qs k (db w) with
    | Some obj => (Return obj, w)
    | None => (Raise404, w)
    end.

(** [form.save()] of a model form without instance. *)
Definition form_save_new (data : A) : View A :=
  fun w => let (obj, d) := create data (db w) in (Return obj, mkWorld d (messages w)).

(** [form.save()] of a model form bound to [instance]. *)
Definition form_save (instance data : A) : View A :=
  let obj := with_pk (pk instance) data in
  modify_db (save obj) ;;; ret obj.

(** [qs.delete()]. *)
Definition qs_delete (qs : QuerySet A) : View unit :=
  modify_db (fun d => delete_where (where_ qs d) d).

(** [DeletionMixin.delete]: fetch the object again, delete it, redirect.
    The models are not part of the sources, so what their foreign keys do
    on deletion is not known: the row alone is removed. *)
Definition DeletionMixin_delete (qs : QuerySet A) (k : Z) (success_url : string)
  : View Response :=
  obj <- get_object qs k ;;
  modify_db (delete_pk (A := A) (pk obj)) ;;;
  redirect success_url.
End Generic.

(** [FormMixin.form_invalid]: render the template again with the form. *)
Definition FormMixin_form_invalid (template : string) (form : Form) : View Response :=
  render template (ctx_form form).

(** ** The views *)

Section Views.
Variable E : Externals.

(** *** Registration *)

Definition UserRegisterView_form_valid (data : User) : View Response :=
  obj <- form_save_new data ;;
  messages_success "Compte créé avec succès, vous pouvez vous connecter." ;;;
  ActivityLog_create obj "Compte créé" "success" "user-plus" ;;;
  redirect "accounts:login".

Definition UserRegisterView_form_invalid (form : Form) : View Response :=
  messages_error "Erreur dans le formulaire, vérifiez vos informations." ;;;
  FormMixin_form_invalid "accounts/register.html" form.

Definition UserRegisterView_post (data : User) : View Response :=
  d <- get_db ;;
  let form := Bound (RegisterForm E d data) in
  if is_valid form then UserRegisterView_form_valid data
  else UserRegisterView_form_invalid form.

(** *** Employees *)

Definition EmployeeListView_get_queryset (user : User) (GET : EmployeeSearch)
  : QuerySet User :=
  let qs := qs_order_by (fun a b => date_joined b <=? date_joined a)
              (qs_exclude (fun _ u => pk u =? pk user) objects_all) in
  if EmployeeSearchForm E GET then
    let search := es_search GET in
    let role_ := es_role GET in
    let status := es_status GET in
    let qs :=
      if truthy search then
        qs_or (qs_or (qs_filter (fun _ u => icontains (first_name u) search) qs)
                     (qs_filter (fun _ u => icontains (last_name u) search) qs))
              (qs_filter (fun _ u => icontains (email u) search) qs)
      else qs in
    let qs :=
      if truthy role_ then qs_filter (fun _ u => String.eqb (role u) role_) qs
      else qs in
    if String.eqb status "active" then
      qs_filter (fun _ u => Bool.eqb (is_active u) true) qs
    else if String.eqb status "inactive" then
      qs_filter (fun _ u => Bool.eqb (is_active u) false) qs
    else qs
  else qs.

Definition EmployeeCreateView_form_valid (user : User) (data : User)
  : View Response :=
  obj <- form_save_new data ;;
  messages_success ("Employé " ++ get_full_name E obj ++ " créé !") ;;;
  ActivityLog_create user "Employé ajouté" "success" "user-plus" ;;;
  redirect "accounts:employee_list".

Definition EmployeeCreateView_post (user : User) (data : User) : View Response :=
  d <- get_db ;;
  let form := Bound (EmployeeCreateForm E d data) in
  if is_valid form then EmployeeCreateView_form_valid user data
  else FormMixin_form_invalid "accounts/employees/employee_form.html" form.

Definition EmployeeUpdateView_get_queryset (user : User) : QuerySet User :=
  qs_exclude (fun _ u => pk u =? pk user) objects_all.

Definition EmployeeUpdateView_form_valid (user : User) (instance data : User)
  : View Response :=
  obj <- form_save instance data ;;
  messages_success ("Employé " ++ get_full_name E obj ++ " mis à jour !") ;;;
  ActivityLog_create user "Employé modifié" "info" "edit" ;;;
  redirect "accounts:employee_list".

Definition EmployeeUpdateView_post (user : User) (k : Z) (data : User) : View Response :=
  instance <- get_object (EmployeeUpdateView_get_queryset user) k ;;
  d <- get_db ;;
  let form := Bound (EmployeeUpdateForm E d instance data) in
  if is_valid form then EmployeeUpdateView_form_valid user instance data
  else FormMixin_form_invalid "accounts/employees/employee_form.html" form.

Definition EmployeeDetailView_get_queryset (user : User) : QuerySet User :=
  qs_exclude (fun _ u => pk u =? pk user) objects_all.

Definition EmployeeDetailView_get (user : User) (k : Z) : View Response :=
  obj <- get_object (EmployeeDetailView_get_queryset user) k ;;
  render "accounts/employees/employee_detail.html" (ctx_employee obj).

Definition EmployeeDeleteView_get_queryset (user : User) : QuerySet User :=
  qs_exclude (fun _ u => pk u =? pk user) objects_all.

Definition EmployeeDeleteView_delete (user : User) (k : Z) : View Response :=
  obj <- get_object (EmployeeDeleteView_get_queryset user) k ;;
  let name := get_full_name E obj in
  response <- DeletionMixin_delete (EmployeeDeleteView_get_queryset user) k
                "accounts:employee_list" ;;
  messages_success ("Employé " ++ name ++ " supprimé !") ;;;
  ActivityLog_create user "Employé supprimé" "danger" "trash" ;;;
  ret response.

(** *** Suppliers *)

Definition SupplierCreateView_form_valid (user : User) (data : Supplier)
  : View Response :=
  obj <- form_save_new data ;;
  messages_success ("Fournisseur " ++ supplier_name obj ++ " créé !") ;;;
  ActivityLog_create user "Fournisseur créé" "success" "truck" ;;;
  redirect "accounts:supplier_list".

Definition SupplierCreateView_post (user : User) (data : Supplier) : View Response :=
  d <- get_db ;;
  let form := Bound (SupplierCreateForm E d None data) in
  if is_valid form then SupplierCreateView_form_valid user data
  else FormMixin_form_invalid "accounts/suppliers/supplier_form.html" form.

Definition SupplierUpdateView_form_valid (user : User) (instance data : Supplier)
  : View Response :=
  obj <- form_save instance data ;;
  messages_success ("Fournisseur " ++ supplier_name obj ++ " mis à jour !") ;;;
  ActivityLog_create user "Fournisseur modifié" "info" "edit" ;;;
  redirect "accounts:supplier_list".

Definition SupplierUpdateView_post (user : User) (k : Z) (data : Supplier)
  : View Response :=
  instance <- get_object objects_all k ;;
  d <- get_db ;;
  let form := Bound (SupplierCreateForm E d (Some instance) data) in
  if is_valid form then SupplierUpdateView_form_valid user instance data
  else FormMixin_form_invalid "accounts/suppliers/supplier_form.html" form.

Definition SupplierDeleteView_delete (user : User) (k : Z) : View Response :=
  obj <- get_object (A := Supplier) objects_all k ;;
  let name := supplier_name obj in
  response <- DeletionMixin_delete (A := Supplier) objects_all k "accounts:supplier_list" ;;
  messages_success ("Fournisseur " ++ name ++ " supprimé !") ;;;
  ActivityLog_create user "Fournisseur supprimé" "danger" "trash" ;;;
  ret response.

(** *** Categories *)

Definition CategoryCreateView_form_valid (user : User) (data : Category)
  : View Response :=
  obj <- form_save_new data ;;
  messages_success ("Catégorie '" ++ category_name obj ++ "' créée !") ;;;
  ActivityLog_create user "Catégorie créée" "success" "tags" ;;;
  redirect "accounts:category_list".

Definition CategoryCreateView_post (user : User) (data : Category) : View Response :=
  d <- get_db ;;
  let form := Bound (CategoryCreateForm E d None data) in
  if is_valid form then CategoryCreateView_form_valid user data
  else FormMixin_form_invalid "accounts/categories/category_form.html" form.

Definition CategoryUpdateView_form_valid (user : User) (instance data : Category)
  : View Response :=
  obj <- form_save instance data ;;
  messages_success ("Catégorie '" ++ category_name obj ++ "' mise à jour !") ;;;
  ActivityLog_create user "Catégorie modifiée" "info" "edit" ;;;
  redirect "accounts:category_list".

Definition CategoryUpdateView_post (user : User) (k : Z) (data : Category)
  : View Response :=
  instance <- get_object objects_all k ;;
  d <- get_db ;;
  let form := Bound (CategoryCreateForm E d (Some instance) data) in
  if is_valid form then CategoryUpdateView_form_valid user instance data
  else FormMixin_form_invalid "accounts/categories/category_form.html" form.

Definition CategoryDeleteView_delete (user : User) (k : Z) : View Response :=
  obj <- get_object (A := Category) objects_all k ;;
  let name := category_name obj in
  response <- DeletionMixin_delete (A := Category) objects_all k "accounts:category_list" ;;
  messages_success ("Catégorie '" ++ name ++ "' supprimée !") ;;;
  ActivityLog_create user "Catégorie supprimée" "danger" "trash" ;;;
  ret response.

(** *** Products *)

Definition ProductCreateView_form_valid (user : User) (data : Product)
  : View Response :=
  obj <- form_save_new data ;;
  messages_success ("Produit '" ++ product_name obj ++ "' créé !") ;;;
  ActivityLog_create user "Produit ajouté" "success" "plus" ;;;
  redirect "accounts:product_list".

Definition ProductCreateView_post (user : User) (data : Product) : View Response :=
  d <- get_db ;;
  let form := Bound (ProductCreateForm E d None data) in
  if is_valid form then ProductCreateView_form_valid user data
  else FormMixin_form_invalid "accounts/products/product_form.html" form.

Definition ProductUpdateView_form_valid (user : User) (instance data : Product)
  : View Response :=
  obj <- form_save instance data ;;
  messages_success ("Produit '" ++ product_name obj ++ "' mis à jour !") ;;;
  ActivityLog_create user "Produit modifié" "info" "edit" ;;;
  redirect "accounts:product_list".

Definition ProductUpdateView_post (user : User) (k : Z) (data : Product)
  : View Response :=
  instance <- get_object objects_all k ;;
  d <- get_db ;;
  let form := Bound (ProductCreateForm E d (Some instance) data) in
  if is_valid form then ProductUpdateView_form_valid user instance data
  else FormMixin_form_invalid "accounts/products/product_form.html" form.

Definition ProductDeleteView_delete (user : User) (k : Z) : View Response :=
  obj <- get_object (A := Product) objects_all k ;;
  qs_delete (product_items obj) ;;;
  let name := product_name obj in
  response <- DeletionMixin_delete (A := Product) objects_all k "accounts:product_list" ;;
  messages_success
    ("Produit '" ++ name ++ "' et ses éléments de vente associés ont été supprimés.") ;;;
  ActivityLog_create user "Produit et éléments de vente supprimés" "danger" "trash" ;;;
  ret response.
End Views.

(** ** Pagination *)

(** [Paginator.num_pages] with no orphans and an empty first page
    allowed. *)
Definition Paginator_num_pages (count per_page : nat) : nat :=
  let hits := Nat.max 1 count in
  ((hits + per_page - 1) / per_page)%nat.

(** [Paginator.page(number)]: [None] where it raises [EmptyPage]. *)
Definition Paginator_page {A : Type} (object_list : list A) (per_page : nat) (number : Z)
  : option (list A) :=
  let count := List.length object_list in
  if (number <? 1) || (Z.of_nat (Paginator_num_pages count per_page) <? number) then None
  else
    let bottom := ((Z.to_nat number - 1) * per_page)%nat in
    let top := (if (count <=? bottom + per_page)%nat then count else bottom + per_page)%nat in
    Some (firstn (top - bottom) (skipn bottom object_list)).

(** ** The sale views *)

Record SaleListContext := mkSaleListContext
  { page_obj : list Sale;
    search_form : SaleSearch;
    total_revenue : Z }.

Record SaleItemJson := mkSaleItemJson
  { json_product : string;
    json_quantity : Z;
    json_unit_price : string;
    json_line_total : string }.

Record SaleJson := mkSaleJson
  { json_invoice_number : string;
    json_date : string;
    json_cashier : string;
    json_subtotal : string;
    json_discount : string;
    json_total_amount : string;
    json_items : list SaleItemJson }.

(** What [sale_detail_json] answers: the document, the not-found page, or
    a server error when a referenced row is missing. *)
Inductive JsonResponse :=
| JsonOk (body : SaleJson)
| JsonNotFound
| JsonServerError.

Definition with_total_amount (total : Z) (s : Sale) : Sale :=
  mkSale (sale_pk s) (invoice_number s) (sale_date s) (cashier s) (sale_status s)
         total (discount s).

(** The fields a [SaleForm] writes on its instance. *)
Definition apply_SaleForm (data : SaleFormData) (s : Sale) : Sale :=
  mkSale (sale_pk s) (f_invoice_number data) (f_date data) (f_cashier data)
         (f_status data) (total_amount s) (discount s).

(** A sale that has not been saved: no key, total at its default. *)
Definition new_Sale : Sale := mkSale 0 EmptyString 0 0 EmptyString 0 None.

Definition item_of_form (sale : Sale) (k : Z) (f : SaleItemFormData) : SaleItem :=
  mkSaleItem k (pk sale) (f_product f) (f_quantity f) (f_unit_price f).

(** [formset.save()], first half: the lines that carry the key of an item
    are deleted when marked, saved otherwise. *)
Definition save_existing_objects (sale : Sale) (forms : list SaleItemFormData) (d : DB) : DB :=
  fold_left
    (fun d f =>
       match f_id f with
       | None => d
       | Some k =>
           if f_DELETE f then delete_pk (A := SaleItem) k d
           else save (item_of_form sale k f) d
       end)
    forms d.

(** [formset.save()], second half: the unmarked lines without a key become
    new items of the sale. *)
Definition save_new_objects (sale : Sale) (forms : list SaleItemFormData) (d : DB) : DB :=
  fold_left
    (fun d f =>
       match f_id f with
       | Some _ => d
       | None =>
           if f_DELETE f then d
           else snd (create (item_of_form sale 0 f) d)
       end)
    forms d.

Definition SaleItemFormSet_save (sale : Sale) (forms : list SaleItemFormData) : View unit :=
  modify_db (fun d => save_new_objects sale forms (save_existing_objects sale forms d)).

(** Modelled from the spec: the formset of [forms.py] is valid when every
    line item is ("if any line item fails validation, the entire
    submission is rejected"). *)
Definition formset_is_valid (formset : list Form) : bool :=
  forallb is_valid formset.

Section SaleViews.
Variable E : Externals.

Definition SaleListView_queryset : QuerySet Sale :=
  qs_order_by (fun a b => sale_date b <=? sale_date a) objects_all.

(** [items__product__name__icontains=pn], made distinct: the sale has
    an item whose product's name contains [pn]. *)
Definition sells_product_named (pn : string) (d : DB) (s : Sale) : bool :=
  existsb
    (fun i : SaleItem =>
       (item_sale i =? pk s)
       && existsb (fun p : Product => (pk p =? item_product i)
                                      && icontains (product_name p) pn)
                  (products d))
    (sale_items d).

Definition SaleListView_get_queryset (GET : SaleSearch) : QuerySet Sale :=
  let qs := SaleListView_queryset in
  if SaleSearchForm E GET then
    let pn := ss_product_name GET in
    let qs := if truthy pn then qs_filter (sells_product_named pn) qs else qs in
    let qs :=
      if truthy (ss_invoice_number GET)
      then qs_filter (fun _ s => icontains (invoice_number s) (ss_invoice_number GET)) qs
      else qs in
    let qs :=
      match ss_cashier GET with
      | Some c => qs_filter (fun _ s => cashier s =? c) qs
      | None => qs
      end in
    let qs :=
      if truthy (ss_status GET)
      then qs_filter (fun _ s => String.eqb (sale_status s) (ss_status GET)) qs
      else qs in
    let qs :=
      match ss_date_from GET with
      | Some from =>
          qs_filter (fun _ s => date_leb from (date_of (localtime E (sale_date s)))) qs
      | None => qs
      end in
    match ss_date_to GET with
    | Some to => qs_filter (fun _ s => date_leb (date_of (localtime E (sale_date s))) to) qs
    | None => qs
    end
  else qs.

Definition SaleListView_paginate_by : nat := 7.

(** The page of the list view; a page that does not exist is not found. *)
Definition SaleListView_paginate_queryset (GET : SaleSearch) (page : Z) : View (list Sale) :=
  d <- get_db ;;
  match Paginator_page (fetch (SaleListView_get_queryset GET) d)
                       SaleListView_paginate_by page with
  | Some p => ret p
  | None => raise404
  end.

Definition SaleListView_get_context_data (GET : SaleSearch) (page : Z)
  : View SaleListContext :=
  page_obj <- SaleListView_paginate_queryset GET page ;;
  ret (mkSaleListContext page_obj GET (sum (map total_amount page_obj))).

(** The submitted identifiers are taken as keys. *)
Definition SaleBulkDeleteView_post (user : User) (ids : list Z) : View Response :=
  match ids with
  | _ :: _ =>
      let sales := qs_filter (fun _ s => existsb (Z.eqb (pk s)) ids) objects_all in
      d <- get_db ;;
      let count := qs_count sales d in
      modify_db (delete_sales sales) ;;;
      messages_success (str_nat count ++ " vente(s) supprimée(s).") ;;;
      ActivityLog_create user (str_nat count ++ " vente(s) supprimée(s) en masse")
                         "danger" "trash"
  | [] =>
      messages_info "Aucune vente sélectionnée."
  end ;;;
  redirect "accounts:sale_list".

(** The unbound formset of the create page is shown without its blank
    extra lines, whose number [forms.py] fixes; on the update page it
    has one unbound line per item of the sale. *)
Definition sale_create (method : Method) (user : User)
           (POST_form : SaleFormData) (POST_formset : list SaleItemFormData)
  : View Response :=
  match method with
  | POST =>
      d <- get_db ;;
      let form := Bound (SaleForm E d None POST_form) in
      let formset := map (fun f => Bound (SaleItemForm E d None f)) POST_formset in
      if is_valid form && formset_is_valid formset then
        sale <- form_save_new (apply_SaleForm POST_form new_Sale) ;;
        SaleItemFormSet_save sale POST_formset ;;;
        d <- get_db ;;
        let sale := with_total_amount (sum (map line_total (fetch (items sale) d))) sale in
        modify_db (save sale) ;;;
        messages_success ("Vente " ++ invoice_number sale ++ " enregistrée.") ;;;
        ActivityLog_create user "Vente créée" "success" "shopping-cart" ;;;
        redirect "accounts:sale_list"
      else
        render "accounts/sales/sale_form.html" (ctx_form_formset form formset)
  | GET =>
      render "accounts/sales/sale_form.html" (ctx_form_formset Unbound [])
  end.

Definition sale_update (method : Method) (user : User) (k : Z)
           (POST_form : SaleFormData) (POST_formset : list SaleItemFormData)
  : View Response :=
  sale <- get_object (A := Sale) objects_all k ;;
  match method with
  | POST =>
      d <- get_db ;;
      let form := Bound (SaleForm E d (Some sale) POST_form) in
      let formset := map (fun f => Bound (SaleItemForm E d (Some sale) f)) POST_formset in
      if is_valid form && formset_is_valid formset then
        let sale := apply_SaleForm POST_form sale in
        modify_db (save sale) ;;;
        SaleItemFormSet_save sale POST_formset ;;;
        d <- get_db ;;
        let sale := with_total_amount (sum (map line_total (fetch (items sale) d))) sale in
        modify_db (save sale) ;;;
        messages_success ("Vente " ++ invoice_number sale ++ " mise à jour.") ;;;
        ActivityLog_create user "Vente modifiée" "info" "edit" ;;;
        redirect "accounts:sale_list"
      else
        render "accounts/sales/sale_form.html" (ctx_form_formset form formset)
  | GET =>
      d <- get_db ;;
      render "accounts/sales/sale_form.html"
             (ctx_form_formset Unbound (map (fun _ => Unbound) (fetch (items sale) d)))
  end.

(** [DeletionMixin.delete] on a sale: fetch the object again, delete it
    with its items, redirect. *)
Definition SaleDeleteView_super_delete (k : Z) : View Response :=
  obj <- get_object (A := Sale) objects_all k ;;
  modify_db (delete_sales (qs_filter (fun _ s => pk s =? pk obj) objects_all)) ;;;
  redirect "accounts:sale_list".

Definition SaleDeleteView_delete (user : User) (k : Z) : View Response :=
  sale <- get_object (A := Sale) objects_all k ;;
  response <- SaleDeleteView_super_delete k ;;
  messages_success ("Vente " ++ invoice_number sale ++ " supprimée.") ;;;
  ActivityLog_create user "Vente supprimée" "danger" "trash" ;;;
  ret response.

Definition item_json (d : DB) (item : SaleItem) : option SaleItemJson :=
  match get_pk (products d) (item_product item) with
  | Some product =>
      Some (mkSaleItemJson (product_name product) (quantity item)
                           (fmt_2f (unit_price item)) (fmt_2f (line_total item)))
  | None => None
  end.

(** A list of optional values, when none is missing. *)
Fixpoint all_some {A : Type} (l : list (option A)) : option (list A) :=
  match l with
  | [] => Some []
  | None :: _ => None
  | Some x :: l' =>
      match all_some l' with
      | Some xs => Some (x :: xs)
      | None => None
      end
  end.

Definition sale_detail_json (k : Z) (d : DB) : JsonResponse :=
  match qs_get (A := Sale) objects_all k d with
  | None => JsonNotFound
  | Some sale =>
      let subtotal := sum (map line_total (fetch (items sale) d)) in
      let discount_ := match discount sale with Some c => c | None => 0 end in
      match get_pk (users d) (cashier sale),
            all_some (map (item_json d) (fetch (items sale) d)) with
      | Some cashier_, Some items_ =>
          JsonOk (mkSaleJson
                    (invoice_number sale)
                    (strftime (localtime E (sale_date sale)))
                    (get_full_name E cashier_)
                    (fmt_2f subtotal)
                    (fmt_2f discount_)
                    (fmt_2f (total_amount sale))
                    items_)
      | _, _ => JsonServerError
      end
  end.
End SaleViews.

(** ** Submissions to the create and update screens *)

Inductive Submission :=
| RegisterSubmission (data : User)
| EmployeeCreateSubmission (data : User)
| EmployeeUpdateSubmission (k : Z) (data : User)
| SupplierCreateSubmission (data : Supplier)
| SupplierUpdateSubmission (k : Z) (data : Supplier)
| CategoryCreateSubmission (data : Category)
| CategoryUpdateSubmission (k : Z) (data : Category)
| ProductCreateSubmission (data : Product)
| ProductUpdateSubmission (k : Z) (data : Product)
| SaleCreateSubmission (form : SaleFormData) (formset : list SaleItemFormData)
| SaleUpdateSubmission (k : Z) (form : SaleFormData) (formset : list SaleItemFormData).

(** The view a submission is posted to. *)
Definition submit (E : Externals) (user : User) (s : Submission) : View Response :=
  match s with
  | RegisterSubmission data => UserRegisterView_post E data
  | EmployeeCreateSubmission data => EmployeeCreateView_post E user data
  | EmployeeUpdateSubmission k data => EmployeeUpdateView_post E user k data
  | SupplierCreateSubmission data => SupplierCreateView_post E user data
  | SupplierUpdateSubmission k data => SupplierUpdateView_post E user k data
  | CategoryCreateSubmission data => CategoryCreateView_post E user data
  | CategoryUpdateSubmission k data => CategoryUpdateView_post E user k data
  | ProductCreateSubmission data => ProductCreateView_post E user data
  | ProductUpdateSubmission k data => ProductUpdateView_post E user k data
  | SaleCreateSubmission form formset => sale_create E POST user form formset
  | SaleUpdateSubmission k form formset => sale_update E POST user k form formset
  end.

Definition bind_instance {A B : Type} (o : option A) (f : A -> B) : option B :=
  match o with Some a => Some (f a) | None => None end.

(** The bound form, and the bound formset of the sale screens, that a
    submission is validated with; none when the record to update is not
    in the queryset of the view. *)
Definition bound_forms (E : Externals) (user : User) (s : Submission) (d : DB)
  : option (Form * list Form) :=
  match s with
  | RegisterSubmission data => Some (Bound (RegisterForm E d data), [])
  | EmployeeCreateSubmission data => Some (Bound (EmployeeCreateForm E d data), [])
  | EmployeeUpdateSubmission k data =>
      bind_instance (qs_get (EmployeeUpdateView_get_queryset user) k d)
        (fun i => (Bound (EmployeeUpdateForm E d i data), []))
  | SupplierCreateSubmission data => Some (Bound (SupplierCreateForm E d None data), [])
  | SupplierUpdateSubmission k data =>
      bind_instance (qs_get objects_all k d)
        (fun i => (Bound (SupplierCreateForm E d (Some i) data), []))
  | CategoryCreateSubmission data => Some (Bound (CategoryCreateForm E d None data), [])
  | CategoryUpdateSubmission k data =>
      bind_instance (qs_get objects_all k d)
        (fun i => (Bound (CategoryCreateForm E d (Some i) data), []))
  | ProductCreateSubmission data => Some (Bound (ProductCreateForm E d None data), [])
  | ProductUpdateSubmission k data =>
      bind_instance (qs_get objects_all k d)
        (fun i => (Bound (ProductCreateForm E d (Some i) data), []))
  | SaleCreateSubmission form formset =>
      Some (Bound (SaleForm E d None form),
            map (fun f => Bound (SaleItemForm E d None f)) formset)
  | SaleUpdateSubmission k form formset =>
      bind_instance (qs_get objects_all k d)
        (fun i => (Bound (SaleForm E d (Some i) form),
                   map (fun f => Bound (SaleItemForm E d (Some i) f)) formset))
  end.

(** The template and context of the page rendered again for a rejected
    submission. *)
Definition rejected_page (s : Submission) (form : Form) (formset : list Form) : Response :=
  match s with
  | RegisterSubmission _ =>
      TemplateResponse "accounts/register.html" (ctx_form form)
  | EmployeeCreateSubmission _ | EmployeeUpdateSubmission _ _ =>
      TemplateResponse "accounts/employees/employee_form.html" (ctx_form form)
  | SupplierCreateSubmission _ | SupplierUpdateSubmission _ _ =>
      TemplateResponse "accounts/suppliers/supplier_form.html" (ctx_form form)
  | CategoryCreateSubmission _ | CategoryUpdateSubmission _ _ =>
      TemplateResponse "accounts/categories/category_form.html" (ctx_form form)
  | ProductCreateSubmission _ | ProductUpdateSubmission _ _ =>
      TemplateResponse "accounts/products/product_form.html" (ctx_form form)
  | SaleCreateSubmission _ _ | SaleUpdateSubmission _ _ _ =>
      TemplateResponse "accounts/sales/sale_form.html" (ctx_form_formset form formset)
  end.

(** The notices a rejected submission adds: registration alone has a
    [form_invalid] of its own. *)
Definition rejected_notices (s : Submission) : list Message :=
  match s with
  | RegisterSubmission _ =>
      [(msg_error, "Erreur dans le formulaire, vérifiez vos informations.")]
  | _ => []
  end.

Definition is_sale_view (v : ViewClass) : bool :=
  match v with
  | SaleListView | SaleBulkDeleteView | SaleDetailView | SaleDeleteView => true
  | _ => false
  end.

(** ** Shapes of the rendered text *)





(** ** Vocabulary of the statements *)


(** The free-text condition of the employee search, in the words of the
    specification: the first name or the last name or the email contains
    the term, case-insensitively. *)
Definition employee_matches_text (term : string) (u : User) : bool :=
  icontains (first_name u) term || icontains (last_name u) term
  || icontains (email u) term.

(** The role condition: an empty choice selects every role. *)
Definition employee_matches_role (r : string) (u : User) : bool :=
  if truthy r then String.eqb (role u) r else true.

(** The status condition: active, inactive, or no condition. *)
Definition employee_matches_status (st : string) (u : User) : bool :=
  if String.eqb st "active" then is_active u
  else if String.eqb st "inactive" then negb (is_active u)
  else true.

(** The submission passes the validation of its view. *)
Definition accepted (E : Externals) (user : User) (s : Submission) (d : DB) : bool :=
  match bound_forms E user s d with
  | Some (form, formset) => is_valid form && formset_is_valid formset
  | None => false
  end.

(** The submission reaches the validation of its view and fails it. *)
Definition rejected (E : Externals) (user : User) (s : Submission) (d : DB) : bool :=
  match bound_forms E user s d with
  | Some (form, formset) => negb (is_valid form && formset_is_valid formset)
  | None => false
  end.

(** ** Sample data *)

Definition sample_no_errors : ErrorDict := [].

Definition sample_required (field : string) (value : string) : ErrorDict :=
  if truthy value then [] else [(field, "Ce champ est obligatoire.")].

(** A stand-in for what the views take from outside: every form asks for
    its name or number, a sale line asks for a positive quantity. *)
Definition sample_E : Externals :=
  {| EmployeeSearchForm := fun _ => true;
     SaleSearchForm := fun _ => true;
     RegisterForm := fun _ u => sample_required "email" (email u);
     EmployeeCreateForm := fun _ u => sample_required "email" (email u);
     EmployeeUpdateForm := fun _ _ u => sample_required "email" (email u);
     SupplierCreateForm := fun _ _ s => sample_required "name" (supplier_name s);
     CategoryCreateForm := fun _ _ c => sample_required "name" (category_name c);
     ProductCreateForm := fun _ _ p => sample_required "name" (product_name p);
     SaleForm := fun _ _ f => sample_required "invoice_number" (f_invoice_number f);
     SaleItemForm := fun _ _ f =>
       if 0 <? f_quantity f then [] else [("quantity", "La quantité doit être positive.")];
     localtime := fun t =>
       mkDateTime 2024 3 (1 + (t / 1440) mod 28) ((t / 60) mod 24) (t mod 60);
     get_full_name := fun u => first_name u ++ " " ++ last_name u |}.

Definition sample_admin : User :=
  mkUser 1 "Ada" "Diallo" "ada@store.test" "admin" true 10.

Definition sample_cashier : User :=
  mkUser 2 "Bob" "Martin" "bob@store.test" "cashier" true 20.

Definition sample_other : User :=
  mkUser 3 "Chloe" "Martinez" "chloe@store.test" "cashier" false 30.

Definition sample_pen : Product := mkProduct 1 "Stylo" 1 "active" 5.
Definition sample_ink : Product := mkProduct 2 "Encre" 1 "active" 6.

Definition sample_sale : Sale := mkSale 1 "INV-001" 75 2 "paid" 2500 None.

Definition sample_items : list SaleItem :=
  [ mkSaleItem 1 1 1 2 1000; mkSaleItem 2 1 2 1 500 ].

Definition sample_db : DB :=
  mkDB [sample_admin; sample_cashier; sample_other] [] [mkCategory 1 "Papeterie"]
       [sample_pen; sample_ink] [sample_sale] sample_items [].

Definition sample_world : World := mkWorld sample_db [].

Definition sample_header : SaleFormData := mkSaleFormData "INV-002" 90 2 "paid".

Definition sample_lines : list SaleItemFormData :=
  [ mkSaleItemFormData None 1 3 1000 false; mkSaleItemFormData None 2 2 500 false ].

Definition sample_bad_lines : list SaleItemFormData :=
  [ mkSaleItemFormData None 1 3 1000 false; mkSaleItemFormData None 2 0 500 false ].

(** An update of the sample sale: the first item goes to five units, the
    second is removed, a line of four units at 5.00 is added. *)
Definition sample_update_lines : list SaleItemFormData :=
  [ mkSaleItemFormData (Some 1) 1 5 1000 false;
    mkSaleItemFormData (Some 2) 2 1 500 true;
    mkSaleItemFormData None 2 4 500 false ].

(** Eight sales of ten units each, for a list of two pages. *)
Definition sample_sales8 : list Sale :=
  map (fun k => mkSale k "INV" k 2 "paid" 1000 None) [1; 2; 3; 4; 5; 6; 7; 8].

Definition sample_db8 : DB :=
  mkDB [sample_admin; sample_cashier] [] [] [] sample_sales8 [] [].

Definition sample_search_all : SaleSearch :=
  mkSaleSearch EmptyString EmptyString None EmptyString None None.

(** ** The views the statements above leave aside *)

(** [UserLoginView.get_success_url]; an object without [is_admin], the
    anonymous user, is no administrator. *)
Definition UserLoginView_get_success_url (user : Principal) : string :=
  if is_admin user then "core:dashboard" else "core:caisse".

Record SupplierSearch := mkSupplierSearch
  { sup_search : string; sup_status : string }.

Record ProductSearch := mkProductSearch
  { prod_search : string; prod_category : option Z; prod_status : string }.

(** The search forms of the supplier, category and product lists, and the
    values of the status choices of the models, are not part of the
    sources either: the list views take them as given. *)
Record ListExternals := mkListExternals
  { SupplierSearchForm : SupplierSearch -> bool;
    CategorySearchForm : string -> bool;
    ProductSearchForm : ProductSearch -> bool;
    Supplier_Status_ACTIVE : string;
    Supplier_Status_INACTIVE : string;
    Supplier_Status_SUSPENDED : string;
    Product_Status_ACTIVE : string;
    Product_Status_OUT_OF_STOCK : string;
    Product_Status_INACTIVE : string }.

(** [paginate_queryset] of a list view: the requested page, not found
    when there is no such page. *)
Definition paginate_queryset {A : Type} (object_list : list A) (per_page : nat) (page : Z)
  : View (list A) :=
  match Paginator_page object_list per_page page with
  | Some p => ret p
  | None => raise404
  end.

(** [paginator.page_range]. *)
Definition Paginator_page_range (count per_page : nat) : list Z :=
  map Z.of_nat (seq 1 (Paginator_num_pages count per_page)).

Record EmployeeListContext := mkEmployeeListContext
  { el_page_obj : list User;
    el_search_form : EmployeeSearch;
    el_total : nat;
    el_active : nat;
    el_inactive : nat }.

Record SupplierListContext := mkSupplierListContext
  { sl_page_obj : list Supplier;
    sl_search_form : SupplierSearch;
    sl_total : nat;
    sl_status_filter : string;
    sl_active : nat;
    sl_inactive : nat;
    sl_suspended : nat }.

Record CategoryListContext := mkCategoryListContext
  { cl_page_obj : list Category;
    cl_search_form : string;
    cl_total : nat }.

Record ProductListContext := mkProductListContext
  { pl_page_obj : list Product;
    pl_search_form : ProductSearch;
    pl_total : nat;
    pl_search_filter : string;
    pl_category_filter : option Z;
    pl_status_filter : option string;
    pl_active : nat;
    pl_out_of_stock : nat;
    pl_inactive : nat }.

Section ListViews.
Variable E : Externals.
Variable L : ListExternals.

Definition EmployeeListView_paginate_by : nat := 15.

Definition EmployeeListView_get_context_data (user : User) (GET : EmployeeSearch) (page : Z)
  : View EmployeeListContext :=
  d <- get_db ;;
  page_obj <- paginate_queryset (fetch (EmployeeListView_get_queryset E user GET) d)
                EmployeeListView_paginate_by page ;;
  let qs := EmployeeListView_get_queryset E user GET in
  ret (mkEmployeeListContext page_obj GET
         (qs_count qs d)
         (qs_count (qs_filter (fun _ u => Bool.eqb (is_active u) true) qs) d)
         (qs_count (qs_filter (fun _ u => Bool.eqb (is_active u) false) qs) d)).

Definition SupplierListView_paginate_by : nat := 15.

Definition SupplierListView_get_queryset (GET : SupplierSearch) : QuerySet Supplier :=
  let qs := qs_order_by (fun a b => supplier_created_at b <=? supplier_created_at a)
              objects_all in
  if SupplierSearchForm L GET then
    let search := sup_search GET in
    let status := sup_status GET in
    let qs :=
      if truthy search then qs_filter (fun _ s => icontains (supplier_name s) search) qs
      else qs in
    if truthy status then qs_filter (fun _ s => String.eqb (supplier_status s) status) qs
    else qs
  else qs.

Definition SupplierListView_get_context_data (GET : SupplierSearch) (page : Z)
  : View SupplierListContext :=
  d <- get_db ;;
  let qs := SupplierListView_get_queryset GET in
  page_obj <- paginate_queryset (fetch qs d) SupplierListView_paginate_by page ;;
  ret (mkSupplierListContext page_obj GET
         (qs_count qs d)
         (if SupplierSearchForm L GET then sup_status GET else EmptyString)
         (qs_count (qs_filter (fun _ s => String.eqb (supplier_status s)
                                            (Supplier_Status_ACTIVE L)) qs) d)
         (qs_count (qs_filter (fun _ s => String.eqb (supplier_status s)
                                            (Supplier_Status_INACTIVE L)) qs) d)
         (qs_count (qs_filter (fun _ s => String.eqb (supplier_status s)
                                            (Supplier_Status_SUSPENDED L)) qs) d)).

Definition CategoryListView_paginate_by : nat := 15.

Definition CategoryListView_get_queryset (GET : string) : QuerySet Category :=
  let qs := qs_order_by (fun a b => String.leb (category_name a) (category_name b))
              objects_all in
  if CategorySearchForm L GET && truthy GET
  then qs_filter (fun _ c => icontains (category_name c) GET) qs
  else qs.

Definition CategoryListView_get_context_data (GET : string) (page : Z)
  : View CategoryListContext :=
  d <- get_db ;;
  page_obj <- paginate_queryset (fetch (CategoryListView_get_queryset GET) d)
                CategoryListView_paginate_by page ;;
  ret (mkCategoryListContext page_obj GET (qs_count (CategoryListView_get_queryset GET) d)).

Definition ProductListView_paginate_by : nat := 15.

Definition ProductListView_get_queryset (GET : ProductSearch) : QuerySet Product :=
  let qs := qs_order_by (fun a b => product_created_at b <=? product_created_at a)
              objects_all in
  if ProductSearchForm L GET then
    let search := prod_search GET in
    let status := prod_status GET in
    let qs :=
      if truthy search then qs_filter (fun _ p => icontains (product_name p) search) qs
      else qs in
    let qs :=
      match prod_category GET with
      | Some c => qs_filter (fun _ p => product_category p =? c) qs
      | None => qs
      end in
    if truthy status then qs_filter (fun _ p => String.eqb (product_status p) status) qs
    else qs
  else qs.

Definition ProductListView_get_context_data (GET : ProductSearch) (page : Z)
  : View ProductListContext :=
  d <- get_db ;;
  let qs := ProductListView_get_queryset GET in
  page_obj <- paginate_queryset (fetch qs d) ProductListView_paginate_by page ;;
  let valid := ProductSearchForm L GET in
  ret (mkProductListContext page_obj GET
         (qs_count qs d)
         (if valid then prod_search GET else EmptyString)
         (if valid then prod_category GET else None)
         (if valid then Some (prod_status GET) else None)
         (qs_count (qs_filter (fun _ p => String.eqb (product_status p)
                                            (Product_Status_ACTIVE L)) qs) d)
         (qs_count (qs_filter (fun _ p => String.eqb (product_status p)
                                            (Product_Status_OUT_OF_STOCK L)) qs) d)
         (qs_count (qs_filter (fun _ p => String.eqb (product_status p)
                                            (Product_Status_INACTIVE L)) qs) d)).
End ListViews.




(** ** The routes of [apps/core/urls.py] *)

Module CoreUrls.

(** [app_name]: the namespace of the names below. *)
Definition app_name : string := "core".

(** A route is a sequence of literal text and [<int:...>] converters. *)
Inductive PathPart :=
| Literal (text : string)
| IntConverter (param : string).

Record URLPattern := path
  { route : list PathPart;
    view : string;
    login_required : bool;
    name : string }.

Definition urlpatterns : list URLPattern :=
  [ path [Literal "dashboard/"] "DashboardView" true "dashboard";
    path [Literal "caisse/"] "CaisseView" true "caisse";
    path [Literal "caisse/checkout/"] "caisse_checkout" true "caisse_checkout";
    path [Literal "caisse/sale-info/"] "sale_info" true "sale_info";
    path [Literal "caisse/generate-invoice/"] "generate_invoice" true "generate_invoice";
    path [Literal "home/"] "HomeRedirectView" false "home";
    path [Literal "suppliers/"] "SupplierListView" true "supplier_list";
    path [Literal "suppliers/add/"] "SupplierCreateView" true "supplier_create";
    path [Literal "suppliers/"; IntConverter "pk"; Literal "/"]
         "SupplierDetailView" true "supplier_detail";
    path [Literal "suppliers/"; IntConverter "pk"; Literal "/edit/"]
         "SupplierUpdateView" true "supplier_update";
    path [Literal "suppliers/"; IntConverter "pk"; Literal "/delete/"]
         "SupplierDeleteView" true "supplier_delete";
    path [Literal "reports/"] "ReportsView" true "reports" ].

(** What is left of [s] after the literal [l], when [s] starts with it. *)
Fixpoint drop_prefix (l s : string) : option string :=
  match l with
  | EmptyString => Some s
  | String a l' =>
      match s with
      | String b s' => if Ascii.eqb a b then drop_prefix l' s' else None
      | EmptyString => None
      end
  end.

(** The longest run of digits at the start of [s], and the rest. *)
Fixpoint span_digits (s : string) : string * string :=
  match s with
  | EmptyString => (EmptyString, EmptyString)
  | String c s' =>
      if is_digit c then let (ds, rest) := span_digits s' in (String c ds, rest)
      else (EmptyString, s)
  end.

(** [int(value)] of the text an [int] converter matched. *)
Definition int_of_digits (ds : string) : option N :=
  option_map N.of_uint (NilEmpty.uint_of_string ds).

(** The keyword arguments a route extracts from a path, when the whole
    path matches.  A converter takes the digits [[0-9]+]; in every route
    of this file what follows a converter starts with a slash, so the
    longest run of digits is what the pattern matches. *)
Fixpoint match_route (parts : list PathPart) (s : string) : option (list (string * N)) :=
  match parts with
  | [] => match s with EmptyString => Some [] | String _ _ => None end
  | Literal l :: parts' =>
      match drop_prefix l s with
      | Some s' => match_route parts' s'
      | None => None
      end
  | IntConverter param :: parts' =>
      let (ds, s') := span_digits s in
      match ds with
      | EmptyString => None
      | String _ _ =>
          match int_of_digits ds, match_route parts' s' with
          | Some n, Some kwargs => Some ((param, n) :: kwargs)
          | _, _ => None
          end
      end
  end.

(** The first pattern that matches, with its keyword arguments. *)
Fixpoint resolve_in (patterns : list URLPattern) (p : string)
  : option (URLPattern * list (string * N)) :=
  match patterns with
  | [] => None
  | u :: patterns' =>
      match match_route (route u) p with
      | Some kwargs => Some (u, kwargs)
      | None => resolve_in patterns' p
      end
  end.

Definition resolve (p : string) : option (URLPattern * list (string * N)) :=
  resolve_in urlpatterns p.

(** The path of a route for the given keyword arguments: they are to be
    the parameters of the route, in its order. *)
Fixpoint build (parts : list PathPart) (kwargs : list (string * N)) : option string :=
  match parts with
  | [] => match kwargs with [] => Some EmptyString | _ :: _ => None end
  | Literal l :: parts' => option_map (append l) (build parts' kwargs)
  | IntConverter param :: parts' =>
      match kwargs with
      | (key, n) :: kwargs' =>
          if String.eqb key param
          then option_map (append (str_N n)) (build parts' kwargs')
          else None
      | [] => None
      end
  end.

(** [reverse(name, kwargs=...)]: the path of the first pattern of that
    name that takes these arguments. *)
Fixpoint reverse_in (patterns : list URLPattern) (nm : string) (kwargs : list (string * N))
  : option string :=
  match patterns with
  | [] => None
  | u :: patterns' =>
      if String.eqb (name u) nm then
        match build (route u) kwargs with
        | Some p => Some p
        | None => reverse_in patterns' nm kwargs
        end
      else reverse_in patterns' nm kwargs
  end.

Definition reverse (nm : string) (kwargs : list (string * N)) : option string :=
  reverse_in urlpatterns nm kwargs.

(** The name of a route as [reverse_lazy] takes it from another
    application: [app_name:name]. *)
Definition qualified_name (u : URLPattern) : string := app_name ++ ":" ++ name u.

End CoreUrls.

(** ** More sample data *)

Definition sample_L : ListExternals :=
  {| SupplierSearchForm := fun _ => true;
     CategorySearchForm := fun _ => true;
     ProductSearchForm := fun _ => true;
     Supplier_Status_ACTIVE := "active";
     Supplier_Status_INACTIVE := "inactive";
     Supplier_Status_SUSPENDED := "suspended";
     Product_Status_ACTIVE := "active";
     Product_Status_OUT_OF_STOCK := "out_of_stock";
     Product_Status_INACTIVE := "inactive" |}.

Definition sample_suppliers : list Supplier :=
  [ mkSupplier 1 "Papeterie du Nord" "active" 3;
    mkSupplier 2 "Encres Martin" "suspended" 8;
    mkSupplier 3 "Nord Emballage" "active" 5 ].

Definition sample_db_suppliers : DB :=
  mkDB [sample_admin; sample_cashier; sample_other] sample_suppliers
       [mkCategory 1 "Papeterie"; mkCategory 2 "Bureau"]
       [sample_pen; sample_ink] [sample_sale] sample_items [].

(** ** Vocabulary of the statements on tables *)

Section TableChanges.
Context {A : Type} `{Model A}.

(** [rows'] is [rows] followed by [obj], whose key no row of [rows] had:
    [obj] is found under its key and every earlier row under its own. *)
Definition added_row (obj : A) (rows rows' : list A) : Prop :=
  rows' = (rows ++ [obj])%list
  /\ get_pk rows (pk obj) = None
  /\ get_pk rows' (pk obj) = Some obj
  /\ forall k old, get_pk rows k = Some old -> get_pk rows' k = Some old.

(** [rows'] is [rows] with [obj] in place of the row of key [k]: as many
    rows, [obj] found under [k], the other keys finding what they
    found. *)
Definition replaced_row (obj : A) (k : Z) (rows rows' : list A) : Prop :=
  rows' = map (fun x => if pk x =? k then obj else x) rows
  /\ pk obj = k
  /\ List.length rows' = List.length rows
  /\ get_pk rows' k = Some obj
  /\ forall k', k' <> k -> get_pk rows' k' = get_pk rows k'.

(** [rows'] is [rows] without the row of key [k]: nothing found under
    [k], the other keys finding what they found. *)
Definition removed_row (k : Z) (rows rows' : list A) : Prop :=
  rows' = filter (fun r => negb (pk r =? k)) rows
  /\ get_pk rows' k = None
  /\ forall k', k' <> k -> get_pk rows' k' = get_pk rows k'.
End TableChanges.


(** * Properties *)

(** ** Rendered text *)



Lemma all_digits_string_of_uint (u : uint) :
  all_digits (NilEmpty.string_of_uint u) = true.
Proof. induction u; simpl; auto. Qed.

Lemma string_of_uint_nonempty (u : uint) :
  u <> Nil -> NilEmpty.string_of_uint u <> EmptyString.
Proof. destruct u; simpl; congruence. Qed.

Lemma str_N_digits (n : N) : all_digits (str_N n) = true.
Proof. apply all_digits_string_of_uint. Qed.

Lemma str_N_nonempty (n : N) : str_N n <> EmptyString.
Proof.
  apply string_of_uint_nonempty. destruct n as [| p]; simpl.
  - discriminate.
  - apply DecimalPos.Unsigned.to_uint_nonnil.
Qed.







Lemma prefix_empty (s : string) : prefix EmptyString s = true.
Proof. destruct s; reflexivity. Qed.

Lemma contains_empty (hay : string) : contains EmptyString hay = true.
Proof. destruct hay; reflexivity. Qed.

(** The empty term is contained in every field. *)
Lemma icontains_empty (field : string) : icontains field EmptyString = true.
Proof. unfold icontains. simpl. apply contains_empty. Qed.

Lemma truthy_false (s : string) : truthy s = false -> s = EmptyString.
Proof. destruct s; simpl; congruence. Qed.

Lemma prefix_app (needle hay : string) :
  prefix needle hay = true <-> exists rest, hay = (needle ++ rest)%string.
Proof.
  revert hay. induction needle as [| a needle IH]; intros hay.
  - rewrite prefix_empty. split; [intros _; exists hay |]; reflexivity.
  - destruct hay as [| b hay]; cbn [prefix append].
    + split; [discriminate | intros (rest & Heq); discriminate].
    + destruct (ascii_dec a b) as [-> | Hne].
      * rewrite IH. split; intros (rest & Heq); exists rest; congruence.
      * split; [discriminate | intros (rest & Heq); congruence].
Qed.

(** [contains] holds exactly when the needle stands somewhere in the
    text. *)
Lemma contains_substring (needle hay : string) :
  contains needle hay = true
  <-> exists before after, hay = (before ++ needle ++ after)%string.
Proof.
  induction hay as [| c hay IH]; cbn [contains].
  - rewrite prefix_app. split.
    + intros (rest & Heq). exists EmptyString, rest. exact Heq.
    + intros (before & after & Heq). destruct before; [eauto | discriminate].
  - rewrite orb_true_iff, prefix_app, IH. split.
    + intros [(rest & Heq) | (before & after & Heq)].
      * exists EmptyString, rest. exact Heq.
      * exists (String c before), after. cbn [append]. congruence.
    + intros (before & after & Heq). destruct before as [| c' before].
      * left. exists after. exact Heq.
      * right. exists before, after. cbn [append] in Heq. congruence.
Qed.

(** The [__icontains] lookup is the substring test on the lower-cased
    field and term. *)
Lemma icontains_substring (field term : string) :
  icontains field term = true
  <-> exists before after, lower field = (before ++ lower term ++ after)%string.
Proof. apply contains_substring. Qed.

(** ** Tables and querysets *)

Section OrmFacts.
Context {A : Type} `{Model A}.

Lemma get_pk_some (rows : list A) (k : Z) (r : A) :
  get_pk rows k = Some r -> In r rows /\ pk r = k.
Proof.
  unfold get_pk. intros Hf. apply find_some in Hf as [Hin Hk].
  split; [assumption | now apply Z.eqb_eq].
Qed.

Lemma get_pk_none (rows : list A) (k : Z) :
  (forall r, In r rows -> pk r <> k) -> get_pk rows k = None.
Proof.
  unfold get_pk. induction rows as [| x rows IH]; intros Hall; simpl; [reflexivity |].
  destruct (pk x =? k) eqn:Hx.
  - apply Z.eqb_eq in Hx. exfalso. apply (Hall x); simpl; auto.
  - apply IH. intros r Hr. apply Hall. simpl. auto.
Qed.

Lemma get_pk_app_fresh (rows : list A) (r : A) :
  get_pk rows (pk r) = None -> get_pk (rows ++ [r]) (pk r) = Some r.
Proof.
  unfold get_pk. induction rows as [| x rows IH]; simpl.
  - rewrite Z.eqb_refl. reflexivity.
  - destruct (pk x =? pk r); [discriminate | exact IH].
Qed.

(** A saved row is the one its key finds afterwards. *)
Lemma get_pk_save_row (r : A) (rows : list A) :
  get_pk (save_row r rows) (pk r) = Some r.
Proof.
  unfold save_row. destruct (existsb (fun x => pk x =? pk r) rows) eqn:Hex.
  - unfold get_pk. induction rows as [| x rows IH]; simpl in *; [discriminate |].
    destruct (pk x =? pk r) eqn:Hx; simpl.
    + rewrite Z.eqb_refl. reflexivity.
    + rewrite Hx. apply IH. exact Hex.
  - apply get_pk_app_fresh. apply get_pk_none. intros x Hx Heq.
    assert (Htrue : existsb (fun x => pk x =? pk r) rows = true).
    { apply existsb_exists. exists x. split; [assumption | now apply Z.eqb_eq]. }
    congruence.
Qed.

(** Saving a row leaves the rows of other keys in the table. *)
Lemma In_save_row_other (r x : A) (rows : list A) :
  In x rows -> pk x <> pk r -> In x (save_row r rows).
Proof.
  intros Hin Hne. unfold save_row.
  destruct (existsb _ rows).
  - apply in_map_iff. exists x. split; [| assumption].
    destruct (pk x =? pk r) eqn:Hx; [apply Z.eqb_eq in Hx; contradiction | reflexivity].
  - apply in_or_app. auto.
Qed.

Lemma next_pk_above (rows : list A) (r : A) : In r rows -> pk r < next_pk rows.
Proof.
  unfold next_pk. induction rows as [| x rows IH]; cbn [fold_right In]; [contradiction |].
  intros [-> | Hin]; [lia |]. specialize (IH Hin). lia.
Qed.

(** The next key is the key of no row. *)
Lemma next_pk_fresh (rows : list A) : get_pk rows (next_pk rows) = None.
Proof.
  apply get_pk_none. intros r Hin. pose proof (next_pk_above rows r Hin). lia.
Qed.

Lemma In_insert_by (leb : A -> A -> bool) (x y : A) (l : list A) :
  In y (insert_by leb x l) <-> y = x \/ In y l.
Proof.
  induction l as [| z l IH]; simpl.
  - intuition.
  - destruct (leb x z); simpl; [intuition |]. rewrite IH. intuition.
Qed.

(** Ordering keeps the rows. *)
Lemma In_order_by (leb : A -> A -> bool) (y : A) (l : list A) :
  In y (order_by leb l) <-> In y l.
Proof.
  unfold order_by. induction l as [| x l IH]; simpl; [tauto |].
  rewrite In_insert_by, IH. intuition.
Qed.

(** A queryset yields the rows of the table that meet its condition. *)
Lemma In_fetch (qs : QuerySet A) (d : DB) (r : A) :
  In r (fetch qs d) <-> In r (objects d) /\ where_ qs d r = true.
Proof.
  unfold fetch. destruct (ordering qs).
  - rewrite In_order_by. apply filter_In.
  - apply filter_In.
Qed.

Lemma fetch_objects_all (d : DB) : fetch objects_all d = objects d.
Proof.
  unfold fetch, objects_all. simpl. induction (objects d) as [| x l IH]; simpl; congruence.
Qed.
End OrmFacts.

(** ** The JSON projection of a sale *)





(** ** The sale aggregation *)

Lemma fetch_items (s : Sale) (d : DB) :
  fetch (items s) d = filter (fun i => item_sale i =? pk s) (sale_items d).
Proof. reflexivity. Qed.




(** Runs the steps of a view down to the store operations. *)
Ltac run_view :=
  cbv beta iota zeta delta
    [respond bind get_db modify_db get_object form_save_new form_save qs_delete
     DeletionMixin_delete SaleItemFormSet_save FormMixin_form_invalid
     messages_success messages_error messages_info add_message
     ActivityLog_create redirect render ret raise404 create];
  cbn [db messages].

Lemma qs_get_objects_all_sales (k : Z) (d : DB) :
  qs_get (A := Sale) objects_all k d = get_pk (sales d) k.
Proof. unfold qs_get. now rewrite fetch_objects_all. Qed.

Lemma accepted_sale_update (E : Externals) (user : User) (k : Z) (form : SaleFormData)
  (formset : list SaleItemFormData) (d : DB) :
  accepted E user (SaleUpdateSubmission k form formset) d = true ->
  exists old,
    get_pk (sales d) k = Some old
    /\ is_valid (Bound (SaleForm E d (Some old) form))
       && formset_is_valid (map (fun f => Bound (SaleItemForm E d (Some old) f)) formset)
       = true.
Proof.
  unfold accepted, bound_forms. rewrite qs_get_objects_all_sales.
  destruct (get_pk (sales d) k) as [old |]; cbn [bind_instance]; [| discriminate].
  intros Hok. exists old. split; [reflexivity | exact Hok].
Qed.

(** C1. After a sale submission that passes validation, on the create
    screen and on the update screen alike (whatever lines the formset
    adds, edits or removes), the sale stored under its key carries as
    total_amount the sum of quantity times unit price over the items the
    store then holds for that sale; the value comes from those items and
    from nothing stored before. *)
Theorem sale_total_rederived
  (E : Externals) (user : User) (form : SaleFormData)
  (formset : list SaleItemFormData) (w : World) :
  (accepted E user (SaleCreateSubmission form formset) (db w) = true ->
   exists sale w',
     respond (sale_create E POST user form formset) w
     = (HttpResponseRedirect "accounts:sale_list", w')
     /\ get_pk (sales (db w)) (pk sale) = None
     /\ get_pk (sales (db w')) (pk sale) = Some sale
     /\ total_amount sale
        = sum (map (fun i => quantity i * unit_price i) (fetch (items sale) (db w'))))
  /\ (forall k,
       accepted E user (SaleUpdateSubmission k form formset) (db w) = true ->
       exists sale w',
         respond (sale_update E POST user k form formset) w
         = (HttpResponseRedirect "accounts:sale_list", w')
         /\ pk sale = k
         /\ get_pk (sales (db w')) k = Some sale
         /\ total_amount sale
            = sum (map (fun i => quantity i * unit_price i) (fetch (items sale) (db w')))).
Proof.
  destruct w as [d ms]. cbn [db]. split.
  - unfold accepted, bound_forms. intros Hok.
    unfold respond, sale_create. unfold bind at 1. unfold get_db at 1.
    cbn beta iota. cbn [db]. rewrite Hok. run_view.
    set (sale0 := with_pk (next_pk (objects d)) (apply_SaleForm form new_Sale)).
    match goal with
    | |- context [save_new_objects sale0 formset ?x] =>
        set (d2 := save_new_objects sale0 formset x)
    end.
    exists (with_total_amount (sum (map line_total (fetch (items sale0) d2))) sale0).
    eexists. split; [reflexivity |].
    cbn [db]. rewrite !fetch_items.
    unfold append_log, save.
    cbn [sales sale_items objects with_objects Sale_Model].
    split; [| split].
    + exact (next_pk_fresh (A := Sale) (sales d)).
    + apply (get_pk_save_row (A := Sale)).
    + reflexivity.
  - intros k Hok. apply accepted_sale_update in Hok as (old & Hold & Hok).
    destruct (get_pk_some _ _ Hold) as [_ Hk].
    unfold respond, sale_update. unfold bind at 1. unfold get_object at 1.
    cbn [db]. rewrite qs_get_objects_all_sales, Hold.
    unfold bind at 1. unfold get_db at 1. cbn beta iota. cbn [db]. rewrite Hok. run_view.
    set (sale1 := apply_SaleForm form old).
    match goal with
    | |- context [save_new_objects sale1 formset ?x] =>
        set (d2 := save_new_objects sale1 formset x)
    end.
    exists (with_total_amount (sum (map line_total (fetch (items sale1) d2))) sale1).
    eexists. split; [reflexivity |].
    cbn [db]. rewrite !fetch_items.
    unfold append_log, save.
    cbn [sales sale_items objects with_objects Sale_Model].
    split; [| split].
    + exact Hk.
    + rewrite <- Hk at 1.
      match goal with
      | |- get_pk (save_row ?r ?rows) _ = _ => exact (get_pk_save_row (A := Sale) r rows)
      end.
    + reflexivity.
Qed.

(** A new sale of three units at 10.00 and two at 5.00 is stored with
    40.00; the update of the sample sale leaves five units at 10.00 and
    four at 5.00 and is stored with 70.00, whatever total was there. *)
Lemma sale_total_rederived_witness :
  (exists sale w',
      respond (sale_create sample_E POST sample_cashier sample_header sample_lines)
              sample_world
      = (HttpResponseRedirect "accounts:sale_list", w')
      /\ get_pk (sales (db w')) 2 = Some sale
      /\ total_amount sale = 4000)
  /\ (exists sale w',
         respond (sale_update sample_E POST sample_cashier 1 sample_header
                    sample_update_lines) sample_world
         = (HttpResponseRedirect "accounts:sale_list", w')
         /\ get_pk (sales (db w')) 1 = Some sale
         /\ map (fun i => (quantity i, unit_price i)) (fetch (items sale) (db w'))
            = [(5, 1000); (4, 500)]
         /\ total_amount sale = 7000).
Proof.
  split.
  - destruct (proj1 (sale_total_rederived sample_E sample_cashier sample_header
                       sample_lines sample_world) eq_refl)
      as (sale & w' & Hr & Hfresh & Hget & Htotal).
    exists sale, w'. split; [exact Hr |].
    vm_compute in Hr. injection Hr as <-.
    apply get_pk_some in Hget as [[<- | [<- | []]] _].
    + vm_compute in Hfresh. discriminate Hfresh.
    + split; reflexivity.
  - destruct (proj2 (sale_total_rederived sample_E sample_cashier sample_header
                       sample_update_lines sample_world) 1 eq_refl)
      as (sale & w' & Hr & _ & Hget & Htotal).
    exists sale, w'. split; [exact Hr |].
    vm_compute in Hr. injection Hr as <-. split; [exact Hget |].
    vm_compute in Hget. injection Hget as <-. split; reflexivity.
Defined.

(** ** Rejected submissions *)

Lemma is_valid_Bound_false (errors : ErrorDict) :
  is_valid (Bound errors) = false <-> errors <> [].
Proof. destruct errors; simpl; split; congruence. Qed.

Lemma formset_is_valid_false {D : Type} (errors : D -> ErrorDict) (lines : list D) :
  formset_is_valid (map (fun f => Bound (errors f)) lines) = false
  <-> exists f, In f lines /\ errors f <> [].
Proof.
  unfold formset_is_valid. induction lines as [| f lines IH]; cbn [map forallb].
  - split; [discriminate | intros (f & [] & _)].
  - rewrite andb_false_iff, is_valid_Bound_false, IH. split.
    + intros [Hf | (g & Hg & He)]; [exists f | exists g]; simpl; auto.
    + intros (g & [<- | Hg] & He); [left | right; exists g]; auto.
Qed.

(** A submission that fails validation gets its page again, with the
    bound forms; the store is as before, and the notices are those of
    [rejected_notices]. *)
Lemma submit_rejected (E : Externals) (user : User) (s : Submission) (w : World)
  (form : Form) (formset : list Form) :
  bound_forms E user s (db w) = Some (form, formset) ->
  is_valid form && formset_is_valid formset = false ->
  respond (submit E user s) w
  = (rejected_page s form formset, mkWorld (db w) (messages w ++ rejected_notices s)).
Proof.
  destruct w as [d ms]. cbn [db messages].
  intros Hforms Hbad.
  destruct s; cbn [bound_forms] in Hforms;
    repeat match type of Hforms with
           | bind_instance ?q _ = _ =>
               let Hq := fresh "Hq" in
               destruct q eqn:Hq; cbn [bind_instance] in Hforms; [| discriminate]
           end;
    injection Hforms as <- <-;
    cbn [formset_is_valid forallb] in Hbad;
    cbn [submit rejected_page rejected_notices];
    unfold UserRegisterView_post, UserRegisterView_form_invalid,
      EmployeeCreateView_post, EmployeeUpdateView_post,
      SupplierCreateView_post, SupplierUpdateView_post,
      CategoryCreateView_post, CategoryUpdateView_post,
      ProductCreateView_post, ProductUpdateView_post, sale_create, sale_update;
    run_view; try (rewrite Hq; run_view); try rewrite andb_true_r in Hbad; rewrite Hbad;
    rewrite ?app_nil_r; reflexivity.
Qed.

Lemma world_eta (w : World) : mkWorld (db w) (messages w ++ []) = w.
Proof. destruct w. cbn. now rewrite app_nil_r. Qed.

(** C2. When the header of a sale submission or any one of its line
    items fails validation, the sale form is rendered again and the store
    is exactly what it was: no sale row and no item row is created or
    changed, on the create screen and on the update screen alike. *)
Theorem sale_submission_atomic
  (E : Externals) (user : User) (form : SaleFormData)
  (formset : list SaleItemFormData) (w : World) :
  (SaleForm E (db w) None form <> []
   \/ (exists f, In f formset /\ SaleItemForm E (db w) None f <> []) ->
   respond (sale_create E POST user form formset) w
   = (TemplateResponse "accounts/sales/sale_form.html"
        (ctx_form_formset (Bound (SaleForm E (db w) None form))
           (map (fun f => Bound (SaleItemForm E (db w) None f)) formset)),
      w))
  /\ (forall k old,
        get_pk (sales (db w)) k = Some old ->
        SaleForm E (db w) (Some old) form <> []
        \/ (exists f, In f formset /\ SaleItemForm E (db w) (Some old) f <> []) ->
        respond (sale_update E POST user k form formset) w
        = (TemplateResponse "accounts/sales/sale_form.html"
             (ctx_form_formset (Bound (SaleForm E (db w) (Some old) form))
                (map (fun f => Bound (SaleItemForm E (db w) (Some old) f)) formset)),
           w)).
Proof.
  split.
  - intros Hbad.
    change (sale_create E POST user form formset)
      with (submit E user (SaleCreateSubmission form formset)).
    erewrite submit_rejected; [| reflexivity |].
    + cbn [rejected_page rejected_notices]. now rewrite world_eta.
    + apply andb_false_iff. destruct Hbad as [Hh | Hl].
      * left. now apply is_valid_Bound_false.
      * right. now apply formset_is_valid_false.
  - intros k old Hold Hbad.
    change (sale_update E POST user k form formset)
      with (submit E user (SaleUpdateSubmission k form formset)).
    erewrite submit_rejected.
    + cbn [rejected_page rejected_notices]. now rewrite world_eta.
    + cbn [bound_forms]. rewrite qs_get_objects_all_sales, Hold. reflexivity.
    + apply andb_false_iff. destruct Hbad as [Hh | Hl].
      * left. now apply is_valid_Bound_false.
      * right. now apply formset_is_valid_false.
Qed.

(** A line of quantity zero: the create screen and the update screen
    render the form again and leave the sample store as it is. *)
Lemma sale_submission_atomic_witness :
  respond (sale_create sample_E POST sample_cashier sample_header sample_bad_lines)
          sample_world
  = (TemplateResponse "accounts/sales/sale_form.html"
       (ctx_form_formset (Bound [])
          [Bound []; Bound [("quantity", "La quantité doit être positive.")]]),
     sample_world)
  /\ respond (sale_update sample_E POST sample_cashier 1 sample_header sample_bad_lines)
             sample_world
     = (TemplateResponse "accounts/sales/sale_form.html"
          (ctx_form_formset (Bound [])
             [Bound []; Bound [("quantity", "La quantité doit être positive.")]]),
        sample_world).
Proof.
  assert (Hline : exists f, In f sample_bad_lines /\ f_quantity f = 0).
  { exists (mkSaleItemFormData None 2 0 500 false). split; [right; left |]; reflexivity. }
  destruct Hline as (f & Hin & Hq).
  split.
  - apply (proj1 (sale_submission_atomic sample_E sample_cashier sample_header
                    sample_bad_lines sample_world)).
    right. exists f. split; [exact Hin |]. cbn. rewrite Hq. discriminate.
  - apply (proj2 (sale_submission_atomic sample_E sample_cashier sample_header
                    sample_bad_lines sample_world) 1 sample_sale eq_refl).
    right. exists f. split; [exact Hin |]. cbn. rewrite Hq. discriminate.
Defined.

(** C9, as the views have it. A create or update submission that fails
    validation gets the form page again with the bound form (and, on the
    sale screens, the bound formset) and their errors; nothing is
    persisted and the answer is a rendered page, never an error response.
    An error notification is queued by the registration screen only: the
    other screens queue nothing. *)
Theorem rejected_submission_rerendered
  (E : Externals) (user : User) (s : Submission) (w : World)
  (form : Form) (formset : list Form) :
  bound_forms E user s (db w) = Some (form, formset) ->
  is_valid form && formset_is_valid formset = false ->
  exists w',
    respond (submit E user s) w = (rejected_page s form formset, w')
    /\ (exists template context,
          rejected_page s form formset = TemplateResponse template context)
    /\ db w' = db w
    /\ messages w' = (messages w ++ rejected_notices s)%list
    /\ (rejected_notices s <> [] <-> exists data, s = RegisterSubmission data).
Proof.
  intros Hforms Hbad. eexists. split; [apply submit_rejected; eassumption |].
  cbn [db messages]. repeat split.
  - destruct s; cbn [rejected_page]; eauto.
  - destruct s; cbn [rejected_notices]; intros Hn; try congruence; eauto.
  - intros [data ->]. discriminate.
Qed.

Lemma rejected_submission_rerendered_witness :
  exists w',
    respond (submit sample_E sample_cashier
               (RegisterSubmission (mkUser 0 "Dan" "Roy" EmptyString "cashier" true 40)))
            sample_world
    = (TemplateResponse "accounts/register.html"
         (ctx_form (Bound [("email", "Ce champ est obligatoire.")])), w')
    /\ db w' = db sample_world
    /\ messages w'
       = [(msg_error, "Erreur dans le formulaire, vérifiez vos informations.")].
Proof.
  destruct (@rejected_submission_rerendered sample_E sample_cashier
              (RegisterSubmission (mkUser 0 "Dan" "Roy" EmptyString "cashier" true 40))
              sample_world
              (Bound [("email", "Ce champ est obligatoire.")]) [])
    as (w' & Hr & _ & Hdb & Hm & _).
  - reflexivity.
  - reflexivity.
  - exists w'. split; [exact Hr |]. split; [exact Hdb | exact Hm].
Defined.

(** A sale submission with a line of quantity zero is rejected, and no
    notification of any level is queued: a rejected create or update does
    not always emit an error notification. *)
Lemma rejected_sale_emits_no_notification :
  rejected sample_E sample_cashier
           (SaleCreateSubmission sample_header sample_bad_lines) (db sample_world) = true
  /\ messages (snd (respond (submit sample_E sample_cashier
                               (SaleCreateSubmission sample_header sample_bad_lines))
                            sample_world))
     = [].
Proof. split; reflexivity. Qed.

(** ** Deleting a product *)

Lemma filter_length_split {A : Type} (p : A -> bool) (l : list A) :
  (List.length (filter (fun x => negb (p x)) l) + List.length (filter p l)
   = List.length l)%nat.
Proof.
  induction l as [| x l IH]; cbn [filter]; [reflexivity |].
  destruct (p x); cbn [negb List.length]; lia.
Qed.

Lemma qs_get_objects_all_products (k : Z) (d : DB) :
  qs_get (A := Product) objects_all k d = get_pk (products d) k.
Proof. unfold qs_get. now rewrite fetch_objects_all. Qed.

(** C3. Deleting a product that exists first deletes, as a step of the
    view itself, every sale item that references it, then deletes the
    product: afterwards no sale item references the product, the product
    is absent, the count of items has dropped by the number of items that
    referenced it, and the other products, the items of other products
    and the other tables are as before. *)
Theorem product_delete_cascade (user : User) (k : Z) (w : World) (p : Product) :
  get_pk (products (db w)) k = Some p ->
  exists w',
    respond (ProductDeleteView_delete user k) w
    = (HttpResponseRedirect "accounts:product_list", w')
    /\ db w'
       = append_log
           (mkActivityLog (pk user) "Produit et éléments de vente supprimés" "danger" "trash")
           (delete_pk (A := Product) k
              (delete_where (fun i : SaleItem => item_product i =? k) (db w)))
    /\ sale_items (db w') = filter (fun i => negb (item_product i =? k)) (sale_items (db w))
    /\ (forall i, In i (sale_items (db w')) -> item_product i <> k)
    /\ (List.length (sale_items (db w'))
        + List.length (filter (fun i => (item_product i =? k)%Z) (sale_items (db w)))
        = List.length (sale_items (db w)))%nat
    /\ products (db w') = filter (fun q => negb (pk q =? k)) (products (db w))
    /\ get_pk (products (db w')) k = None
    /\ (forall q, pk q <> k -> (In q (products (db w')) <-> In q (products (db w))))
    /\ (forall i, item_product i <> k ->
                  (In i (sale_items (db w')) <-> In i (sale_items (db w))))
    /\ users (db w') = users (db w)
    /\ suppliers (db w') = suppliers (db w)
    /\ categories (db w') = categories (db w)
    /\ sales (db w') = sales (db w).
Proof.
  destruct w as [d ms]. cbn [db]. intros Hp.
  destruct (get_pk_some _ _ Hp) as [_ Hk].
  unfold ProductDeleteView_delete. run_view.
  rewrite qs_get_objects_all_products, Hp. cbn [db messages].
  unfold product_items, qs_filter, objects_all. cbn [where_ andb].
  rewrite qs_get_objects_all_products.
  unfold delete_where at 1. cbn [products objects with_objects SaleItem_Model].
  rewrite Hp. cbn [db messages]. rewrite Hk.
  eexists. split; [reflexivity |]. cbn [db].
  split; [reflexivity |].
  unfold append_log, delete_pk, delete_where.
  cbn [users suppliers categories products sales sale_items objects with_objects
       SaleItem_Model Product_Model pk].
  repeat split; try reflexivity.
  - intros i Hi. apply filter_In in Hi as [_ Hi].
    apply negb_true_iff, Z.eqb_neq in Hi. exact Hi.
  - apply filter_length_split.
  - apply (get_pk_none (A := Product)). intros q Hq.
    apply filter_In in Hq as [_ Hq]. now apply negb_true_iff, Z.eqb_neq in Hq.
  - intros Hq. now apply filter_In in Hq.
  - intros Hq. apply filter_In. split; [assumption |].
    now apply negb_true_iff, Z.eqb_neq.
  - intros Hi. now apply filter_In in Hi.
  - intros Hi. apply filter_In. split; [assumption |].
    now apply negb_true_iff, Z.eqb_neq.
Qed.

(** The product "Stylo" of the sample store has one sale item. *)
Lemma product_delete_cascade_witness :
  exists w',
    respond (ProductDeleteView_delete sample_admin 1) sample_world
    = (HttpResponseRedirect "accounts:product_list", w')
    /\ sale_items (db w') = [mkSaleItem 2 1 2 1 500]
    /\ products (db w') = [sample_ink].
Proof.
  destruct (@product_delete_cascade sample_admin 1 sample_world sample_pen eq_refl)
    as (w' & Hr & _ & Hitems & _ & _ & Hproducts & _).
  exists w'. split; [exact Hr |]. split; [exact Hitems | exact Hproducts].
Defined.

(** ** Bulk deletion of sales *)


Lemma existsb_eqb_In (k : Z) (ids : list Z) :
  existsb (Z.eqb k) ids = true <-> In k ids.
Proof.
  rewrite existsb_exists. split.
  - intros (x & Hx & Heq). apply Z.eqb_eq in Heq. now subst.
  - intros Hin. exists k. split; [assumption | apply Z.eqb_refl].
Qed.





(** ** The employee screens *)

(** The condition of the employee list, for a search form that is valid. *)
Lemma EmployeeListView_where (E : Externals) (user : User) (GET : EmployeeSearch)
  (d : DB) (u : User) :
  EmployeeSearchForm E GET = true ->
  where_ (EmployeeListView_get_queryset E user GET) d u
  = negb (pk u =? pk user)
    && employee_matches_text (es_search GET) u
    && employee_matches_role (es_role GET) u
    && employee_matches_status (es_status GET) u.
Proof.
  intros Hvalid. unfold EmployeeListView_get_queryset. rewrite Hvalid.
  unfold employee_matches_text, employee_matches_role, employee_matches_status.
  destruct (truthy (es_search GET)) eqn:Hs;
    [| apply truthy_false in Hs; rewrite Hs, !icontains_empty];
    destruct (truthy (es_role GET));
    destruct (String.eqb (es_status GET) "active");
    destruct (String.eqb (es_status GET) "inactive");
    cbn [where_ qs_filter qs_or qs_exclude qs_order_by objects_all andb orb];
    destruct (pk u =? pk user); cbn [negb andb orb];
    repeat match goal with
           | |- context [icontains ?a ?b] => destruct (icontains a b); cbn [andb orb]
           end;
    try destruct (String.eqb (role u) (es_role GET)); cbn [andb orb];
    try destruct (is_active u); reflexivity.
Qed.

(** Whatever the search form holds, the employee list leaves the caller
    out. *)
Lemma EmployeeListView_where_not_caller (E : Externals) (user : User)
  (GET : EmployeeSearch) (d : DB) (u : User) :
  where_ (EmployeeListView_get_queryset E user GET) d u = true -> pk u <> pk user.
Proof.
  destruct (EmployeeSearchForm E GET) eqn:Hvalid.
  - rewrite EmployeeListView_where by assumption.
    intros Hw. repeat (apply andb_prop in Hw as [Hw _]).
    now apply negb_true_iff, Z.eqb_neq in Hw.
  - unfold EmployeeListView_get_queryset. rewrite Hvalid.
    cbn [where_ qs_exclude qs_order_by objects_all andb].
    intros Hw. now apply negb_true_iff, Z.eqb_neq in Hw.
Qed.

(** The queryset of the detail, update and delete screens has no row
    under the caller's key. *)
Lemma exclude_caller_get (user : User) (k : Z) (d : DB) :
  qs_get (qs_exclude (fun _ u => pk u =? pk user) objects_all) k d
  = if k =? pk user then None else get_pk (users d) k.
Proof.
  unfold qs_get, fetch, qs_exclude, objects_all. cbn [where_ ordering andb].
  change (objects (A := User) d) with (users d).
  unfold get_pk. induction (users d) as [| x l IH]; cbn [filter find].
  - now destruct (k =? pk user).
  - destruct (pk x =? pk user) eqn:Hx; cbn [negb find].
    + destruct (pk x =? k) eqn:Hk.
      * apply Z.eqb_eq in Hx, Hk. rewrite <- Hk, Hx, Z.eqb_refl in *. exact IH.
      * exact IH.
    + destruct (pk x =? k) eqn:Hk; [| exact IH].
      apply Z.eqb_eq in Hk. subst k. now rewrite Hx.
Qed.

(** C5. For every caller, the employee list never yields the caller's own
    record, and the querysets of the detail, update and delete screens
    are built without it: a request for the caller's own key is answered
    with the not-found page and changes nothing, a detail page never
    shows the caller, and no update or delete request, whatever its key,
    changes or removes the caller's record. *)
Theorem employee_screens_exclude_caller (E : Externals) (user : User) :
  (forall GET d u,
      In u (fetch (EmployeeListView_get_queryset E user GET) d) -> pk u <> pk user)
  /\ (forall d,
        qs_get (EmployeeDetailView_get_queryset user) (pk user) d = None
        /\ qs_get (EmployeeUpdateView_get_queryset user) (pk user) d = None
        /\ qs_get (EmployeeDeleteView_get_queryset user) (pk user) d = None)
  /\ (forall w data,
        respond (EmployeeDetailView_get user (pk user)) w = (Http404, w)
        /\ respond (EmployeeUpdateView_post E user (pk user) data) w = (Http404, w)
        /\ respond (EmployeeDeleteView_delete E user (pk user)) w = (Http404, w))
  /\ (forall w k template employee w',
        respond (EmployeeDetailView_get user k) w
        = (TemplateResponse template (ctx_employee employee), w') ->
        pk employee <> pk user)
  /\ (forall w k data me,
        In me (users (db w)) -> pk me = pk user ->
        In me (users (db (snd (respond (EmployeeUpdateView_post E user k data) w))))
        /\ In me (users (db (snd (respond (EmployeeDeleteView_delete E user k) w))))).
Proof.
  assert (Hself : forall d : DB,
             qs_get (qs_exclude (fun (_ : DB) (u : User) => pk u =? pk user) objects_all)
                    (pk user) d
             = None).
  { intros d. rewrite exclude_caller_get. now rewrite Z.eqb_refl. }
  split; [| split; [| split; [| split]]].
  - intros GET d u Hin. apply In_fetch in Hin as [_ Hw].
    eapply EmployeeListView_where_not_caller. exact Hw.
  - intros d. repeat split; apply Hself.
  - intros [d ms] data.
    unfold EmployeeDetailView_get, EmployeeUpdateView_post, EmployeeDeleteView_delete,
      EmployeeDetailView_get_queryset, EmployeeUpdateView_get_queryset,
      EmployeeDeleteView_get_queryset.
    run_view. rewrite Hself. repeat split.
  - intros [d ms] k template employee w'.
    unfold EmployeeDetailView_get, EmployeeDetailView_get_queryset. run_view.
    rewrite exclude_caller_get.
    destruct (k =? pk user) eqn:Hk; [discriminate |].
    destruct (get_pk (users d) k) as [obj |] eqn:Hobj; [| discriminate].
    intros Heq. injection Heq as _ <- _.
    apply get_pk_some in Hobj as [_ ->]. now apply Z.eqb_neq.
  - intros [d ms] k data me Hin Hme. cbn [db] in Hin.
    unfold EmployeeUpdateView_post, EmployeeDeleteView_delete,
      EmployeeUpdateView_form_valid,
      EmployeeUpdateView_get_queryset, EmployeeDeleteView_get_queryset.
    run_view. rewrite exclude_caller_get.
    destruct (k =? pk user) eqn:Hk; [split; exact Hin |].
    apply Z.eqb_neq in Hk.
    destruct (get_pk (users d) k) as [obj |] eqn:Hobj; [| split; exact Hin].
    apply get_pk_some in Hobj as [_ Hobj]. cbn [db messages].
    split.
    + destruct (is_valid (Bound (EmployeeUpdateForm E d obj data))); [| exact Hin].
      run_view. cbn [snd db]. unfold append_log, save.
      cbn [users objects with_objects User_Model].
      apply (In_save_row_other (A := User)); [exact Hin |].
      cbn [pk with_pk User_Model user_pk]. change (user_pk me) with (pk me).
      change (user_pk obj) with (pk obj). congruence.
    + rewrite exclude_caller_get.
      destruct (k =? pk user) eqn:Hk'; [apply Z.eqb_eq in Hk'; contradiction |].
      destruct (get_pk (users d) k) as [obj' |] eqn:Hobj'; [| exact Hin].
      apply get_pk_some in Hobj' as [_ Hobj']. cbn [snd db messages].
      unfold append_log, delete_pk, delete_where.
      cbn [users objects with_objects User_Model].
      apply filter_In. split; [exact Hin |].
      apply negb_true_iff, Z.eqb_neq. change (user_pk me) with (pk me).
      change (user_pk obj') with (pk obj'). congruence.
Qed.

Lemma employee_screens_exclude_caller_witness :
  respond (EmployeeDeleteView_delete sample_E sample_admin 1) sample_world
  = (Http404, sample_world)
  /\ In sample_admin
        (users (db (snd (respond (EmployeeDeleteView_delete sample_E sample_admin 1)
                                 sample_world))))
  /\ In sample_admin
        (users (db (snd (respond (EmployeeUpdateView_post sample_E sample_admin 2 sample_other)
                                 sample_world)))).
Proof.
  destruct (employee_screens_exclude_caller sample_E sample_admin)
    as (_ & _ & H404 & _ & Hkept).
  split; [apply (H404 sample_world sample_admin) |].
  split.
  - apply (Hkept sample_world 1 sample_admin sample_admin); [left |]; reflexivity.
  - apply (Hkept sample_world 2 sample_other sample_admin); [left |]; reflexivity.
Defined.

(** C6, as the view has it. For a valid employee search, the list yields
    exactly the users other than the caller whose first name or last name
    or email contains the term without regard to case, and who meet the
    role and the status conditions, in the order of the list; so a search
    that combines the term with a role and a status yields exactly the
    users that the term alone, the role alone and the status alone each
    yield. *)
Theorem employee_search_composition
  (E : Externals) (user : User) (term role_ status : string) (d : DB) (u : User) :
  EmployeeSearchForm E (mkEmployeeSearch term role_ status) = true ->
  (In u (fetch (EmployeeListView_get_queryset E user (mkEmployeeSearch term role_ status)) d)
   <-> In u (users d) /\ pk u <> pk user
       /\ (icontains (first_name u) term || icontains (last_name u) term
           || icontains (email u) term = true)
       /\ employee_matches_role role_ u = true
       /\ employee_matches_status status u = true)
  /\ fetch (EmployeeListView_get_queryset E user (mkEmployeeSearch term role_ status)) d
     = order_by (fun a b => date_joined b <=? date_joined a)
         (filter (fun x => negb (pk x =? pk user)
                           && (icontains (first_name x) term || icontains (last_name x) term
                               || icontains (email x) term)
                           && employee_matches_role role_ x
                           && employee_matches_status status x)
                 (users d))
  /\ (EmployeeSearchForm E (mkEmployeeSearch term EmptyString EmptyString) = true ->
      EmployeeSearchForm E (mkEmployeeSearch EmptyString role_ EmptyString) = true ->
      EmployeeSearchForm E (mkEmployeeSearch EmptyString EmptyString status) = true ->
      (In u (fetch (EmployeeListView_get_queryset E user
                      (mkEmployeeSearch term role_ status)) d)
       <-> In u (fetch (EmployeeListView_get_queryset E user
                          (mkEmployeeSearch term EmptyString EmptyString)) d)
           /\ In u (fetch (EmployeeListView_get_queryset E user
                             (mkEmployeeSearch EmptyString role_ EmptyString)) d)
           /\ In u (fetch (EmployeeListView_get_queryset E user
                             (mkEmployeeSearch EmptyString EmptyString status)) d))).
Proof.
  intros Hvalid.
  assert (Hchar : forall GET,
             EmployeeSearchForm E GET = true ->
             (In u (fetch (EmployeeListView_get_queryset E user GET) d)
              <-> In u (users d) /\ pk u <> pk user
                  /\ employee_matches_text (es_search GET) u = true
                  /\ employee_matches_role (es_role GET) u = true
                  /\ employee_matches_status (es_status GET) u = true)).
  { intros GET HGET. rewrite In_fetch, EmployeeListView_where by assumption.
    change (objects (A := User) d) with (users d).
    rewrite !andb_true_iff, negb_true_iff, Z.eqb_neq. tauto. }
  assert (Htext : employee_matches_text EmptyString u = true).
  { unfold employee_matches_text. now rewrite !icontains_empty. }
  split; [| split].
  - apply (Hchar (mkEmployeeSearch term role_ status) Hvalid).
  - unfold fetch at 1.
    replace (ordering (EmployeeListView_get_queryset E user
                         (mkEmployeeSearch term role_ status)))
      with (Some (fun a b : User => date_joined b <=? date_joined a)).
    + f_equal. apply filter_ext. intros x.
      now rewrite EmployeeListView_where by assumption.
    + unfold EmployeeListView_get_queryset. rewrite Hvalid. cbn [es_search es_role es_status].
      destruct (truthy term), (truthy role_), (String.eqb status "active"),
        (String.eqb status "inactive"); reflexivity.
  - intros Hterm Hrole Hstatus.
    rewrite (Hchar _ Hvalid), (Hchar _ Hterm), (Hchar _ Hrole), (Hchar _ Hstatus).
    cbn [es_search es_role es_status]. rewrite Htext.
    change (employee_matches_role EmptyString u) with true.
    change (employee_matches_status EmptyString u) with true.
    tauto.
Qed.

(** The search for "MART" among inactive employees of the sample store:
    the last name Martinez matches and that employee is inactive. *)
Lemma employee_search_composition_witness :
  In sample_other
     (fetch (EmployeeListView_get_queryset sample_E sample_admin
               (mkEmployeeSearch "MART" EmptyString "inactive")) sample_db).
Proof.
  apply (proj1 (employee_search_composition sample_E sample_admin "MART" EmptyString
                  "inactive" sample_db sample_other eq_refl)).
  repeat split.
  - right. right. left. reflexivity.
  - discriminate.
Defined.

(** The administrator of the sample store searches for "ada": the
    administrator's own first name contains the term, and the list does
    not yield that record. *)
Lemma employee_search_leaves_caller_out :
  In sample_admin (users sample_db)
  /\ icontains (first_name sample_admin) "ada" = true
  /\ EmployeeSearchForm sample_E (mkEmployeeSearch "ada" EmptyString EmptyString) = true
  /\ ~ In sample_admin
         (fetch (EmployeeListView_get_queryset sample_E sample_admin
                   (mkEmployeeSearch "ada" EmptyString EmptyString)) sample_db).
Proof.
  split; [left; reflexivity |]. split; [reflexivity |]. split; [reflexivity |].
  vm_compute. intros [].
Qed.

(** ** The guards *)

Lemma bases_of_view (v : ViewClass) :
  bases v = if is_sale_view v then [LoginRequiredMixin]
            else [LoginRequiredMixin; AdminRequiredMixin].
Proof. destruct v; reflexivity. Qed.

(** C8, as the views have it. The employee, supplier, category and
    product screens, their delete operations included, are for
    administrators only: any other principal, logged in or not, is sent
    to the login page with the access-denied notice and the handler of the
    screen is not run.  The class-based sale screens (list, bulk delete,
    detail, delete) ask for a login only: without one the request is sent
    to the login page with no notice and the handler is not run; with
    one the handler runs whatever the role. *)
Theorem admin_guard
  (v : ViewClass) (user : Principal) (handler : View Response) (w : World) :
  (is_sale_view v = false -> AdminRequiredMixin_test_func user = false ->
   respond (dispatch v user handler) w
   = (HttpResponseRedirect "accounts:login",
      mkWorld (db w)
        (messages w ++ [(msg_error, "Accès refusé : administrateurs uniquement.")])))
  /\ (is_sale_view v = false -> AdminRequiredMixin_test_func user = true ->
      dispatch v user handler = handler)
  /\ (is_sale_view v = true -> is_authenticated user = false ->
      respond (dispatch v user handler) w = (RedirectToLogin, w))
  /\ (is_sale_view v = true -> is_authenticated user = true ->
      dispatch v user handler = handler).
Proof.
  unfold dispatch, handle_no_permission, has_mixin, AdminRequiredMixin_test_func.
  rewrite bases_of_view.
  repeat split; intros Hv Hu; rewrite Hv; cbn [existsb Mixin_eqb orb andb].
  - destruct (is_authenticated user); cbn [negb andb] in *; [rewrite Hu |]; reflexivity.
  - apply andb_prop in Hu as [Ha Hadm]. rewrite Ha, Hadm. reflexivity.
  - rewrite Hu. cbn [negb]. unfold AccessMixin_handle_no_permission. rewrite Hu.
    destruct w. reflexivity.
  - rewrite Hu. reflexivity.
Qed.

(** A cashier who asks to delete a product is turned away and the product
    stays; an administrator reaches the handler; without a login the list
    of sales sends to the login page. *)
Lemma admin_guard_witness :
  respond (dispatch ProductDeleteView (LoggedIn sample_cashier)
             (ProductDeleteView_delete sample_cashier 1)) sample_world
  = (HttpResponseRedirect "accounts:login",
     mkWorld sample_db [(msg_error, "Accès refusé : administrateurs uniquement.")])
  /\ dispatch ProductDeleteView (LoggedIn sample_admin)
       (ProductDeleteView_delete sample_admin 1)
     = ProductDeleteView_delete sample_admin 1
  /\ respond (dispatch SaleListView AnonymousUser (ret Http404)) sample_world
     = (RedirectToLogin, sample_world)
  /\ dispatch SaleBulkDeleteView (LoggedIn sample_cashier)
       (SaleBulkDeleteView_post sample_cashier [1])
     = SaleBulkDeleteView_post sample_cashier [1].
Proof.
  split; [| split; [| split]].
  - apply (proj1 (admin_guard ProductDeleteView (LoggedIn sample_cashier)
                    (ProductDeleteView_delete sample_cashier 1) sample_world));
      reflexivity.
  - apply (proj1 (proj2 (admin_guard ProductDeleteView (LoggedIn sample_admin)
                           (ProductDeleteView_delete sample_admin 1) sample_world)));
      reflexivity.
  - apply (proj1 (proj2 (proj2 (admin_guard SaleListView AnonymousUser (ret Http404)
                                   sample_world))));
      reflexivity.
  - apply (proj2 (proj2 (proj2 (admin_guard SaleBulkDeleteView (LoggedIn sample_cashier)
                                   (SaleBulkDeleteView_post sample_cashier [1])
                                   sample_world))));
      reflexivity.
Defined.

(** A logged-in cashier, who is not an administrator, deletes a sale
    through the delete screen of the sales: the request is not turned
    away, the sale and its items are gone. *)
Lemma cashier_deletes_sale :
  is_admin (LoggedIn sample_cashier) = false
  /\ fst (respond (dispatch SaleDeleteView (LoggedIn sample_cashier)
                     (SaleDeleteView_delete sample_cashier 1)) sample_world)
     = HttpResponseRedirect "accounts:sale_list"
  /\ sales (db (snd (respond (dispatch SaleDeleteView (LoggedIn sample_cashier)
                                (SaleDeleteView_delete sample_cashier 1)) sample_world)))
     = []
  /\ messages (snd (respond (dispatch SaleDeleteView (LoggedIn sample_cashier)
                               (SaleDeleteView_delete sample_cashier 1)) sample_world))
     = [(msg_success, "Vente INV-001 supprimée.")].
Proof. repeat split. Qed.

(** ** The revenue shown with the list of sales *)

Lemma page_slice {A : Type} (l : list A) (bottom per_page : nat) :
  firstn ((if (List.length l <=? bottom + per_page)%nat
           then List.length l else bottom + per_page) - bottom)
         (skipn bottom l)
  = firstn per_page (skipn bottom l).
Proof.
  destruct (List.length l <=? bottom + per_page)%nat eqn:Hle.
  - apply Nat.leb_le in Hle.
    rewrite !firstn_all2; [reflexivity | |]; rewrite length_skipn; lia.
  - f_equal. lia.
Qed.

(** C10. The revenue handed to the sale list template is the sum of the
    totals of the sales on the requested page, which is the slice of at
    most seven sales of the filtered, ordered list that starts after the
    pages before it; a page number outside the pages of the list is not
    found. *)
Theorem total_revenue_of_page (E : Externals) (GET : SaleSearch) (page : Z) (w : World) :
  (1 <= page
   <= Z.of_nat (Paginator_num_pages
                  (List.length (fetch (SaleListView_get_queryset E GET) (db w))) 7) ->
   exists p,
     p = firstn 7 (skipn ((Z.to_nat page - 1) * 7)
                         (fetch (SaleListView_get_queryset E GET) (db w)))
     /\ SaleListView_get_context_data E GET page w
        = (Return (mkSaleListContext p GET (sum (map total_amount p))), w)
     /\ (List.length p <= 7)%nat)
  /\ (page < 1
      \/ Z.of_nat (Paginator_num_pages
                     (List.length (fetch (SaleListView_get_queryset E GET) (db w))) 7)
         < page ->
      SaleListView_get_context_data E GET page w = (Raise404, w)).
Proof.
  unfold SaleListView_get_context_data, SaleListView_paginate_queryset,
    SaleListView_paginate_by, Paginator_page.
  split.
  - intros [Hlo Hhi]. eexists. split; [reflexivity |]. split.
    + run_view.
      assert (Hin : (page <? 1)
                    || (Z.of_nat (Paginator_num_pages
                          (List.length (fetch (SaleListView_get_queryset E GET) (db w))) 7)
                        <? page) = false).
      { apply orb_false_iff. split; apply Z.ltb_ge; lia. }
      rewrite Hin, page_slice. reflexivity.
    + apply firstn_le_length.
  - intros Hout. run_view.
    assert (Hin : (page <? 1)
                  || (Z.of_nat (Paginator_num_pages
                        (List.length (fetch (SaleListView_get_queryset E GET) (db w))) 7)
                      <? page) = true).
    { apply orb_true_iff. destruct Hout; [left | right]; apply Z.ltb_lt; lia. }
    rewrite Hin. reflexivity.
Qed.

(** Eight sales of 10.00 each: the first page shows a revenue of 70.00
    while the whole list amounts to 80.00, and there is no third page. *)
Lemma total_revenue_of_page_witness :
  (exists p,
      SaleListView_get_context_data sample_E sample_search_all 1 (mkWorld sample_db8 [])
      = (Return (mkSaleListContext p sample_search_all 7000), mkWorld sample_db8 [])
      /\ List.length p = 7%nat
      /\ sum (map total_amount
                (fetch (SaleListView_get_queryset sample_E sample_search_all) sample_db8))
         = 8000)
  /\ SaleListView_get_context_data sample_E sample_search_all 3 (mkWorld sample_db8 [])
     = (Raise404, mkWorld sample_db8 []).
Proof.
  split.
  - destruct (proj1 (total_revenue_of_page sample_E sample_search_all 1
                       (mkWorld sample_db8 [])))
      as (p & Hp & Hctx & _).
    + split; [lia | vm_compute; discriminate].
    + exists p. rewrite Hctx. rewrite Hp. repeat split.
  - apply (proj2 (total_revenue_of_page sample_E sample_search_all 3
                    (mkWorld sample_db8 []))).
    right. vm_compute. reflexivity.
Defined.

(** * Further properties of the views *)

(** ** Sums, orderings and pages *)

Lemma fold_left_add_shift (l : list Z) (a : Z) :
  fold_left Z.add l a = a + fold_left Z.add l 0.
Proof.
  revert a. induction l as [| x l IH]; intros a; cbn [fold_left]; [lia |].
  rewrite (IH (a + x)), (IH (0 + x)). lia.
Qed.

Lemma sum_app (l1 l2 : list Z) : sum (l1 ++ l2) = sum l1 + sum l2.
Proof. unfold sum. rewrite fold_left_app. apply fold_left_add_shift. Qed.

Lemma sum_cons (x : Z) (l : list Z) : sum (x :: l) = x + sum l.
Proof. apply (sum_app [x] l). Qed.

Lemma sum_concat_pages (pages : list (list Sale)) :
  sum (map total_amount (List.concat pages))
  = sum (map (fun p => sum (map total_amount p)) pages).
Proof.
  induction pages as [| p pages IH]; [reflexivity |].
  cbn [List.concat map]. rewrite map_app, sum_app, sum_cons, IH. reflexivity.
Qed.

Lemma num_pages_covers (count per_page : nat) :
  (0 < per_page -> count <= Paginator_num_pages count per_page * per_page)%nat.
Proof.
  intros Hk. unfold Paginator_num_pages.
  pose proof (Nat.div_mod_eq (Nat.max 1 count + per_page - 1) per_page) as Hdiv.
  pose proof (Nat.mod_upper_bound (Nat.max 1 count + per_page - 1) per_page) as Hmod.
  nia.
Qed.

Lemma num_pages_tight (count per_page : nat) :
  (0 < per_page -> 0 < count ->
   (Paginator_num_pages count per_page - 1) * per_page < count)%nat.
Proof.
  intros Hk Hc. unfold Paginator_num_pages.
  pose proof (Nat.div_mod_eq (Nat.max 1 count + per_page - 1) per_page) as Hdiv.
  pose proof (Nat.mod_upper_bound (Nat.max 1 count + per_page - 1) per_page) as Hmod.
  nia.
Qed.

Lemma num_pages_positive (count per_page : nat) :
  (0 < per_page -> 1 <= Paginator_num_pages count per_page)%nat.
Proof.
  intros Hk. unfold Paginator_num_pages.
  pose proof (Nat.div_mod_eq (Nat.max 1 count + per_page - 1) per_page) as Hdiv.
  pose proof (Nat.mod_upper_bound (Nat.max 1 count + per_page - 1) per_page) as Hmod.
  nia.
Qed.

(** The page of a number within the range is the slice that starts after
    the pages before it. *)
Lemma Paginator_page_in_range {A : Type} (l : list A) (per_page n : nat) :
  (1 <= n <= Paginator_num_pages (List.length l) per_page)%nat ->
  Paginator_page l per_page (Z.of_nat n)
  = Some (firstn per_page (skipn ((n - 1) * per_page) l)).
Proof.
  intros [Hlo Hhi]. unfold Paginator_page.
  replace ((Z.of_nat n <? 1)
           || (Z.of_nat (Paginator_num_pages (List.length l) per_page) <? Z.of_nat n))
    with false.
  - rewrite Nat2Z.id, page_slice. reflexivity.
  - symmetry. apply orb_false_iff. split; apply Z.ltb_ge; lia.
Qed.

Lemma Paginator_page_out_of_range {A : Type} (l : list A) (per_page : nat) (page : Z) :
  page < 1 \/ Z.of_nat (Paginator_num_pages (List.length l) per_page) < page ->
  Paginator_page l per_page page = None.
Proof.
  intros Hout. unfold Paginator_page.
  replace ((page <? 1)
           || (Z.of_nat (Paginator_num_pages (List.length l) per_page) <? page))
    with true; [reflexivity |].
  symmetry. apply orb_true_iff. destruct Hout; [left | right]; now apply Z.ltb_lt.
Qed.

(** Slices of [per_page] rows taken one after the other give the list
    back, once they reach its end. *)
Lemma concat_slices {A : Type} (per_page m : nat) (l : list A) :
  (List.length l <= m * per_page)%nat ->
  List.concat (map (fun i => firstn per_page (skipn (i * per_page) l)) (seq 0 m)) = l.
Proof.
  revert l. induction m as [| m IH]; intros l Hlen.
  - destruct l; [reflexivity | cbn in Hlen; lia].
  - cbn [seq map List.concat]. rewrite <- seq_shift, map_map.
    cbn [Nat.mul Nat.add skipn].
    erewrite map_ext.
    + rewrite (IH (skipn per_page l)); [apply firstn_skipn |].
      rewrite length_skipn. lia.
    + intros i. cbn beta. rewrite skipn_skipn.
      replace (i * per_page + per_page)%nat with (S i * per_page)%nat by lia.
      reflexivity.
Qed.

(** The context of the sale list for a page number within the range. *)
Lemma SaleListView_context_in_range (E : Externals) (GET : SaleSearch) (n : nat) (w : World) :
  (1 <= n <= Paginator_num_pages
               (List.length (fetch (SaleListView_get_queryset E GET) (db w))) 7)%nat ->
  SaleListView_get_context_data E GET (Z.of_nat n) w
  = (Return (mkSaleListContext
               (firstn 7 (skipn ((n - 1) * 7)
                                (fetch (SaleListView_get_queryset E GET) (db w))))
               GET
               (sum (map total_amount
                         (firstn 7 (skipn ((n - 1) * 7)
                                          (fetch (SaleListView_get_queryset E GET) (db w))))))),
     w).
Proof.
  intros Hn.
  unfold SaleListView_get_context_data, SaleListView_paginate_queryset,
    SaleListView_paginate_by.
  run_view. rewrite (Paginator_page_in_range _ _ Hn). reflexivity.
Qed.

(** X1. The pages of the sale list, taken in the order of the page
    range, hold every sale of the filtered list exactly once and in the
    order of the list, and the revenues shown on the pages add up to the
    sum of the totals of the whole filtered list. *)
Theorem sale_list_pages_cover_the_list (E : Externals) (GET : SaleSearch) (w : World) :
  exists contexts,
    map (fun page => SaleListView_get_context_data E GET page w)
        (Paginator_page_range
           (List.length (fetch (SaleListView_get_queryset E GET) (db w))) 7)
    = map (fun ctx => (Return ctx, w)) contexts
    /\ List.concat (map page_obj contexts) = fetch (SaleListView_get_queryset E GET) (db w)
    /\ sum (map total_revenue contexts)
       = sum (map total_amount (fetch (SaleListView_get_queryset E GET) (db w))).
Proof.
  set (all := fetch (SaleListView_get_queryset E GET) (db w)).
  set (N := Paginator_num_pages (List.length all) 7).
  set (slice := fun i : nat => firstn 7 (skipn (i * 7) all)).
  exists (map (fun i => mkSaleListContext (slice i) GET (sum (map total_amount (slice i))))
              (seq 0 N)).
  assert (Hcover : List.concat (map slice (seq 0 N)) = all).
  { apply concat_slices. apply num_pages_covers. lia. }
  split; [| split].
  - unfold Paginator_page_range. fold N. rewrite <- seq_shift, !map_map.
    apply map_ext_in. intros i Hi. apply in_seq in Hi.
    rewrite (SaleListView_context_in_range E GET (n := S i) w); [| fold all; fold N; lia].
    fold all. unfold slice. replace (S i - 1)%nat with i by lia. reflexivity.
  - rewrite map_map. cbn [page_obj]. exact Hcover.
  - rewrite map_map. cbn [total_revenue].
    replace (map total_amount all)
      with (map total_amount (List.concat (map slice (seq 0 N))))
      by now rewrite Hcover.
    rewrite sum_concat_pages, map_map. reflexivity.
Qed.

(** X2. Every page of the sale list but the last holds exactly seven
    sales, and the last page holds at least one sale unless the filtered
    list is empty, in which case the only page is empty and shows a
    revenue of zero. *)
Theorem sale_list_page_sizes (E : Externals) (GET : SaleSearch) (n : nat) (w : World) :
  (1 <= n <= Paginator_num_pages
               (List.length (fetch (SaleListView_get_queryset E GET) (db w))) 7)%nat ->
  exists ctx,
    SaleListView_get_context_data E GET (Z.of_nat n) w = (Return ctx, w)
    /\ ((n < Paginator_num_pages
               (List.length (fetch (SaleListView_get_queryset E GET) (db w))) 7)%nat ->
        List.length (page_obj ctx) = 7%nat)
    /\ (fetch (SaleListView_get_queryset E GET) (db w) <> [] ->
        (1 <= List.length (page_obj ctx) <= 7)%nat)
    /\ (fetch (SaleListView_get_queryset E GET) (db w) = [] ->
        n = 1%nat /\ page_obj ctx = [] /\ total_revenue ctx = 0).
Proof.
  intros Hn. eexists. split; [apply SaleListView_context_in_range; exact Hn |].
  cbn [page_obj total_revenue].
  set (all := fetch (SaleListView_get_queryset E GET) (db w)) in *.
  pose proof (@num_pages_tight (List.length all) 7) as Htight.
  rewrite length_firstn, length_skipn.
  split; [| split].
  - intros Hlt. destruct all as [| s all']; cbn [List.length] in *.
    + unfold Paginator_num_pages in Hlt. cbn in Hlt. lia.
    + specialize (Htight ltac:(lia) ltac:(lia)). lia.
  - intros Hne. destruct all as [| s all']; [congruence |]. cbn [List.length] in *.
    specialize (Htight ltac:(lia) ltac:(lia)). lia.
  - intros Hnil. rewrite Hnil in *. cbn [List.length] in Hn.
    unfold Paginator_num_pages in Hn. cbn in Hn.
    assert (n = 1%nat) by lia. subst n. repeat split.
Qed.

Lemma sale_list_page_sizes_witness :
  exists ctx,
    SaleListView_get_context_data sample_E sample_search_all 2 (mkWorld sample_db8 [])
    = (Return ctx, mkWorld sample_db8 [])
    /\ List.length (page_obj ctx) = 1%nat
    /\ total_revenue ctx = 1000.
Proof.
  destruct (@sale_list_page_sizes sample_E sample_search_all 2 (mkWorld sample_db8 []))
    as (ctx & Hctx & _).
  - split; [lia | vm_compute; lia].
  - exists ctx. split; [exact Hctx |].
    vm_compute in Hctx. injection Hctx as <-. split; reflexivity.
Defined.

(** ** Orderings of the lists *)

Section Ordering.
Context {A : Type}.
Variable leb : A -> A -> bool.
Hypothesis leb_total : forall a b, leb a b = true \/ leb b a = true.

Lemma insert_by_HdRel (x a : A) (l : list A) :
  HdRel (fun u v => leb u v = true) a l -> leb a x = true ->
  HdRel (fun u v => leb u v = true) a (insert_by leb x l).
Proof.
  intros Hhd Hax. destruct l as [| y l]; cbn [insert_by].
  - now constructor.
  - destruct (leb x y); constructor; [assumption | now inversion Hhd].
Qed.

Lemma insert_by_Sorted (x : A) (l : list A) :
  Sorted (fun u v => leb u v = true) l ->
  Sorted (fun u v => leb u v = true) (insert_by leb x l).
Proof.
  induction 1 as [| y l Hsorted IH Hhd]; cbn [insert_by].
  - repeat constructor.
  - destruct (leb x y) eqn:Hxy.
    + constructor; [now constructor | now constructor].
    + constructor; [exact IH |]. apply insert_by_HdRel; [exact Hhd |].
      destruct (leb_total x y); congruence.
Qed.

Lemma order_by_Sorted (l : list A) :
  Sorted (fun u v => leb u v = true) (order_by leb l).
Proof.
  unfold order_by. induction l as [| x l IH]; cbn [fold_right]; [constructor |].
  now apply insert_by_Sorted.
Qed.

Lemma insert_by_Permutation (x : A) (l : list A) :
  Permutation (insert_by leb x l) (x :: l).
Proof.
  induction l as [| y l IH]; cbn [insert_by]; [reflexivity |].
  destruct (leb x y); [reflexivity |].
  rewrite IH. apply perm_swap.
Qed.

Lemma order_by_Permutation (l : list A) : Permutation (order_by leb l) l.
Proof.
  unfold order_by. induction l as [| x l IH]; cbn [fold_right]; [reflexivity |].
  rewrite insert_by_Permutation. now constructor.
Qed.
End Ordering.

Lemma order_by_length {A : Type} (leb : A -> A -> bool) (l : list A) :
  List.length (order_by leb l) = List.length l.
Proof. apply Permutation_length, order_by_Permutation. Qed.

(** A queryset ordered by a decreasing integer field yields its rows
    with every earlier row at least as recent as every later one. *)
Lemma fetch_descending {A : Type} `{Model A} (key : A -> Z) (qs : QuerySet A) (d : DB) :
  ordering qs = Some (fun a b => key b <=? key a) ->
  StronglySorted (fun a b => key b <= key a) (fetch qs d)
  /\ Permutation (fetch qs d) (filter (where_ qs d) (objects d)).
Proof.
  intros Hord. unfold fetch. rewrite Hord. split.
  - apply Sorted_StronglySorted.
    + intros a b c Hab Hbc. lia.
    + eapply Sorted_ind with (P := Sorted (fun a b => key b <= key a)).
      * constructor.
      * intros a l _ IH Hhd. constructor; [exact IH |].
        destruct Hhd as [| b l' Hab]; constructor. apply Z.leb_le. exact Hab.
      * apply order_by_Sorted. intros a b.
        destruct (Z.leb_spec (key b) (key a)); [now left | right; apply Z.leb_le; lia].
  - apply order_by_Permutation.
Qed.

Lemma SaleListView_ordering (E : Externals) (GET : SaleSearch) :
  ordering (SaleListView_get_queryset E GET)
  = Some (fun a b => sale_date b <=? sale_date a).
Proof.
  unfold SaleListView_get_queryset.
  destruct (SaleSearchForm E GET), (truthy (ss_product_name GET)),
    (truthy (ss_invoice_number GET)), (ss_cashier GET), (truthy (ss_status GET)),
    (ss_date_from GET), (ss_date_to GET); reflexivity.
Qed.

Lemma EmployeeListView_ordering (E : Externals) (user : User) (GET : EmployeeSearch) :
  ordering (EmployeeListView_get_queryset E user GET)
  = Some (fun a b => date_joined b <=? date_joined a).
Proof.
  unfold EmployeeListView_get_queryset.
  destruct (EmployeeSearchForm E GET), (truthy (es_search GET)), (truthy (es_role GET)),
    (String.eqb (es_status GET) "active"), (String.eqb (es_status GET) "inactive");
    reflexivity.
Qed.

Lemma SupplierListView_ordering (L : ListExternals) (GET : SupplierSearch) :
  ordering (SupplierListView_get_queryset L GET)
  = Some (fun a b => supplier_created_at b <=? supplier_created_at a).
Proof.
  unfold SupplierListView_get_queryset.
  destruct (SupplierSearchForm L GET), (truthy (sup_search GET)), (truthy (sup_status GET));
    reflexivity.
Qed.

Lemma ProductListView_ordering (L : ListExternals) (GET : ProductSearch) :
  ordering (ProductListView_get_queryset L GET)
  = Some (fun a b => product_created_at b <=? product_created_at a).
Proof.
  unfold ProductListView_get_queryset.
  destruct (ProductSearchForm L GET), (truthy (prod_search GET)), (prod_category GET),
    (truthy (prod_status GET)); reflexivity.
Qed.

(** X3. Every list view yields its rows in the ordering it asks for,
    whatever the search: the sales from the latest date to the earliest,
    the employees from the latest [date_joined], the suppliers and the
    products from the latest [created_at], the categories by name; and
    ordering neither drops nor repeats a row of the filtered table. *)
Theorem list_views_are_ordered (E : Externals) (L : ListExternals) (d : DB) :
  (forall GET,
      StronglySorted (fun a b => sale_date b <= sale_date a)
                     (fetch (SaleListView_get_queryset E GET) d)
      /\ Permutation (fetch (SaleListView_get_queryset E GET) d)
                     (filter (where_ (SaleListView_get_queryset E GET) d) (sales d)))
  /\ (forall user GET,
        StronglySorted (fun a b => date_joined b <= date_joined a)
                       (fetch (EmployeeListView_get_queryset E user GET) d)
        /\ Permutation (fetch (EmployeeListView_get_queryset E user GET) d)
                       (filter (where_ (EmployeeListView_get_queryset E user GET) d)
                               (users d)))
  /\ (forall GET,
        StronglySorted (fun a b => supplier_created_at b <= supplier_created_at a)
                       (fetch (SupplierListView_get_queryset L GET) d)
        /\ Permutation (fetch (SupplierListView_get_queryset L GET) d)
                       (filter (where_ (SupplierListView_get_queryset L GET) d)
                               (suppliers d)))
  /\ (forall GET,
        StronglySorted (fun a b => product_created_at b <= product_created_at a)
                       (fetch (ProductListView_get_queryset L GET) d)
        /\ Permutation (fetch (ProductListView_get_queryset L GET) d)
                       (filter (where_ (ProductListView_get_queryset L GET) d)
                               (products d)))
  /\ (forall GET,
        Sorted (fun a b => String.leb (category_name a) (category_name b) = true)
               (fetch (CategoryListView_get_queryset L GET) d)
        /\ Permutation (fetch (CategoryListView_get_queryset L GET) d)
                       (filter (where_ (CategoryListView_get_queryset L GET) d)
                               (categories d))).
Proof.
  split; [| split; [| split; [| split]]].
  - intros GET. change (sales d) with (objects (A := Sale) d).
    apply (fetch_descending sale_date), SaleListView_ordering.
  - intros user GET. change (users d) with (objects (A := User) d).
    apply (fetch_descending date_joined), EmployeeListView_ordering.
  - intros GET. change (suppliers d) with (objects (A := Supplier) d).
    apply (fetch_descending supplier_created_at), SupplierListView_ordering.
  - intros GET. change (products d) with (objects (A := Product) d).
    apply (fetch_descending product_created_at), ProductListView_ordering.
  - intros GET. unfold CategoryListView_get_queryset, fetch.
    destruct (CategorySearchForm L GET && truthy GET);
      cbn [ordering qs_filter qs_order_by objects_all];
      (split; [apply order_by_Sorted | apply order_by_Permutation]);
      intros a b; apply String.leb_total.
Qed.

(** ** The search of the sale list *)

Lemma sells_product_named_spec (pn : string) (d : DB) (s : Sale) :
  sells_product_named pn d s = true
  <-> exists i p,
        In i (sale_items d) /\ item_sale i = pk s
        /\ In p (products d) /\ pk p = item_product i
        /\ icontains (product_name p) pn = true.
Proof.
  unfold sells_product_named. rewrite existsb_exists. split.
  - intros (i & Hi & Hcond). apply andb_prop in Hcond as [Hsale Hprod].
    apply existsb_exists in Hprod as (p & Hp & Hcond).
    apply andb_prop in Hcond as [Hkey Hname].
    exists i, p. repeat split; try assumption; now apply Z.eqb_eq.
  - intros (i & p & Hi & Hsale & Hp & Hkey & Hname).
    exists i. split; [assumption |]. apply andb_true_intro. split.
    + now apply Z.eqb_eq.
    + apply existsb_exists. exists p. split; [assumption |].
      apply andb_true_intro. split; [now apply Z.eqb_eq | assumption].
Qed.

(** The condition of the sale list, for a search form that is valid. *)
Lemma SaleListView_where (E : Externals) (GET : SaleSearch) (d : DB) (s : Sale) :
  SaleSearchForm E GET = true ->
  where_ (SaleListView_get_queryset E GET) d s
  = (if truthy (ss_product_name GET) then sells_product_named (ss_product_name GET) d s
     else true)
    && (if truthy (ss_invoice_number GET)
        then icontains (invoice_number s) (ss_invoice_number GET) else true)
    && match ss_cashier GET with Some c => cashier s =? c | None => true end
    && (if truthy (ss_status GET) then String.eqb (sale_status s) (ss_status GET)
        else true)
    && match ss_date_from GET with
       | Some from => date_leb from (date_of (localtime E (sale_date s)))
       | None => true
       end
    && match ss_date_to GET with
       | Some to => date_leb (date_of (localtime E (sale_date s))) to
       | None => true
       end.
Proof.
  intros Hvalid. unfold SaleListView_get_queryset. rewrite Hvalid.
  destruct (truthy (ss_product_name GET)), (truthy (ss_invoice_number GET)),
    (ss_cashier GET), (truthy (ss_status GET)), (ss_date_from GET), (ss_date_to GET);
    cbn [where_ qs_filter qs_order_by SaleListView_queryset objects_all andb];
    rewrite ?andb_true_r; reflexivity.
Qed.

(** X4. With a valid search form the sale list yields exactly the sales
    that meet every filter that is filled in: a product of one of the
    sale's items has the product name in its name, the invoice number
    contains the term, the cashier, the status, and the local date within
    the two bounds, both included; an empty filter does not restrict.
    With a form that is not valid the list yields every sale. *)
Theorem sale_search_filters (E : Externals) (GET : SaleSearch) (d : DB) (s : Sale) :
  (SaleSearchForm E GET = false ->
   (In s (fetch (SaleListView_get_queryset E GET) d) <-> In s (sales d)))
  /\ (SaleSearchForm E GET = true ->
      (In s (fetch (SaleListView_get_queryset E GET) d)
       <-> In s (sales d)
           /\ (ss_product_name GET <> EmptyString ->
               exists i p,
                 In i (sale_items d) /\ item_sale i = pk s
                 /\ In p (products d) /\ pk p = item_product i
                 /\ icontains (product_name p) (ss_product_name GET) = true)
           /\ (ss_invoice_number GET <> EmptyString ->
               icontains (invoice_number s) (ss_invoice_number GET) = true)
           /\ (forall c, ss_cashier GET = Some c -> cashier s = c)
           /\ (ss_status GET <> EmptyString -> sale_status s = ss_status GET)
           /\ (forall from, ss_date_from GET = Some from ->
                            date_leb from (date_of (localtime E (sale_date s))) = true)
           /\ (forall to, ss_date_to GET = Some to ->
                          date_leb (date_of (localtime E (sale_date s))) to = true))).
Proof.
  split; intros Hvalid; rewrite In_fetch; change (objects (A := Sale) d) with (sales d).
  - unfold SaleListView_get_queryset. rewrite Hvalid.
    cbn [where_ qs_order_by SaleListView_queryset objects_all]. tauto.
  - rewrite SaleListView_where by assumption.
    rewrite !andb_true_iff.
    assert (Hcases : forall t, (t = EmptyString /\ truthy t = false)
                               \/ (t <> EmptyString /\ truthy t = true)).
    { intros t. destruct t; [left | right]; split; cbn; congruence. }
    destruct (Hcases (ss_product_name GET)) as [[Hpn ->] | [Hpn ->]];
      destruct (Hcases (ss_invoice_number GET)) as [[Hinv ->] | [Hinv ->]];
      destruct (ss_cashier GET) as [c |];
      destruct (Hcases (ss_status GET)) as [[Hst ->] | [Hst ->]];
      destruct (ss_date_from GET) as [from |];
      destruct (ss_date_to GET) as [to |];
      rewrite ?sells_product_named_spec, ?String.eqb_eq, ?Z.eqb_eq;
      (split;
       [ intros (Hin & Hall);
         repeat match goal with H : _ /\ _ |- _ => destruct H end;
         refine (conj _ (conj _ (conj _ (conj _ (conj _ (conj _ _))))));
         first [ assumption
               | intros ?; assumption
               | intros ?; congruence
               | intros ? [= <-]; assumption
               | intros ? [=] ]
       | intros (Hin & H1 & H2 & H3 & H4 & H5 & H6);
         refine (conj _ (conj (conj (conj (conj (conj _ _) _) _) _) _)); auto ]).
Qed.

Lemma sale_search_filters_witness :
  In sample_sale
     (fetch (SaleListView_get_queryset sample_E
               (mkSaleSearch "STY" "inv-0" (Some 2) "paid" None None)) sample_db).
Proof.
  apply (proj2 (sale_search_filters sample_E
                  (mkSaleSearch "STY" "inv-0" (Some 2) "paid" None None)
                  sample_db sample_sale) eq_refl).
  split; [left; reflexivity |].
  split; [| split; [| split; [| split; [| split]]]].
  - intros _. exists (mkSaleItem 1 1 1 2 1000), sample_pen.
    repeat split; [left | left]; reflexivity.
  - intros _. reflexivity.
  - intros c [= <-]. reflexivity.
  - intros _. reflexivity.
  - intros from [=].
  - intros to [=].
Defined.

(** ** The counts shown with the lists *)

Lemma filter_filter {A : Type} (p q : A -> bool) (l : list A) :
  filter q (filter p l) = filter (fun x => p x && q x) l.
Proof.
  induction l as [| x l IH]; cbn [filter]; [reflexivity |].
  destruct (p x); cbn [filter andb]; [destruct (q x) |]; now rewrite IH.
Qed.

Lemma filter_length_Permutation {A : Type} (p : A -> bool) (l l' : list A) :
  Permutation l l' -> List.length (filter p l) = List.length (filter p l').
Proof.
  induction 1 as [| x l l' _ IH | x y l | l l' l'' _ IH1 _ IH2]; cbn [filter].
  - reflexivity.
  - destruct (p x); cbn [List.length]; now rewrite IH.
  - destruct (p x), (p y); reflexivity.
  - now rewrite IH1.
Qed.

Lemma fetch_Permutation {A : Type} `{Model A} (qs : QuerySet A) (d : DB) :
  Permutation (fetch qs d) (filter (where_ qs d) (objects d)).
Proof.
  unfold fetch. destruct (ordering qs); [apply order_by_Permutation | reflexivity].
Qed.

(** Counting a queryset narrowed by one more condition counts the rows
    of the queryset that meet the condition. *)
Lemma qs_count_filter {A : Type} `{Model A} (p : DB -> A -> bool) (qs : QuerySet A) (d : DB) :
  qs_count (qs_filter p qs) d = List.length (filter (p d) (fetch qs d)).
Proof.
  unfold qs_count.
  rewrite (Permutation_length (fetch_Permutation (qs_filter p qs) d)).
  rewrite (filter_length_Permutation (p d) (fetch_Permutation qs d)).
  cbn [where_ qs_filter]. now rewrite filter_filter.
Qed.

Lemma count_none {A : Type} (p : A -> bool) (l : list A) :
  (forall x, In x l -> p x = false) -> List.length (filter p l) = 0%nat.
Proof.
  induction l as [| x l IH]; intros Hall; cbn [filter]; [reflexivity |].
  rewrite (Hall x) by (left; reflexivity). apply IH. intros y Hy. apply Hall. now right.
Qed.

Lemma count_all {A : Type} (p : A -> bool) (l : list A) :
  (forall x, In x l -> p x = true) -> List.length (filter p l) = List.length l.
Proof.
  induction l as [| x l IH]; intros Hall; cbn [filter]; [reflexivity |].
  rewrite (Hall x) by (left; reflexivity). cbn [List.length]. f_equal.
  apply IH. intros y Hy. apply Hall. now right.
Qed.

(** Rows counted under three conditions no two of which hold together
    are at most the rows. *)
Lemma count_three_disjoint {A : Type} (p q r : A -> bool) (l : list A) :
  (forall x, p x && q x = false) -> (forall x, p x && r x = false) ->
  (forall x, q x && r x = false) ->
  (List.length (filter p l) + List.length (filter q l) + List.length (filter r l)
   <= List.length l)%nat.
Proof.
  intros Hpq Hpr Hqr. induction l as [| x l IH]; cbn [filter]; [cbn; lia |].
  specialize (Hpq x). specialize (Hpr x). specialize (Hqr x).
  destruct (p x), (q x), (r x); cbn [List.length andb] in *; try discriminate; lia.
Qed.

(** X5. The employee list shows, beside the requested page of at most
    fifteen employees, the number of employees the search yields over all
    its pages, and how many of them are active and inactive: the two add
    up to the total. *)
Theorem employee_counts_add_up
  (E : Externals) (user : User) (GET : EmployeeSearch) (n : nat) (w : World) :
  (1 <= n <= Paginator_num_pages
               (List.length (fetch (EmployeeListView_get_queryset E user GET) (db w)))
               15)%nat ->
  exists ctx,
    EmployeeListView_get_context_data E user GET (Z.of_nat n) w = (Return ctx, w)
    /\ el_page_obj ctx
       = firstn 15 (skipn ((n - 1) * 15)
                          (fetch (EmployeeListView_get_queryset E user GET) (db w)))
    /\ el_total ctx
       = List.length (fetch (EmployeeListView_get_queryset E user GET) (db w))
    /\ el_active ctx
       = List.length (filter is_active
                             (fetch (EmployeeListView_get_queryset E user GET) (db w)))
    /\ el_inactive ctx
       = List.length (filter (fun u => negb (is_active u))
                             (fetch (EmployeeListView_get_queryset E user GET) (db w)))
    /\ (el_active ctx + el_inactive ctx = el_total ctx)%nat.
Proof.
  intros Hn.
  unfold EmployeeListView_get_context_data, paginate_queryset,
    EmployeeListView_paginate_by.
  run_view. rewrite (Paginator_page_in_range _ _ Hn).
  eexists. split; [reflexivity |].
  cbn [el_page_obj el_total el_active el_inactive].
  rewrite !qs_count_filter. unfold qs_count.
  set (all := fetch (EmployeeListView_get_queryset E user GET) (db w)).
  assert (Hactive : filter (fun u => Bool.eqb (is_active u) true) all = filter is_active all).
  { apply filter_ext. intros u. now destruct (is_active u). }
  assert (Hinactive : filter (fun u => Bool.eqb (is_active u) false) all
                      = filter (fun u => negb (is_active u)) all).
  { apply filter_ext. intros u. now destruct (is_active u). }
  rewrite Hactive, Hinactive.
  repeat split.
  pose proof (filter_length_split is_active all). lia.
Qed.

Lemma employee_counts_add_up_witness :
  exists ctx,
    EmployeeListView_get_context_data sample_E sample_admin
      (mkEmployeeSearch "mart" EmptyString EmptyString) 1 sample_world
    = (Return ctx, sample_world)
    /\ el_total ctx = 2%nat /\ el_active ctx = 1%nat /\ el_inactive ctx = 1%nat.
Proof.
  destruct (@employee_counts_add_up sample_E sample_admin
              (mkEmployeeSearch "mart" EmptyString EmptyString) 1 sample_world)
    as (ctx & Hctx & _).
  - split; [lia | vm_compute; lia].
  - exists ctx. split; [exact Hctx |].
    vm_compute in Hctx. injection Hctx as <-. repeat split.
Defined.

Lemma truthy_cases (t : string) :
  (t = EmptyString /\ truthy t = false) \/ (t <> EmptyString /\ truthy t = true).
Proof. destruct t; [left | right]; split; cbn; congruence. Qed.

(** The condition of the supplier list, for a search form that is valid. *)
Lemma SupplierListView_where (L : ListExternals) (GET : SupplierSearch) (d : DB) (s : Supplier) :
  SupplierSearchForm L GET = true ->
  where_ (SupplierListView_get_queryset L GET) d s
  = (if truthy (sup_search GET) then icontains (supplier_name s) (sup_search GET) else true)
    && (if truthy (sup_status GET) then String.eqb (supplier_status s) (sup_status GET)
        else true).
Proof.
  intros Hvalid. unfold SupplierListView_get_queryset. rewrite Hvalid.
  destruct (truthy (sup_search GET)), (truthy (sup_status GET));
    cbn [where_ qs_filter qs_order_by objects_all andb]; rewrite ?andb_true_r; reflexivity.
Qed.

(** The condition of the product list, for a search form that is valid. *)
Lemma ProductListView_where (L : ListExternals) (GET : ProductSearch) (d : DB) (p : Product) :
  ProductSearchForm L GET = true ->
  where_ (ProductListView_get_queryset L GET) d p
  = (if truthy (prod_search GET) then icontains (product_name p) (prod_search GET) else true)
    && match prod_category GET with Some c => product_category p =? c | None => true end
    && (if truthy (prod_status GET) then String.eqb (product_status p) (prod_status GET)
        else true).
Proof.
  intros Hvalid. unfold ProductListView_get_queryset. rewrite Hvalid.
  destruct (truthy (prod_search GET)), (prod_category GET), (truthy (prod_status GET));
    cbn [where_ qs_filter qs_order_by objects_all andb]; rewrite ?andb_true_r; reflexivity.
Qed.

(** Rows that all carry the status [st]: those of status [c] are all of
    them or none. *)
Lemma count_of_status {A : Type} (status : A -> string) (st c : string) (l : list A) :
  (forall x, In x l -> status x = st) ->
  List.length (filter (fun x => String.eqb (status x) c) l)
  = if String.eqb st c then List.length l else 0%nat.
Proof.
  intros Hall. destruct (String.eqb st c) eqn:Hc.
  - apply String.eqb_eq in Hc. subst c. apply count_all.
    intros x Hx. apply String.eqb_eq. now apply Hall.
  - apply count_none. intros x Hx. rewrite (Hall x Hx). exact Hc.
Qed.

Lemma distinct_status_disjoint {A : Type} (status : A -> string) (a b : string) (x : A) :
  a <> b -> String.eqb (status x) a && String.eqb (status x) b = false.
Proof.
  intros Hab. destruct (String.eqb (status x) a) eqn:Ha; [| reflexivity].
  apply String.eqb_eq in Ha. cbn [andb]. apply String.eqb_neq. congruence.
Qed.

(** X6. The supplier list shows the number of suppliers the search
    yields over all its pages and how many of them have each of the three
    statuses, counted on the filtered list: with distinct status values
    the three counts never exceed the total; when the valid search names a
    status, every supplier listed has it, and each count is the total for
    that status and zero for the others. *)
Theorem supplier_counts_follow_the_filter
  (L : ListExternals) (GET : SupplierSearch) (n : nat) (w : World) :
  (1 <= n <= Paginator_num_pages
               (List.length (fetch (SupplierListView_get_queryset L GET) (db w))) 15)%nat ->
  exists ctx,
    SupplierListView_get_context_data L GET (Z.of_nat n) w = (Return ctx, w)
    /\ sl_page_obj ctx
       = firstn 15 (skipn ((n - 1) * 15)
                          (fetch (SupplierListView_get_queryset L GET) (db w)))
    /\ sl_total ctx = List.length (fetch (SupplierListView_get_queryset L GET) (db w))
    /\ sl_active ctx
       = List.length (filter (fun s => String.eqb (supplier_status s)
                                                  (Supplier_Status_ACTIVE L))
                             (fetch (SupplierListView_get_queryset L GET) (db w)))
    /\ (Supplier_Status_ACTIVE L <> Supplier_Status_INACTIVE L ->
        Supplier_Status_ACTIVE L <> Supplier_Status_SUSPENDED L ->
        Supplier_Status_INACTIVE L <> Supplier_Status_SUSPENDED L ->
        (sl_active ctx + sl_inactive ctx + sl_suspended ctx <= sl_total ctx)%nat)
    /\ (SupplierSearchForm L GET = true -> sup_status GET <> EmptyString ->
        sl_status_filter ctx = sup_status GET
        /\ (forall s, In s (fetch (SupplierListView_get_queryset L GET) (db w)) ->
                      supplier_status s = sup_status GET)
        /\ sl_active ctx
           = (if String.eqb (sup_status GET) (Supplier_Status_ACTIVE L)
              then sl_total ctx else 0%nat)
        /\ sl_inactive ctx
           = (if String.eqb (sup_status GET) (Supplier_Status_INACTIVE L)
              then sl_total ctx else 0%nat)
        /\ sl_suspended ctx
           = (if String.eqb (sup_status GET) (Supplier_Status_SUSPENDED L)
              then sl_total ctx else 0%nat))
    /\ (SupplierSearchForm L GET = false ->
        sl_status_filter ctx = EmptyString
        /\ sl_total ctx = List.length (suppliers (db w))).
Proof.
  intros Hn.
  unfold SupplierListView_get_context_data, paginate_queryset,
    SupplierListView_paginate_by.
  run_view. rewrite (Paginator_page_in_range _ _ Hn).
  eexists. split; [reflexivity |].
  cbn [sl_page_obj sl_total sl_status_filter sl_active sl_inactive sl_suspended].
  rewrite !qs_count_filter. unfold qs_count.
  set (all := fetch (SupplierListView_get_queryset L GET) (db w)).
  split; [reflexivity |]. split; [reflexivity |]. split; [reflexivity |].
  split; [| split].
  - intros Hai Has His.
    apply (count_three_disjoint
             (fun s => String.eqb (supplier_status s) (Supplier_Status_ACTIVE L))
             (fun s => String.eqb (supplier_status s) (Supplier_Status_INACTIVE L))
             (fun s => String.eqb (supplier_status s) (Supplier_Status_SUSPENDED L)));
      intros s; now apply distinct_status_disjoint.
  - intros Hvalid Hst. rewrite Hvalid.
    assert (Hall : forall s, In s all -> supplier_status s = sup_status GET).
    { intros s Hs. apply In_fetch in Hs as [_ Hw].
      rewrite SupplierListView_where in Hw by assumption.
      destruct (truthy_cases (sup_status GET)) as [[Hempty _] | [_ Htruthy]];
        [contradiction |].
      rewrite Htruthy in Hw. apply andb_prop in Hw as [_ Hw].
      now apply String.eqb_eq. }
    split; [reflexivity |]. split; [exact Hall |].
    repeat split; now apply count_of_status.
  - intros Hinvalid. rewrite Hinvalid. split; [reflexivity |].
    unfold all. rewrite (Permutation_length (fetch_Permutation _ _)).
    unfold SupplierListView_get_queryset. rewrite Hinvalid.
    cbn [where_ qs_order_by objects_all]. change (objects (A := Supplier) (db w))
      with (suppliers (db w)).
    apply count_all. reflexivity.
Qed.

Lemma supplier_counts_follow_the_filter_witness :
  exists ctx,
    SupplierListView_get_context_data sample_L (mkSupplierSearch "nord" "active") 1
      (mkWorld sample_db_suppliers [])
    = (Return ctx, mkWorld sample_db_suppliers [])
    /\ map supplier_pk (sl_page_obj ctx) = [3; 1]
    /\ sl_total ctx = 2%nat /\ sl_active ctx = 2%nat
    /\ sl_inactive ctx = 0%nat /\ sl_suspended ctx = 0%nat.
Proof.
  destruct (@supplier_counts_follow_the_filter sample_L (mkSupplierSearch "nord" "active") 1
              (mkWorld sample_db_suppliers []))
    as (ctx & Hctx & _).
  - split; [lia | vm_compute; lia].
  - exists ctx. split; [exact Hctx |].
    vm_compute in Hctx. injection Hctx as <-. repeat split.
Defined.

(** X7. The product list shows the number of products the search yields
    over all its pages and how many of them are active, out of stock and
    inactive, counted on the filtered list: with distinct status values
    the three counts never exceed the total; when the valid search names a
    status, every product listed has it, and each count is the total for
    that status and zero for the others; a category filter leaves only
    the products of that category. *)
Theorem product_counts_follow_the_filter
  (L : ListExternals) (GET : ProductSearch) (n : nat) (w : World) :
  (1 <= n <= Paginator_num_pages
               (List.length (fetch (ProductListView_get_queryset L GET) (db w))) 15)%nat ->
  exists ctx,
    ProductListView_get_context_data L GET (Z.of_nat n) w = (Return ctx, w)
    /\ pl_page_obj ctx
       = firstn 15 (skipn ((n - 1) * 15)
                          (fetch (ProductListView_get_queryset L GET) (db w)))
    /\ pl_total ctx = List.length (fetch (ProductListView_get_queryset L GET) (db w))
    /\ (Product_Status_ACTIVE L <> Product_Status_OUT_OF_STOCK L ->
        Product_Status_ACTIVE L <> Product_Status_INACTIVE L ->
        Product_Status_OUT_OF_STOCK L <> Product_Status_INACTIVE L ->
        (pl_active ctx + pl_out_of_stock ctx + pl_inactive ctx <= pl_total ctx)%nat)
    /\ (ProductSearchForm L GET = true -> prod_status GET <> EmptyString ->
        pl_status_filter ctx = Some (prod_status GET)
        /\ (forall p, In p (fetch (ProductListView_get_queryset L GET) (db w)) ->
                      product_status p = prod_status GET)
        /\ pl_active ctx
           = (if String.eqb (prod_status GET) (Product_Status_ACTIVE L)
              then pl_total ctx else 0%nat)
        /\ pl_out_of_stock ctx
           = (if String.eqb (prod_status GET) (Product_Status_OUT_OF_STOCK L)
              then pl_total ctx else 0%nat)
        /\ pl_inactive ctx
           = (if String.eqb (prod_status GET) (Product_Status_INACTIVE L)
              then pl_total ctx else 0%nat))
    /\ (ProductSearchForm L GET = true ->
        forall c, prod_category GET = Some c ->
                  forall p, In p (fetch (ProductListView_get_queryset L GET) (db w)) ->
                            product_category p = c)
    /\ (ProductSearchForm L GET = false ->
        pl_search_filter ctx = EmptyString /\ pl_category_filter ctx = None
        /\ pl_status_filter ctx = None
        /\ pl_total ctx = List.length (products (db w))).
Proof.
  intros Hn.
  unfold ProductListView_get_context_data, paginate_queryset,
    ProductListView_paginate_by.
  run_view. rewrite (Paginator_page_in_range _ _ Hn).
  eexists. split; [reflexivity |].
  cbn [pl_page_obj pl_total pl_search_filter pl_category_filter pl_status_filter
       pl_active pl_out_of_stock pl_inactive].
  rewrite !qs_count_filter. unfold qs_count.
  set (all := fetch (ProductListView_get_queryset L GET) (db w)).
  split; [reflexivity |]. split; [reflexivity |].
  split; [| split; [| split]].
  - intros Hao Hai Hoi.
    apply (count_three_disjoint
             (fun p => String.eqb (product_status p) (Product_Status_ACTIVE L))
             (fun p => String.eqb (product_status p) (Product_Status_OUT_OF_STOCK L))
             (fun p => String.eqb (product_status p) (Product_Status_INACTIVE L)));
      intros p; now apply distinct_status_disjoint.
  - intros Hvalid Hst. rewrite Hvalid.
    assert (Hall : forall p, In p all -> product_status p = prod_status GET).
    { intros p Hp. apply In_fetch in Hp as [_ Hw].
      rewrite ProductListView_where in Hw by assumption.
      destruct (truthy_cases (prod_status GET)) as [[Hempty _] | [_ Htruthy]];
        [contradiction |].
      rewrite Htruthy in Hw. apply andb_prop in Hw as [_ Hw].
      now apply String.eqb_eq. }
    split; [reflexivity |]. split; [exact Hall |].
    repeat split; now apply count_of_status.
  - intros Hvalid c Hc p Hp. apply In_fetch in Hp as [_ Hw].
    rewrite ProductListView_where in Hw by assumption. rewrite Hc in Hw.
    apply andb_prop in Hw as [Hw _]. apply andb_prop in Hw as [_ Hw].
    now apply Z.eqb_eq.
  - intros Hinvalid. rewrite Hinvalid. repeat split.
    unfold all. rewrite (Permutation_length (fetch_Permutation _ _)).
    unfold ProductListView_get_queryset. rewrite Hinvalid.
    cbn [where_ qs_order_by objects_all]. change (objects (A := Product) (db w))
      with (products (db w)).
    apply count_all. reflexivity.
Qed.

Lemma product_counts_follow_the_filter_witness :
  exists ctx,
    ProductListView_get_context_data sample_L
      (mkProductSearch EmptyString (Some 1) "active") 1 sample_world
    = (Return ctx, sample_world)
    /\ map product_pk (pl_page_obj ctx) = [2; 1]
    /\ pl_total ctx = 2%nat /\ pl_active ctx = 2%nat
    /\ pl_out_of_stock ctx = 0%nat /\ pl_inactive ctx = 0%nat.
Proof.
  destruct (@product_counts_follow_the_filter sample_L
              (mkProductSearch EmptyString (Some 1) "active") 1 sample_world)
    as (ctx & Hctx & _).
  - split; [lia | vm_compute; lia].
  - exists ctx. split; [exact Hctx |].
    vm_compute in Hctx. injection Hctx as <-. repeat split.
Defined.

(** X8. The category list yields, by name, exactly the categories whose
    name contains the term without regard to case when the search form is
    valid and the term is not empty, and every category otherwise; the
    total shown with a page is the size of that list, not of the page. *)
Theorem category_list_filter (L : ListExternals) (GET : string) (w : World) :
  (forall c,
      In c (fetch (CategoryListView_get_queryset L GET) (db w))
      <-> In c (categories (db w))
          /\ (CategorySearchForm L GET = true -> GET <> EmptyString ->
              icontains (category_name c) GET = true))
  /\ (forall n : nat,
        (1 <= n <= Paginator_num_pages
                     (List.length (fetch (CategoryListView_get_queryset L GET) (db w)))
                     15)%nat ->
        CategoryListView_get_context_data L GET (Z.of_nat n) w
        = (Return (mkCategoryListContext
                     (firstn 15 (skipn ((n - 1) * 15)
                                       (fetch (CategoryListView_get_queryset L GET) (db w))))
                     GET
                     (List.length (fetch (CategoryListView_get_queryset L GET) (db w)))),
           w)).
Proof.
  split.
  - intros c. rewrite In_fetch. change (objects (A := Category) (db w))
      with (categories (db w)).
    unfold CategoryListView_get_queryset.
    destruct (CategorySearchForm L GET);
      destruct (truthy_cases GET) as [[Hempty ->] | [Hne ->]];
      cbn [andb where_ qs_filter qs_order_by objects_all]; intuition congruence.
  - intros n Hn.
    unfold CategoryListView_get_context_data, paginate_queryset,
      CategoryListView_paginate_by.
    run_view. rewrite (Paginator_page_in_range _ _ Hn). reflexivity.
Qed.

Lemma category_list_filter_witness :
  map category_name (fetch (CategoryListView_get_queryset sample_L "PAP") sample_db_suppliers)
  = ["Papeterie"]
  /\ CategoryListView_get_context_data sample_L EmptyString 1
       (mkWorld sample_db_suppliers [])
     = (Return (mkCategoryListContext [mkCategory 2 "Bureau"; mkCategory 1 "Papeterie"]
                                      EmptyString 2),
        mkWorld sample_db_suppliers []).
Proof.
  split; [reflexivity |].
  apply (proj2 (category_list_filter sample_L EmptyString (mkWorld sample_db_suppliers []))
               1%nat).
  split; [lia | vm_compute; lia].
Defined.

(** ** Creating, updating and deleting records *)

Section TableFacts.
Context {A : Type} `{Model A}.

Lemma get_pk_app_old (rows : list A) (r : A) (k : Z) (old : A) :
  get_pk rows k = Some old -> get_pk (rows ++ [r]) k = Some old.
Proof.
  unfold get_pk. induction rows as [| x rows IH]; [discriminate |].
  rewrite <- app_comm_cons. cbn [find].
  destruct (pk x =? k); [trivial | exact IH].
Qed.

Lemma get_pk_existsb (rows : list A) (k : Z) (r : A) :
  get_pk rows k = Some r -> existsb (fun x => pk x =? k) rows = true.
Proof.
  intros Hget. apply find_some in Hget as [Hin Hk].
  apply existsb_exists. eauto.
Qed.

(** Replacing the rows of key [k] leaves what the other keys find. *)
Lemma get_pk_replace_other (rows : list A) (r : A) (k k' : Z) :
  pk r = k -> k' <> k ->
  get_pk (map (fun x => if pk x =? k then r else x) rows) k' = get_pk rows k'.
Proof.
  intros Hr Hne. unfold get_pk. induction rows as [| x rows IH]; cbn [map find]; [reflexivity |].
  destruct (pk x =? k) eqn:Hx.
  - apply Z.eqb_eq in Hx. rewrite Hr, Hx.
    destruct (k =? k') eqn:Hk; [apply Z.eqb_eq in Hk; congruence | exact IH].
  - destruct (pk x =? k'); [reflexivity | exact IH].
Qed.

Lemma get_pk_replace_same (rows : list A) (r old : A) (k : Z) :
  pk r = k -> get_pk rows k = Some old ->
  get_pk (map (fun x => if pk x =? k then r else x) rows) k = Some r.
Proof.
  intros Hr. unfold get_pk. induction rows as [| x rows IH]; cbn [map find]; [discriminate |].
  destruct (pk x =? k) eqn:Hx.
  - rewrite Hr, Z.eqb_refl. reflexivity.
  - rewrite Hx. exact IH.
Qed.

(** Deleting the rows of key [k] leaves no row under [k] and the rows of
    the other keys where they were. *)
Lemma get_pk_delete (rows : list A) (k k' : Z) :
  get_pk (filter (fun r => negb (pk r =? k)) rows) k'
  = if k' =? k then None else get_pk rows k'.
Proof.
  unfold get_pk. induction rows as [| x rows IH]; cbn [filter find].
  - now destruct (k' =? k).
  - destruct (pk x =? k) eqn:Hx; cbn [negb find].
    + rewrite IH. destruct (k' =? k) eqn:Hk; [reflexivity |].
      destruct (pk x =? k') eqn:Hx'; [| reflexivity].
      apply Z.eqb_eq in Hx, Hx'. apply Z.eqb_neq in Hk. congruence.
    + destruct (pk x =? k') eqn:Hx'; [| exact IH].
      apply Z.eqb_eq in Hx'. subst k'. now rewrite Hx.
Qed.
End TableFacts.

Lemma qs_get_objects_all {A : Type} `{Model A} (k : Z) (d : DB) :
  qs_get objects_all k d = get_pk (objects d) k.
Proof. unfold qs_get. now rewrite fetch_objects_all. Qed.

(** X9. A valid registration stores the account under a key that no
    user had, after the users already there, queues the success notice,
    logs the creation in the name of the new account itself and sends to
    the login page; the accounts already there are found as before. *)
Theorem register_creates_account (E : Externals) (data : User) (w : World) :
  RegisterForm E (db w) data = [] ->
  respond (UserRegisterView_post E data) w
  = (HttpResponseRedirect "accounts:login",
     mkWorld
       (append_log
          (mkActivityLog (next_pk (users (db w))) "Compte créé" "success" "user-plus")
          (with_objects (users (db w) ++ [with_pk (next_pk (users (db w))) data]) (db w)))
       (messages w
        ++ [(msg_success, "Compte créé avec succès, vous pouvez vous connecter.")]))
  /\ get_pk (users (db w)) (next_pk (users (db w))) = None
  /\ get_pk (users (db w) ++ [with_pk (next_pk (users (db w))) data])
            (next_pk (users (db w)))
     = Some (with_pk (next_pk (users (db w))) data)
  /\ (forall k old,
        get_pk (users (db w)) k = Some old ->
        get_pk (users (db w) ++ [with_pk (next_pk (users (db w))) data]) k = Some old).
Proof.
  intros Hvalid. destruct w as [d ms]. cbn [db messages] in *.
  split; [| split; [| split]].
  - unfold UserRegisterView_post, UserRegisterView_form_valid. run_view.
    rewrite Hvalid. reflexivity.
  - apply (next_pk_fresh (A := User)).
  - exact (get_pk_app_fresh (A := User) (users d) (with_pk (next_pk (users d)) data)
             (next_pk_fresh (A := User) (users d))).
  - intros k old. apply (get_pk_app_old (A := User)).
Qed.

Lemma register_creates_account_witness :
  exists w',
    respond (UserRegisterView_post sample_E
               (mkUser 0 "Dan" "Roy" "dan@store.test" "cashier" true 40)) sample_world
    = (HttpResponseRedirect "accounts:login", w')
    /\ map user_pk (users (db w')) = [1; 2; 3; 4]
    /\ activity_log (db w') = [mkActivityLog 4 "Compte créé" "success" "user-plus"].
Proof.
  eexists. split.
  - apply (proj1 (register_creates_account sample_E
                    (mkUser 0 "Dan" "Roy" "dan@store.test" "cashier" true 40)
                    sample_world eq_refl)).
  - split; reflexivity.
Defined.

Section TableChangeFacts.
Context {A : Type} `{Model A}.

Lemma added_row_intro (obj : A) (rows : list A) :
  pk obj = next_pk rows -> added_row obj rows (rows ++ [obj]).
Proof.
  intros Hk. split; [reflexivity |]. split; [| split].
  - rewrite Hk. apply next_pk_fresh.
  - apply get_pk_app_fresh. rewrite Hk. apply next_pk_fresh.
  - intros k old. apply get_pk_app_old.
Qed.

Lemma replaced_row_intro (obj instance : A) (k : Z) (rows : list A) :
  pk obj = k -> get_pk rows k = Some instance ->
  save_row obj rows = map (fun x => if pk x =? k then obj else x) rows
  /\ replaced_row obj k rows (map (fun x => if pk x =? k then obj else x) rows).
Proof.
  intros Hk Hget. split.
  - unfold save_row. rewrite Hk, (get_pk_existsb _ _ Hget). reflexivity.
  - split; [reflexivity |]. split; [exact Hk |]. split; [apply length_map |]. split.
    + eapply get_pk_replace_same; eassumption.
    + intros k' Hne. now apply get_pk_replace_other.
Qed.

Lemma removed_row_intro (k : Z) (rows : list A) :
  removed_row k rows (filter (fun r => negb (pk r =? k)) rows).
Proof.
  split; [reflexivity |]. split.
  - rewrite get_pk_delete. now rewrite Z.eqb_refl.
  - intros k' Hne. rewrite get_pk_delete.
    destruct (k' =? k) eqn:Hk; [apply Z.eqb_eq in Hk; contradiction | reflexivity].
Qed.
End TableChangeFacts.

(** X10. A valid submission to the create screen of the employees, the
    suppliers, the categories or the products stores one new row, after
    the rows already there and under a key none of them had, so that it is
    found under that key and the earlier rows under theirs; it logs the
    action in the name of the caller, queues the success notice that
    names the record, sends to the list of the entity, and changes no
    other table. *)
Theorem create_views_add_one_row (E : Externals) (user : User) (w : World) :
  (forall data,
      EmployeeCreateForm E (db w) data = [] ->
      exists w',
        respond (EmployeeCreateView_post E user data) w
        = (HttpResponseRedirect "accounts:employee_list", w')
        /\ added_row (with_pk (next_pk (users (db w))) data) (users (db w)) (users (db w'))
        /\ db w' = append_log (mkActivityLog (pk user) "Employé ajouté" "success" "user-plus")
                              (with_objects (users (db w')) (db w))
        /\ messages w'
           = (messages w
              ++ [(msg_success,
                   ("Employé "
                    ++ get_full_name E (with_pk (next_pk (users (db w))) data)
                    ++ " créé !")%string)])%list)
  /\ (forall data,
        SupplierCreateForm E (db w) None data = [] ->
        exists w',
          respond (SupplierCreateView_post E user data) w
          = (HttpResponseRedirect "accounts:supplier_list", w')
          /\ added_row (with_pk (next_pk (suppliers (db w))) data)
                       (suppliers (db w)) (suppliers (db w'))
          /\ db w' = append_log (mkActivityLog (pk user) "Fournisseur créé" "success" "truck")
                                (with_objects (suppliers (db w')) (db w))
          /\ messages w'
             = (messages w
                ++ [(msg_success,
                     ("Fournisseur " ++ supplier_name data ++ " créé !")%string)])%list)
  /\ (forall data,
        CategoryCreateForm E (db w) None data = [] ->
        exists w',
          respond (CategoryCreateView_post E user data) w
          = (HttpResponseRedirect "accounts:category_list", w')
          /\ added_row (with_pk (next_pk (categories (db w))) data)
                       (categories (db w)) (categories (db w'))
          /\ db w' = append_log (mkActivityLog (pk user) "Catégorie créée" "success" "tags")
                                (with_objects (categories (db w')) (db w))
          /\ messages w'
             = (messages w
                ++ [(msg_success,
                     ("Catégorie '" ++ category_name data ++ "' créée !")%string)])%list)
  /\ (forall data,
        ProductCreateForm E (db w) None data = [] ->
        exists w',
          respond (ProductCreateView_post E user data) w
          = (HttpResponseRedirect "accounts:product_list", w')
          /\ added_row (with_pk (next_pk (products (db w))) data)
                       (products (db w)) (products (db w'))
          /\ db w' = append_log (mkActivityLog (pk user) "Produit ajouté" "success" "plus")
                                (with_objects (products (db w')) (db w))
          /\ messages w'
             = (messages w
                ++ [(msg_success,
                     ("Produit '" ++ product_name data ++ "' créé !")%string)])%list).
Proof.
  destruct w as [d ms]. cbn [db messages].
  split; [| split; [| split]]; intros data Hvalid.
  - unfold EmployeeCreateView_post, EmployeeCreateView_form_valid. run_view.
    rewrite Hvalid. cbn [is_valid]. eexists. split; [reflexivity |]. cbn [db messages].
    split; [| split; reflexivity].
    apply (added_row_intro (A := User)). reflexivity.
  - unfold SupplierCreateView_post, SupplierCreateView_form_valid. run_view.
    rewrite Hvalid. cbn [is_valid]. eexists. split; [reflexivity |]. cbn [db messages].
    split; [| split; reflexivity].
    apply (added_row_intro (A := Supplier)). reflexivity.
  - unfold CategoryCreateView_post, CategoryCreateView_form_valid. run_view.
    rewrite Hvalid. cbn [is_valid]. eexists. split; [reflexivity |]. cbn [db messages].
    split; [| split; reflexivity].
    apply (added_row_intro (A := Category)). reflexivity.
  - unfold ProductCreateView_post, ProductCreateView_form_valid. run_view.
    rewrite Hvalid. cbn [is_valid]. eexists. split; [reflexivity |]. cbn [db messages].
    split; [| split; reflexivity].
    apply (added_row_intro (A := Product)). reflexivity.
Qed.

Lemma create_views_add_one_row_witness :
  exists w',
    respond (SupplierCreateView_post sample_E sample_admin
               (mkSupplier 0 "Cartons Diallo" "active" 9))
            (mkWorld sample_db_suppliers [])
    = (HttpResponseRedirect "accounts:supplier_list", w')
    /\ map supplier_pk (suppliers (db w')) = [1; 2; 3; 4]
    /\ get_pk (suppliers (db w')) 4 = Some (mkSupplier 4 "Cartons Diallo" "active" 9)
    /\ messages w' = [(msg_success, "Fournisseur Cartons Diallo créé !")].
Proof.
  destruct (proj1 (proj2 (create_views_add_one_row sample_E sample_admin
                            (mkWorld sample_db_suppliers [])))
                  (mkSupplier 0 "Cartons Diallo" "active" 9) eq_refl)
    as (w' & Hr & (Hrows & _ & Hget & _) & _ & Hm).
  exists w'. split; [exact Hr |]. split; [now rewrite Hrows |].
  split; [exact Hget | exact Hm].
Defined.

(** X11. A valid submission to the update screen of a supplier, a
    category, a product or an employee other than the caller, for a
    record that exists, stores the submitted fields under the key of the
    record: the table keeps its size, the key finds the new row and every
    other key finds what it found; the action is logged in the name of
    the caller, the success notice names the record, and no other table
    changes. *)
Theorem update_views_replace_one_row (E : Externals) (user : User) (k : Z) (w : World) :
  (forall instance data,
      k <> pk user -> get_pk (users (db w)) k = Some instance ->
      EmployeeUpdateForm E (db w) instance data = [] ->
      exists w',
        respond (EmployeeUpdateView_post E user k data) w
        = (HttpResponseRedirect "accounts:employee_list", w')
        /\ replaced_row (with_pk k data) k (users (db w)) (users (db w'))
        /\ db w' = append_log (mkActivityLog (pk user) "Employé modifié" "info" "edit")
                              (with_objects (users (db w')) (db w))
        /\ messages w'
           = (messages w
              ++ [(msg_success,
                   ("Employé " ++ get_full_name E (with_pk k data)
                    ++ " mis à jour !")%string)])%list)
  /\ (forall instance data,
        get_pk (suppliers (db w)) k = Some instance ->
        SupplierCreateForm E (db w) (Some instance) data = [] ->
        exists w',
          respond (SupplierUpdateView_post E user k data) w
          = (HttpResponseRedirect "accounts:supplier_list", w')
          /\ replaced_row (with_pk k data) k (suppliers (db w)) (suppliers (db w'))
          /\ db w' = append_log (mkActivityLog (pk user) "Fournisseur modifié" "info" "edit")
                                (with_objects (suppliers (db w')) (db w))
          /\ messages w'
             = (messages w
                ++ [(msg_success,
                     ("Fournisseur " ++ supplier_name data ++ " mis à jour !")%string)])%list)
  /\ (forall instance data,
        get_pk (categories (db w)) k = Some instance ->
        CategoryCreateForm E (db w) (Some instance) data = [] ->
        exists w',
          respond (CategoryUpdateView_post E user k data) w
          = (HttpResponseRedirect "accounts:category_list", w')
          /\ replaced_row (with_pk k data) k (categories (db w)) (categories (db w'))
          /\ db w' = append_log (mkActivityLog (pk user) "Catégorie modifiée" "info" "edit")
                                (with_objects (categories (db w')) (db w))
          /\ messages w'
             = (messages w
                ++ [(msg_success,
                     ("Catégorie '" ++ category_name data ++ "' mise à jour !")%string)])%list)
  /\ (forall instance data,
        get_pk (products (db w)) k = Some instance ->
        ProductCreateForm E (db w) (Some instance) data = [] ->
        exists w',
          respond (ProductUpdateView_post E user k data) w
          = (HttpResponseRedirect "accounts:product_list", w')
          /\ replaced_row (with_pk k data) k (products (db w)) (products (db w'))
          /\ db w' = append_log (mkActivityLog (pk user) "Produit modifié" "info" "edit")
                                (with_objects (products (db w')) (db w))
          /\ messages w'
             = (messages w
                ++ [(msg_success,
                     ("Produit '" ++ product_name data ++ "' mis à jour !")%string)])%list).
Proof.
  destruct w as [d ms]. cbn [db messages].
  split; [| split; [| split]].
  - intros instance data Hk Hget Hvalid.
    destruct (get_pk_some _ _ Hget) as [_ Hpk].
    assert (Hobj : pk (with_pk (A := User) k data) = k) by reflexivity.
    destruct (replaced_row_intro (with_pk k data) (users d) Hobj Hget)
      as [Hsave Hreplaced].
    unfold EmployeeUpdateView_post, EmployeeUpdateView_form_valid,
      EmployeeUpdateView_get_queryset.
    run_view. rewrite exclude_caller_get.
    destruct (k =? pk user) eqn:Hkk; [apply Z.eqb_eq in Hkk; contradiction |].
    rewrite Hget. cbn [db messages]. rewrite Hvalid. cbn [is_valid]. run_view.
    unfold save. change (objects (A := User) d) with (users d).
    change (user_pk instance) with (pk instance). rewrite Hpk, Hsave.
    eexists. split; [reflexivity |]. cbn [db messages].
    split; [exact Hreplaced | split; reflexivity].
  - intros instance data Hget Hvalid.
    destruct (get_pk_some _ _ Hget) as [_ Hpk].
    assert (Hobj : pk (with_pk (A := Supplier) k data) = k) by reflexivity.
    destruct (replaced_row_intro (with_pk k data) (suppliers d) Hobj Hget)
      as [Hsave Hreplaced].
    unfold SupplierUpdateView_post, SupplierUpdateView_form_valid.
    run_view. rewrite qs_get_objects_all. change (objects (A := Supplier) d) with (suppliers d).
    rewrite Hget. cbn [db messages]. rewrite Hvalid. cbn [is_valid]. run_view.
    unfold save. change (objects (A := Supplier) d) with (suppliers d).
    change (supplier_pk instance) with (pk instance). rewrite Hpk, Hsave.
    eexists. split; [reflexivity |]. cbn [db messages].
    split; [exact Hreplaced | split; reflexivity].
  - intros instance data Hget Hvalid.
    destruct (get_pk_some _ _ Hget) as [_ Hpk].
    assert (Hobj : pk (with_pk (A := Category) k data) = k) by reflexivity.
    destruct (replaced_row_intro (with_pk k data) (categories d) Hobj Hget)
      as [Hsave Hreplaced].
    unfold CategoryUpdateView_post, CategoryUpdateView_form_valid.
    run_view. rewrite qs_get_objects_all. change (objects (A := Category) d) with (categories d).
    rewrite Hget. cbn [db messages]. rewrite Hvalid. cbn [is_valid]. run_view.
    unfold save. change (objects (A := Category) d) with (categories d).
    change (category_pk instance) with (pk instance). rewrite Hpk, Hsave.
    eexists. split; [reflexivity |]. cbn [db messages].
    split; [exact Hreplaced | split; reflexivity].
  - intros instance data Hget Hvalid.
    destruct (get_pk_some _ _ Hget) as [_ Hpk].
    assert (Hobj : pk (with_pk (A := Product) k data) = k) by reflexivity.
    destruct (replaced_row_intro (with_pk k data) (products d) Hobj Hget)
      as [Hsave Hreplaced].
    unfold ProductUpdateView_post, ProductUpdateView_form_valid.
    run_view. rewrite qs_get_objects_all. change (objects (A := Product) d) with (products d).
    rewrite Hget. cbn [db messages]. rewrite Hvalid. cbn [is_valid]. run_view.
    unfold save. change (objects (A := Product) d) with (products d).
    change (product_pk instance) with (pk instance). rewrite Hpk, Hsave.
    eexists. split; [reflexivity |]. cbn [db messages].
    split; [exact Hreplaced | split; reflexivity].
Qed.

Lemma update_views_replace_one_row_witness :
  exists w',
    respond (SupplierUpdateView_post sample_E sample_admin 2
               (mkSupplier 0 "Encres Martin" "active" 8))
            (mkWorld sample_db_suppliers [])
    = (HttpResponseRedirect "accounts:supplier_list", w')
    /\ suppliers (db w')
       = [ mkSupplier 1 "Papeterie du Nord" "active" 3;
           mkSupplier 2 "Encres Martin" "active" 8;
           mkSupplier 3 "Nord Emballage" "active" 5 ]
    /\ messages w' = [(msg_success, "Fournisseur Encres Martin mis à jour !")].
Proof.
  destruct (proj1 (proj2 (update_views_replace_one_row sample_E sample_admin 2
                            (mkWorld sample_db_suppliers [])))
                  (mkSupplier 2 "Encres Martin" "suspended" 8)
                  (mkSupplier 0 "Encres Martin" "active" 8) eq_refl eq_refl)
    as (w' & Hr & (Hrows & _) & _ & Hm).
  exists w'. split; [exact Hr |]. split; [now rewrite Hrows | exact Hm].
Defined.

(** X12. A request for a key that no row has is answered with the
    not-found page and changes neither the store nor the notices: on the
    detail, update and delete screens of the employees, on the update and
    delete screens of the suppliers, the categories and the products, on
    the update screen of the sales whatever the method, on their delete
    screen, and on the JSON projection. *)
Theorem missing_record_is_not_found (E : Externals) (user : User) (k : Z) (w : World) :
  (get_pk (users (db w)) k = None ->
   respond (EmployeeDetailView_get user k) w = (Http404, w)
   /\ (forall data, respond (EmployeeUpdateView_post E user k data) w = (Http404, w))
   /\ respond (EmployeeDeleteView_delete E user k) w = (Http404, w))
  /\ (get_pk (suppliers (db w)) k = None ->
      (forall data, respond (SupplierUpdateView_post E user k data) w = (Http404, w))
      /\ respond (SupplierDeleteView_delete user k) w = (Http404, w))
  /\ (get_pk (categories (db w)) k = None ->
      (forall data, respond (CategoryUpdateView_post E user k data) w = (Http404, w))
      /\ respond (CategoryDeleteView_delete user k) w = (Http404, w))
  /\ (get_pk (products (db w)) k = None ->
      (forall data, respond (ProductUpdateView_post E user k data) w = (Http404, w))
      /\ respond (ProductDeleteView_delete user k) w = (Http404, w))
  /\ (get_pk (sales (db w)) k = None ->
      (forall method form formset,
          respond (sale_update E method user k form formset) w = (Http404, w))
      /\ respond (SaleDeleteView_delete user k) w = (Http404, w)
      /\ sale_detail_json E k (db w) = JsonNotFound).
Proof.
  destruct w as [d ms]. cbn [db].
  split; [| split; [| split; [| split]]]; intros Hnone.
  - unfold EmployeeDetailView_get, EmployeeUpdateView_post, EmployeeDeleteView_delete,
      EmployeeDetailView_get_queryset, EmployeeUpdateView_get_queryset,
      EmployeeDeleteView_get_queryset.
    run_view. rewrite exclude_caller_get, Hnone.
    destruct (k =? pk user); repeat split.
  - unfold SupplierUpdateView_post, SupplierDeleteView_delete. run_view.
    rewrite qs_get_objects_all. change (objects (A := Supplier) d) with (suppliers d).
    rewrite Hnone. repeat split.
  - unfold CategoryUpdateView_post, CategoryDeleteView_delete. run_view.
    rewrite qs_get_objects_all. change (objects (A := Category) d) with (categories d).
    rewrite Hnone. repeat split.
  - unfold ProductUpdateView_post, ProductDeleteView_delete. run_view.
    rewrite qs_get_objects_all. change (objects (A := Product) d) with (products d).
    rewrite Hnone. repeat split.
  - unfold sale_update, SaleDeleteView_delete, sale_detail_json. run_view.
    rewrite qs_get_objects_all. change (objects (A := Sale) d) with (sales d).
    rewrite Hnone. repeat split.
Qed.

Lemma missing_record_is_not_found_witness :
  respond (sale_update sample_E POST sample_cashier 9 sample_header sample_lines)
          sample_world
  = (Http404, sample_world)
  /\ respond (ProductDeleteView_delete sample_admin 9) sample_world
     = (Http404, sample_world)
  /\ sale_detail_json sample_E 9 sample_db = JsonNotFound.
Proof.
  destruct (missing_record_is_not_found sample_E sample_cashier 9 sample_world)
    as (_ & _ & _ & _ & Hsale).
  destruct (missing_record_is_not_found sample_E sample_admin 9 sample_world)
    as (_ & _ & _ & Hproduct & _).
  destruct (Hsale eq_refl) as (Hupdate & _ & Hjson).
  destruct (Hproduct eq_refl) as (_ & Hdelete).
  split; [apply Hupdate |]. split; [exact Hdelete | exact Hjson].
Defined.

(** Looks the object up wherever the view fetches it. *)
Ltac lookup_with Hget :=
  repeat progress
    (rewrite ?qs_get_objects_all;
     change (objects (A := Supplier)) with suppliers;
     change (objects (A := Category)) with categories;
     change (objects (A := Product)) with products;
     change (objects (A := Sale)) with sales;
     rewrite ?Hget; cbn [db messages]).



Lemma items_of_deleted_sale (k : Z) (sale : Sale) (rows : list Sale) (i : SaleItem) :
  get_pk rows k = Some sale ->
  existsb (fun s => item_sale i =? pk s) (filter (fun s => pk s =? k) rows)
  = (item_sale i =? k).
Proof.
  intros Hget. destruct (get_pk_some _ _ Hget) as [Hin Hpk].
  destruct (item_sale i =? k) eqn:Hi.
  - apply existsb_exists. exists sale. split.
    + apply filter_In. split; [assumption | now apply Z.eqb_eq].
    + apply Z.eqb_eq in Hi. apply Z.eqb_eq. congruence.
  - destruct (existsb _ _) eqn:Hex; [| reflexivity].
    apply existsb_exists in Hex as (s & Hs & Heq).
    apply filter_In in Hs as [_ Hs]. apply Z.eqb_eq in Hs, Heq.
    apply Z.eqb_neq in Hi. congruence.
Qed.

(** X14. Deleting a sale that exists removes the sale and every item of
    that sale, and nothing else: the items of the other sales, the other
    sales, the products and the users stay; the action is logged as a
    danger and the success notice carries the invoice number. *)
Theorem sale_delete_takes_its_items (user : User) (k : Z) (w : World) (sale : Sale) :
  get_pk (sales (db w)) k = Some sale ->
  exists w',
    respond (SaleDeleteView_delete user k) w
    = (HttpResponseRedirect "accounts:sale_list", w')
    /\ removed_row k (sales (db w)) (sales (db w'))
    /\ sale_items (db w') = filter (fun i => negb (item_sale i =? k)) (sale_items (db w))
    /\ (forall i, In i (sale_items (db w')) <-> In i (sale_items (db w)) /\ item_sale i <> k)
    /\ users (db w') = users (db w)
    /\ suppliers (db w') = suppliers (db w)
    /\ categories (db w') = categories (db w)
    /\ products (db w') = products (db w)
    /\ activity_log (db w')
       = (activity_log (db w)
          ++ [mkActivityLog (pk user) "Vente supprimée" "danger" "trash"])%list
    /\ messages w'
       = (messages w
          ++ [(msg_success, ("Vente " ++ invoice_number sale ++ " supprimée.")%string)])%list.
Proof.
  destruct w as [d ms]. cbn [db messages]. intros Hget.
  destruct (get_pk_some _ _ Hget) as [_ Hpk].
  unfold SaleDeleteView_delete, SaleDeleteView_super_delete. run_view.
  lookup_with Hget.
  eexists. split; [reflexivity |]. cbn [db messages].
  unfold delete_sales, append_log, delete_where, fetch, qs_filter, objects_all.
  cbn [where_ ordering andb users suppliers categories products sales sale_items
       activity_log objects with_objects Sale_Model SaleItem_Model].
  change (sale_pk sale) with (pk sale). rewrite Hpk.
  assert (Hitems : filter (fun r : SaleItem =>
                             negb (existsb (fun s : Sale => item_sale r =? pk s)
                                           (filter (fun r0 : Sale => pk r0 =? k) (sales d))))
                          (sale_items d)
                   = filter (fun i => negb (item_sale i =? k)) (sale_items d)).
  { apply filter_ext. intros i. f_equal. eapply items_of_deleted_sale. exact Hget. }
  split; [apply (removed_row_intro (A := Sale)) |].
  split; [exact Hitems |].
  split; [| repeat split].
  intros i. rewrite Hitems, filter_In, negb_true_iff, Z.eqb_neq.
  reflexivity.
Qed.

Lemma sale_delete_takes_its_items_witness :
  exists w',
    respond (SaleDeleteView_delete sample_cashier 1) sample_world
    = (HttpResponseRedirect "accounts:sale_list", w')
    /\ sales (db w') = [] /\ sale_items (db w') = []
    /\ messages w' = [(msg_success, "Vente INV-001 supprimée.")].
Proof.
  destruct (@sale_delete_takes_its_items sample_cashier 1 sample_world sample_sale eq_refl)
    as (w' & Hr & (Hsales & _) & Hitems & _ & _ & _ & _ & _ & _ & Hm).
  exists w'. split; [exact Hr |]. split; [now rewrite Hsales |].
  split; [now rewrite Hitems | exact Hm].
Defined.

(** ** More on the bulk deletion of sales *)

Lemma filter_keeps_all {A : Type} (p : A -> bool) (l : list A) :
  (forall x, In x l -> p x = true) -> filter p l = l.
Proof.
  induction l as [| x l IH]; intros Hall; cbn [filter]; [reflexivity |].
  rewrite (Hall x) by (left; reflexivity). f_equal. apply IH.
  intros y Hy. apply Hall. now right.
Qed.

Lemma bulk_delete_world (user : User) (id : Z) (ids : list Z) (d : DB) (ms : list Message) :
  respond (SaleBulkDeleteView_post user (id :: ids)) (mkWorld d ms)
  = (HttpResponseRedirect "accounts:sale_list",
     mkWorld
       (append_log
          (mkActivityLog
             (pk user)
             (str_nat (List.length
                         (filter (fun s => existsb (Z.eqb (pk s)) (id :: ids)) (sales d)))
              ++ " vente(s) supprimée(s) en masse")
             "danger" "trash")
          (mkDB (users d) (suppliers d) (categories d) (products d)
                (filter (fun s => negb (existsb (Z.eqb (pk s)) (id :: ids))) (sales d))
                (filter (fun i : SaleItem =>
                           negb (existsb (fun s : Sale => item_sale i =? pk s)
                                         (filter (fun s => existsb (Z.eqb (pk s)) (id :: ids))
                                                 (sales d))))
                        (sale_items d))
                (activity_log d)))
       (ms ++ [(msg_success,
                (str_nat (List.length
                            (filter (fun s => existsb (Z.eqb (pk s)) (id :: ids)) (sales d)))
                 ++ " vente(s) supprimée(s).")%string)])).
Proof. reflexivity. Qed.

(** X15. A bulk deletion removes, with the sales it matches, exactly the
    items of those sales: an item stays when it was there and its sale is
    not a sale of the store whose key was submitted; users, suppliers,
    categories and products are untouched, and one log entry that carries
    the number of sales matched is written in the name of the caller. *)
Theorem bulk_delete_takes_the_items (user : User) (ids : list Z) (w : World) :
  ids <> [] ->
  exists w',
    respond (SaleBulkDeleteView_post user ids) w
    = (HttpResponseRedirect "accounts:sale_list", w')
    /\ (forall i,
          In i (sale_items (db w'))
          <-> In i (sale_items (db w))
              /\ ~ (exists s, In s (sales (db w)) /\ In (pk s) ids /\ item_sale i = pk s))
    /\ (forall s, In s (sales (db w')) <-> In s (sales (db w)) /\ ~ In (pk s) ids)
    /\ users (db w') = users (db w)
    /\ suppliers (db w') = suppliers (db w)
    /\ categories (db w') = categories (db w)
    /\ products (db w') = products (db w)
    /\ activity_log (db w')
       = (activity_log (db w)
          ++ [mkActivityLog
                (pk user)
                (str_nat (List.length
                            (filter (fun s => existsb (Z.eqb (pk s)) ids) (sales (db w))))
                 ++ " vente(s) supprimée(s) en masse")
                "danger" "trash"])%list.
Proof.
  intros Hne. destruct ids as [| id ids]; [congruence |]. destruct w as [d ms].
  rewrite bulk_delete_world. eexists. split; [reflexivity |].
  cbn [db append_log users suppliers categories products sales sale_items activity_log].
  split; [| split; [| repeat split]].
  - intros i. rewrite filter_In, negb_true_iff. split.
    + intros [Hin Hex]. split; [assumption |]. intros (s & Hs & Hids & Heq).
      assert (Htrue : existsb (fun s0 : Sale => item_sale i =? pk s0)
                        (filter (fun s0 => existsb (Z.eqb (pk s0)) (id :: ids)) (sales d))
                      = true); [| congruence].
      apply existsb_exists. exists s. split; [| now apply Z.eqb_eq].
      apply filter_In. split; [assumption | now apply existsb_eqb_In].
    + intros [Hin Hno]. split; [assumption |].
      destruct (existsb _ _) eqn:Hex; [| reflexivity].
      exfalso. apply Hno. apply existsb_exists in Hex as (s & Hs & Heq).
      apply filter_In in Hs as [Hs Hids]. exists s.
      split; [assumption |]. split; [now apply existsb_eqb_In | now apply Z.eqb_eq].
  - intros s. rewrite filter_In, negb_true_iff. split.
    + intros [Hin Hex]. split; [assumption |]. intros Hids.
      apply existsb_eqb_In in Hids. congruence.
    + intros [Hin Hno]. split; [assumption |].
      destruct (existsb _ _) eqn:Hex; [| reflexivity].
      exfalso. apply Hno. now apply existsb_eqb_In.
Qed.

Lemma bulk_delete_takes_the_items_witness :
  exists w',
    respond (SaleBulkDeleteView_post sample_cashier [1; 5]) sample_world
    = (HttpResponseRedirect "accounts:sale_list", w')
    /\ sale_items (db w') = []
    /\ activity_log (db w')
       = [mkActivityLog 2 "1 vente(s) supprimée(s) en masse" "danger" "trash"].
Proof.
  destruct (@bulk_delete_takes_the_items sample_cashier [1; 5] sample_world)
    as (w' & Hr & _).
  - discriminate.
  - exists w'. split; [exact Hr |].
    vm_compute in Hr. injection Hr as <-. split; reflexivity.
Defined.

Lemma with_same_tables (d : DB) :
  mkDB (users d) (suppliers d) (categories d) (products d) (sales d) (sale_items d)
       (activity_log d) = d.
Proof. now destruct d. Qed.

(** A bulk deletion whose identifiers match no sale. *)
Lemma bulk_delete_no_match (user : User) (ids : list Z) (d : DB) (ms : list Message) :
  ids <> [] ->
  (forall s, In s (sales d) -> ~ In (pk s) ids) ->
  respond (SaleBulkDeleteView_post user ids) (mkWorld d ms)
  = (HttpResponseRedirect "accounts:sale_list",
     mkWorld
       (append_log (mkActivityLog (pk user) "0 vente(s) supprimée(s) en masse"
                                  "danger" "trash") d)
       (ms ++ [(msg_success, "0 vente(s) supprimée(s).")])).
Proof.
  intros Hne Hnone. destruct ids as [| id ids]; [congruence |].
  rewrite bulk_delete_world.
  assert (Hmatched : filter (fun s => existsb (Z.eqb (pk s)) (id :: ids)) (sales d) = []).
  { apply (proj1 (length_zero_iff_nil _)). apply count_none. intros s Hs.
    destruct (existsb (Z.eqb (pk s)) (id :: ids)) eqn:Hex; [| reflexivity].
    apply existsb_eqb_In in Hex. exfalso. now apply (Hnone s). }
  rewrite Hmatched. cbn [List.length].
  rewrite (filter_keeps_all _ (sale_items d)) by reflexivity.
  rewrite (filter_keeps_all _ (sales d)).
  - unfold append_log.
    cbn [users suppliers categories products sales sale_items activity_log].
    reflexivity.
  - intros s Hs. apply negb_true_iff.
    destruct (existsb (Z.eqb (pk s)) (id :: ids)) eqn:Hex; [| reflexivity].
    apply existsb_eqb_In in Hex. exfalso. now apply (Hnone s).
Qed.

(** X16. Identifiers that match no sale are not the empty selection: the
    view deletes nothing, yet it queues the success notice with a count of
    zero (not the informational notice) and writes a log entry.  This is
    what a bulk deletion repeated with the same identifiers does: the
    second run finds nothing left to delete. *)
Theorem bulk_delete_without_match (user : User) (ids : list Z) (w : World) :
  ids <> [] ->
  ((forall s, In s (sales (db w)) -> ~ In (pk s) ids) ->
   respond (SaleBulkDeleteView_post user ids) w
   = (HttpResponseRedirect "accounts:sale_list",
      mkWorld
        (append_log (mkActivityLog (pk user) "0 vente(s) supprimée(s) en masse"
                                   "danger" "trash") (db w))
        (messages w ++ [(msg_success, "0 vente(s) supprimée(s).")])))
  /\ (forall w',
        w' = snd (respond (SaleBulkDeleteView_post user ids) w) ->
        respond (SaleBulkDeleteView_post user ids) w'
        = (HttpResponseRedirect "accounts:sale_list",
           mkWorld
             (append_log (mkActivityLog (pk user) "0 vente(s) supprimée(s) en masse"
                                        "danger" "trash") (db w'))
             (messages w' ++ [(msg_success, "0 vente(s) supprimée(s).")]))).
Proof.
  intros Hne. split.
  - intros Hnone. destruct w as [d ms]. now apply bulk_delete_no_match.
  - intros w' ->. destruct w as [d ms].
    destruct ids as [| id ids]; [congruence |].
    rewrite bulk_delete_world. cbn [snd].
    apply bulk_delete_no_match; [discriminate |].
    intros s Hs Hids. cbn [append_log sales] in Hs.
    apply filter_In in Hs as [_ Hs]. apply negb_true_iff in Hs.
    apply existsb_eqb_In in Hids. congruence.
Qed.

Lemma bulk_delete_without_match_witness :
  respond (SaleBulkDeleteView_post sample_cashier [7; 8]) sample_world
  = (HttpResponseRedirect "accounts:sale_list",
     mkWorld
       (mkDB (users sample_db) [] (categories sample_db) (products sample_db)
             [sample_sale] sample_items
             [mkActivityLog 2 "0 vente(s) supprimée(s) en masse" "danger" "trash"])
       [(msg_success, "0 vente(s) supprimée(s).")]).
Proof.
  apply (proj1 (@bulk_delete_without_match sample_cashier [7; 8] sample_world
                  ltac:(discriminate))).
  intros s [<- | []] [Hid | [Hid | []]]; discriminate Hid.
Defined.

(** ** The activity log *)







(** ** The routes *)

Section Routes.
Import CoreUrls.

Lemma drop_prefix_app (l s : string) : drop_prefix l (l ++ s) = Some s.
Proof.
  induction l as [| a l IH]; cbn [drop_prefix append]; [reflexivity |].
  now rewrite Ascii.eqb_refl.
Qed.

Lemma span_digits_app (ds rest : string) (c : ascii) :
  all_digits ds = true -> is_digit c = false ->
  span_digits (ds ++ String c rest) = (ds, String c rest).
Proof.
  intros Hds Hc. induction ds as [| a ds IH]; cbn [append span_digits].
  - now rewrite Hc.
  - cbn [all_digits] in Hds. apply andb_prop in Hds as [Ha Hds].
    now rewrite Ha, (IH Hds).
Qed.

Lemma int_of_digits_str_N (n : N) : int_of_digits (str_N n) = Some n.
Proof.
  unfold int_of_digits, str_N. rewrite NilEmpty.usu. cbn [option_map].
  now rewrite DecimalN.Unsigned.of_to.
Qed.

Lemma match_int_route (param : string) (parts : list PathPart) (n : N) (rest : string) :
  match_route (IntConverter param :: parts) (str_N n ++ String "/" rest)
  = option_map (cons (param, n)) (match_route parts (String "/" rest)).
Proof.
  cbn [match_route]. rewrite span_digits_app by (apply str_N_digits || reflexivity).
  rewrite int_of_digits_str_N.
  destruct (str_N n) eqn:Hs; [now apply str_N_nonempty in Hs |].
  destruct (match_route parts (String "/" rest)); reflexivity.
Qed.

Lemma supplier_route_match (parts : list PathPart) (n : N) (rest : string) :
  match_route (Literal "suppliers/" :: IntConverter "pk" :: parts)
              ("suppliers/" ++ str_N n ++ String "/" rest)
  = option_map (cons ("pk", n)) (match_route parts (String "/" rest)).
Proof. exact (match_int_route "pk" parts n rest). Qed.

Lemma resolve_in_miss (u : URLPattern) (patterns : list URLPattern) (p : string) :
  match_route (route u) p = None -> resolve_in (u :: patterns) p = resolve_in patterns p.
Proof. intros Hmiss. cbn [resolve_in]. now rewrite Hmiss. Qed.

Lemma str_N_first (n : N) : exists c s, str_N n = String c s /\ is_digit c = true.
Proof.
  pose proof (str_N_digits n) as Hd.
  destruct (str_N n) as [| c s] eqn:Hs; [now apply str_N_nonempty in Hs |].
  cbn [all_digits] in Hd. apply andb_prop in Hd as [Hc _]. now exists c, s.
Qed.


Lemma match_route_digits_end (n : N) (s : string) : match_route [] (str_N n ++ s) = None.
Proof. destruct (str_N_first n) as (c & t & -> & _). reflexivity. Qed.

Lemma match_route_add (n : N) (s : string) : match_route [Literal "add/"] (str_N n ++ s) = None.
Proof.
  destruct (str_N_first n) as (c & t & -> & Hc). cbn [match_route drop_prefix append].
  destruct (Ascii.eqb_spec "a" c) as [<- |]; [discriminate Hc | reflexivity].
Qed.

Lemma resolve_supplier (n : N) (rest : string) :
  resolve ("suppliers/" ++ str_N n ++ String "/" rest)
  = match match_route [Literal "/"] (String "/" rest),
          match_route [Literal "/edit/"] (String "/" rest),
          match_route [Literal "/delete/"] (String "/" rest) with
    | Some kw, _, _ =>
        Some (path [Literal "suppliers/"; IntConverter "pk"; Literal "/"]
                   "SupplierDetailView" true "supplier_detail", ("pk", n) :: kw)
    | None, Some kw, _ =>
        Some (path [Literal "suppliers/"; IntConverter "pk"; Literal "/edit/"]
                   "SupplierUpdateView" true "supplier_update", ("pk", n) :: kw)
    | None, None, Some kw =>
        Some (path [Literal "suppliers/"; IntConverter "pk"; Literal "/delete/"]
                   "SupplierDeleteView" true "supplier_delete", ("pk", n) :: kw)
    | None, None, None => None
    end.
Proof.
  unfold resolve, urlpatterns.
  do 6 (rewrite resolve_in_miss by reflexivity).
  rewrite resolve_in_miss by apply (match_route_digits_end n).
  rewrite resolve_in_miss by apply (match_route_add n).
  cbn [resolve_in route].
  rewrite !supplier_route_match.
  destruct (match_route [Literal "/"] (String "/" rest)); [reflexivity |].
  destruct (match_route [Literal "/edit/"] (String "/" rest)); [reflexivity |].
  cbn [option_map].
  destruct (match_route [Literal "/delete/"] (String "/" rest)); reflexivity.
Qed.
Lemma reverse_in_cons (u : URLPattern) (patterns : list URLPattern) (nm : string)
  (kwargs : list (string * N)) :
  reverse_in (u :: patterns) nm kwargs
  = if String.eqb (name u) nm then
      match build (route u) kwargs with
      | Some p => Some p
      | None => reverse_in patterns nm kwargs
      end
    else reverse_in patterns nm kwargs.
Proof. reflexivity. Qed.

Lemma reverse_in_absent (patterns : list URLPattern) (nm : string)
  (kwargs : list (string * N)) :
  forallb (fun u => negb (String.eqb (name u) nm)) patterns = true ->
  reverse_in patterns nm kwargs = None.
Proof.
  induction patterns as [| u patterns IH]; cbn [forallb reverse_in]; [reflexivity |].
  intros Hall. apply andb_prop in Hall as [Hu Hall].
  apply negb_true_iff in Hu. rewrite Hu. now apply IH.
Qed.

Ltac literal_route :=
  match goal with
  | kwargs : list (string * N) |- _ =>
      destruct kwargs as [| [? ?] ?]; cbn [build option_map]; [| discriminate]
  end;
  intros [= <-]; eexists; split; [| split]; cycle 2;
  [ vm_compute; reflexivity | cbn [In]; tauto | reflexivity ].

Ltac int_route rest :=
  match goal with
  | kwargs : list (string * N) |- _ =>
      destruct kwargs as [| [key n] [| ? ?]]; cbn [build option_map]; try discriminate
  end;
  match goal with
  | |- context [String.eqb ?key "pk"] =>
      destruct (String.eqb_spec key "pk") as [-> |]; cbn [option_map]; [| discriminate]
  end;
  intros [= <-]; eexists; split; [| split]; cycle 2;
  [ match goal with
    | |- context [str_N ?n] =>
        match goal with
        | |- resolve _ = ?rhs =>
            change (resolve ("suppliers/" ++ str_N n ++ String "/" rest) = rhs)
        end;
        rewrite resolve_supplier; reflexivity
    end
  | cbn [In]; tauto | reflexivity ].

(** Takes the first pattern left: the name asked for is its name, and no
    later pattern has it, or the search goes on. *)
Ltac next_route tac :=
  rewrite reverse_in_cons; cbn [name route];
  match goal with
  | |- context [String.eqb ?a ?nm] => destruct (String.eqb_spec a nm) as [<- | _]
  end; [rewrite reverse_in_absent by reflexivity; tac |].

(** X18. Reversing a route name and resolving the path it gives come
    back to the same route with the same arguments: whenever [reverse]
    finds a path for a name and keyword arguments, [resolve] sends that
    path to a pattern of that name with those arguments.  No route of the
    file is hidden behind an earlier one; [suppliers/add/] in particular
    is not taken for a supplier key. *)
Theorem reverse_then_resolve (nm : string) (kwargs : list (string * N)) (p : string) :
  reverse nm kwargs = Some p ->
  exists u, In u urlpatterns /\ name u = nm /\ resolve p = Some (u, kwargs).
Proof.
  unfold reverse, urlpatterns.
  next_route literal_route. next_route literal_route. next_route literal_route.
  next_route literal_route. next_route literal_route. next_route literal_route.
  next_route literal_route. next_route literal_route.
  next_route ltac:(int_route EmptyString).
  next_route ltac:(int_route "edit/").
  next_route ltac:(int_route "delete/").
  next_route literal_route.
  discriminate.
Qed.

Lemma reverse_then_resolve_witness :
  reverse "supplier_update" [("pk", 12%N)] = Some "suppliers/12/edit/"
  /\ exists u,
       In u urlpatterns
       /\ name u = "supplier_update"
       /\ resolve "suppliers/12/edit/" = Some (u, [("pk", 12%N)]).
Proof.
  split; [reflexivity |].
  apply (@reverse_then_resolve "supplier_update" [("pk", 12%N)] "suppliers/12/edit/").
  reflexivity.
Defined.

Lemma resolve_in_In (patterns : list URLPattern) (p : string) (u : URLPattern)
  (kwargs : list (string * N)) :
  resolve_in patterns p = Some (u, kwargs) ->
  In u patterns /\ match_route (route u) p = Some kwargs.
Proof.
  induction patterns as [| v patterns IH]; cbn [resolve_in]; [discriminate |].
  destruct (match_route (route v) p) as [kw |] eqn:Hv.
  - intros [= <- <-]. split; [now left | exact Hv].
  - intros Hrest. destruct (IH Hrest) as [Hin Hm]. split; [now right | exact Hm].
Qed.

Lemma drop_prefix_Some (l s rest : string) :
  drop_prefix l s = Some rest -> s = (l ++ rest)%string.
Proof.
  revert s. induction l as [| a l IH]; intros s; cbn [drop_prefix append].
  - now intros [= ->].
  - destruct s as [| b s]; [discriminate |].
    destruct (Ascii.eqb_spec a b) as [<- |]; [| discriminate].
    intros Hrest. now rewrite (IH _ Hrest).
Qed.

(** X19. Every path the routes of [core/urls.py] serve asks for a login,
    but one: a path that resolves to a view not wrapped in
    [login_required] is [home/], served by [HomeRedirectView]. *)
Theorem only_home_is_public (p : string) (u : URLPattern) (kwargs : list (string * N)) :
  resolve p = Some (u, kwargs) ->
  login_required u = false ->
  p = "home/" /\ view u = "HomeRedirectView" /\ kwargs = [].
Proof.
  intros Hres Hpublic. apply resolve_in_In in Hres as [Hin Hm].
  unfold urlpatterns in Hin. cbn [In] in Hin.
  repeat (destruct Hin as [<- | Hin]; [try discriminate Hpublic |]); [| destruct Hin].
  cbn [route match_route] in Hm.
  destruct (drop_prefix "home/" p) as [rest |] eqn:Hdrop; [| discriminate].
  apply drop_prefix_Some in Hdrop. destruct rest; [| discriminate].
  injection Hm as <-. now subst p.
Qed.

Lemma only_home_is_public_witness :
  resolve "home/" = Some (path [Literal "home/"] "HomeRedirectView" false "home", [])
  /\ "home/" = "home/"
  /\ view (path [Literal "home/"] "HomeRedirectView" false "home") = "HomeRedirectView"
  /\ @nil (string * N) = [].
Proof.
  split; [reflexivity |].
  apply (@only_home_is_public "home/" (path [Literal "home/"] "HomeRedirectView" false "home")
           []); reflexivity.
Defined.

(** X20. After a login the user is sent to a route that exists: the name
    [UserLoginView.get_success_url] reverses is the qualified name of a
    pattern of [core/urls.py] that takes no argument, whose path resolves
    to it and asks for a login.  It is the dashboard exactly for the
    principals that pass the test of [AdminRequiredMixin], and the caisse
    for everyone else. *)
Theorem login_lands_on_a_route (user : Principal) :
  exists u p,
    qualified_name u = UserLoginView_get_success_url user
    /\ reverse (name u) [] = Some p
    /\ resolve p = Some (u, [])
    /\ login_required u = true
    /\ view u = if AdminRequiredMixin_test_func user then "DashboardView" else "CaisseView".
Proof.
  unfold UserLoginView_get_success_url, AdminRequiredMixin_test_func.
  destruct (is_admin user) eqn:Hadmin.
  - destruct user as [| x]; [discriminate Hadmin |]. cbn [is_authenticated andb].
    exists (path [Literal "dashboard/"] "DashboardView" true "dashboard"), "dashboard/".
    repeat split.
  - rewrite andb_false_r.
    exists (path [Literal "caisse/"] "CaisseView" true "caisse"), "caisse/".
    repeat split.
Qed.
End Routes.

(** ** More on the JSON projection *)

Lemma digit_inj (a b : Z) : 0 <= a < 10 -> 0 <= b < 10 -> digit a = digit b -> a = b.
Proof.
  intros Ha Hb Heq. unfold digit in Heq. apply (f_equal nat_of_ascii) in Heq.
  rewrite !nat_ascii_embedding in Heq by lia. lia.
Qed.

Lemma str_N_inj (n m : N) : str_N n = str_N m -> n = m.
Proof.
  intros Heq. apply (f_equal CoreUrls.int_of_digits) in Heq.
  rewrite !int_of_digits_str_N in Heq. congruence.
Qed.

Lemma digits_point_inj (s1 s2 t1 t2 : string) :
  all_digits s1 = true -> all_digits s2 = true ->
  (s1 ++ String "." t1 = s2 ++ String "." t2)%string -> s1 = s2 /\ t1 = t2.
Proof.
  revert s2. induction s1 as [| a s1 IH]; intros [| b s2] H1 H2 Heq;
    cbn [append all_digits] in *.
  - injection Heq as ->. now split.
  - injection Heq as <- _. discriminate H2.
  - injection Heq as -> _. discriminate H1.
  - injection Heq as -> Heq.
    apply andb_prop in H1 as [_ H1]. apply andb_prop in H2 as [_ H2].
    destruct (IH _ H1 H2 Heq) as [-> ->]. now split.
Qed.

Lemma fmt_2f_body_inj (a b : Z) :
  0 <= a -> 0 <= b ->
  (str_N (Z.to_N (a / 100))
   ++ String "." (String (digit ((a / 10) mod 10)) (String (digit (a mod 10)) EmptyString))
   = str_N (Z.to_N (b / 100))
     ++ String "." (String (digit ((b / 10) mod 10)) (String (digit (b mod 10)) EmptyString)))%string ->
  a = b.
Proof.
  intros Ha Hb Heq.
  apply digits_point_inj in Heq as [Hint Hfrac]; try apply str_N_digits.
  apply str_N_inj in Hint. injection Hfrac as Htens Hunits.
  apply digit_inj in Htens; [| apply Z.mod_pos_bound; lia ..].
  apply digit_inj in Hunits; [| apply Z.mod_pos_bound; lia ..].
  assert (Hq : a / 100 = b / 100).
  { apply (f_equal Z.of_N) in Hint. rewrite !Z2N.id in Hint by (apply Z.div_pos; lia).
    exact Hint. }
  pose proof (Z.div_mod a 10 ltac:(lia)) as Ea.
  pose proof (Z.div_mod b 10 ltac:(lia)) as Eb.
  pose proof (Z.div_mod (a / 10) 10 ltac:(lia)) as Ea'.
  pose proof (Z.div_mod (b / 10) 10 ltac:(lia)) as Eb'.
  rewrite Z.div_div in Ea', Eb' by lia. change (10 * 10) with 100 in Ea', Eb'.
  lia.
Qed.

(** The two-decimal text of an amount tells the amount. *)
Lemma fmt_2f_inj (a b : Z) : fmt_2f a = fmt_2f b -> a = b.
Proof.
  unfold fmt_2f.
  destruct (Z.ltb_spec a 0) as [Ha | Ha], (Z.ltb_spec b 0) as [Hb | Hb];
    cbn [append]; intros Heq.
  - injection Heq as Heq. apply fmt_2f_body_inj in Heq; lia.
  - destruct (str_N_first (Z.to_N (Z.abs b / 100))) as (c & s & Hs & Hc).
    rewrite Hs in Heq. injection Heq as <- _. discriminate Hc.
  - destruct (str_N_first (Z.to_N (Z.abs a / 100))) as (c & s & Hs & Hc).
    rewrite Hs in Heq. injection Heq as -> _. discriminate Hc.
  - apply fmt_2f_body_inj in Heq; lia.
Qed.

(** X21. The amounts of the JSON document lose nothing of the stored
    amounts.  For a sale that is answered with a document, the subtotal
    and the total of the document are the same text exactly when the
    stored total is the sum of quantity times unit price over the items
    of the sale, and the discount reads "0.00" exactly when the sale has
    no discount or a discount of zero. *)
Theorem json_amounts_tell_the_total
  (E : Externals) (d : DB) (k : Z) (sale : Sale) (body : SaleJson) :
  get_pk (sales d) k = Some sale ->
  sale_detail_json E k d = JsonOk body ->
  (json_subtotal body = json_total_amount body
   <-> total_amount sale
       = sum (map (fun i => quantity i * unit_price i) (fetch (items sale) d)))
  /\ (json_discount body = "0.00"
      <-> discount sale = None \/ discount sale = Some 0).
Proof.
  intros Hsale. unfold sale_detail_json. rewrite qs_get_objects_all_sales, Hsale.
  destruct (get_pk (users d) (cashier sale)); [| discriminate].
  destruct (all_some _); [| discriminate].
  intros [= <-]. cbn [json_subtotal json_total_amount json_discount]. split.
  - split.
    + intros Heq. apply fmt_2f_inj in Heq. symmetry. exact Heq.
    + intros ->. reflexivity.
  - destruct (discount sale) as [c |].
    + split.
      * intros Heq. right. f_equal. apply fmt_2f_inj. exact Heq.
      * intros [Hnone | [= ->]]; [discriminate Hnone | reflexivity].
    + split; [now left | reflexivity].
Qed.

(** The sample sale stores 25.00 for two pens at 10.00 and one ink at
    5.00: the document shows the same text twice. *)
Lemma json_amounts_tell_the_total_witness :
  exists body,
    sale_detail_json sample_E 1 sample_db = JsonOk body
    /\ json_subtotal body = "25.00"
    /\ (json_subtotal body = json_total_amount body
        <-> total_amount sample_sale
            = sum (map (fun i => quantity i * unit_price i)
                       (fetch (items sample_sale) sample_db)))
    /\ (json_discount body = "0.00"
        <-> discount sample_sale = None \/ discount sample_sale = Some 0).
Proof.
  eexists. split; [vm_compute; reflexivity |]. split; [reflexivity |].
  apply (@json_amounts_tell_the_total sample_E sample_db 1 sample_sale); reflexivity.
Defined.



(** ** What a sale submission leaves alone *)

Section SaveRowFacts.
Context {A : Type} `{Model A}.


End SaveRowFacts.










